(** * AirSense AI (tkinter v1/AQAI.py): data model and orchestration layer

    A shallow embedding of [AQIData], the service adapters and the
    trigger/worker/callback chain of [AirSenseApp], followed by the
    properties of the specification that concern them.

    Conventions of the embedding.
    - A Python [str] is a [string]: a sequence of code points below 256.
    - A decoded JSON document is a [Py.value]; a JSON object is an association
      list whose first binding of a key is the one lookups see.
    - A Python [float] is a binary64 [float] of the kernel.
    - A raised exception is [Py.Raise]; only the class of an exception (and
      the message given in the source, where the source raises it) matters.
    - Builtins whose grammar lives in the interpreter ([int] and [float] of a
      string, [datetime.fromisoformat], [str.upper], the clock) are fields of
      [Py.Runtime]. *)

From Stdlib Require Import ZArith List String Ascii Bool Floats Lia.
Import ListNotations.

Local Open Scope string_scope.
Local Open Scope list_scope.

(* ================================================================== *)
(** ** Python values and builtins *)
(* ================================================================== *)

Module Py.

Inductive exn_class :=
| KeyError | IndexError | TypeError | ValueError | AttributeError
| OverflowError | OSError | OtherException.

(** [exn_msg] is the argument the source gives when it raises the exception
    itself; [None] for exceptions raised by the interpreter or a library. *)
Record exn := mk_exn { exn_cls : exn_class; exn_msg : option string }.

Inductive result (A : Type) :=
| Ok (a : A)
| Raise (e : exn).
Arguments Ok {A} a.
Arguments Raise {A} e.

Definition raise {A} (c : exn_class) : result A := Raise (mk_exn c None).

Definition exn_class_eqb (a b : exn_class) : bool :=
  match a, b with
  | KeyError, KeyError | IndexError, IndexError | TypeError, TypeError
  | ValueError, ValueError | AttributeError, AttributeError
  | OverflowError, OverflowError | OSError, OSError
  | OtherException, OtherException => true
  | _, _ => false
  end.

(** [except (c1, ..., cn)]: none of the classes used here derives from
    another one of them. *)
Definition caught_by (classes : list exn_class) (e : exn) : bool :=
  existsb (exn_class_eqb (exn_cls e)) classes.

#[local] Set Warnings "-register-all".

Inductive value :=
| VNone
| VBool (b : bool)
| VInt (z : Z)
| VFloat (f : float)
| VStr (s : string)
| VList (l : list value)
| VDict (d : list (string * value)).

Class Runtime := {
  datetime : Type;
  (** [datetime.fromisoformat] of a string; [None] is [ValueError]. *)
  fromisoformat : string -> option datetime;
  (** [datetime.now(timezone.utc)]. *)
  now_utc : datetime;
  (** [int(s)] and [float(s)] of a string; [None] is [ValueError]. *)
  int_of_str : string -> option Z;
  float_of_str : string -> option float;
  (** [str.upper]. *)
  upper : string -> string
}.

(** Truth value of an object, as [if x] and [not x] test it. *)
Definition truthy (v : value) : bool :=
  match v with
  | VNone => false
  | VBool b => b
  | VInt z => negb (Z.eqb z 0)
  | VFloat f => negb (PrimFloat.eqb f 0%float)
  | VStr s => negb (String.eqb s "")
  | VList l => match l with [] => false | _ => true end
  | VDict d => match d with [] => false | _ => true end
  end.

(** [v == s] for a string literal [s]. *)
Definition eq_str (v : value) (s : string) : bool :=
  match v with
  | VStr t => String.eqb t s
  | _ => false
  end.

Fixpoint lookup {A} (k : string) (d : list (string * A)) : option A :=
  match d with
  | [] => None
  | (k', x) :: rest => if String.eqb k k' then Some x else lookup k rest
  end.

(** [d[k] = x] on a dict: an existing key keeps its place. *)
Fixpoint dict_set {A} (d : list (string * A)) (k : string) (x : A)
  : list (string * A) :=
  match d with
  | [] => [(k, x)]
  | (k', y) :: rest =>
      if String.eqb k k' then (k', x) :: rest else (k', y) :: dict_set rest k x
  end.

(** [v.get(k, default)]; only a dict has the method. *)
Definition get (v : value) (k : string) (default : value) : result value :=
  match v with
  | VDict d => Ok (match lookup k d with Some x => x | None => default end)
  | _ => raise AttributeError
  end.

(** [v.items()]. *)
Definition items (v : value) : result (list (string * value)) :=
  match v with
  | VDict d => Ok d
  | _ => raise AttributeError
  end.

(** [k in v] for a string [k]. *)
Definition contains (k : string) (v : value) : result bool :=
  match v with
  | VDict d => Ok (match lookup k d with Some _ => true | None => false end)
  | VList l => Ok (existsb (fun x => eq_str x k) l)
  | VStr s => Ok (match String.index 0 k s with Some _ => true | None => false end)
  | VNone | VBool _ | VInt _ | VFloat _ => raise TypeError
  end.

(** [v[k]] for a string [k]. *)
Definition subscript_str (v : value) (k : string) : result value :=
  match v with
  | VDict d => match lookup k d with Some x => Ok x | None => raise KeyError end
  | _ => raise TypeError
  end.

(** [v[i]] for a literal index [i >= 0]. A dict decoded from JSON has
    string keys only, so an integer key is never present. *)
Definition subscript_nat (v : value) (i : nat) : result value :=
  match v with
  | VList l => match nth_error l i with Some x => Ok x | None => raise IndexError end
  | VStr s => match String.get i s with
              | Some c => Ok (VStr (String c ""))
              | None => raise IndexError
              end
  | VDict _ => raise KeyError
  | VNone | VBool _ | VInt _ | VFloat _ => raise TypeError
  end.

(** [int(f)] of a float: truncation toward zero. *)
Definition int_of_float (f : float) : result Z :=
  match Prim2SF f with
  | S754_zero _ => Ok 0%Z
  | S754_infinity _ => raise OverflowError
  | S754_nan => raise ValueError
  | S754_finite s m e =>
      let v := if (0 <=? e)%Z then (Zpos m * 2 ^ e)%Z
               else Z.shiftr (Zpos m) (- e) in
      Ok (if s then (- v)%Z else v)
  end.

(** [float(z)] of an int: nearest binary64, [OverflowError] beyond the range. *)
Definition float_of_Z (z : Z) : result float :=
  match binary_normalize prec emax z 0 false with
  | S754_infinity _ => raise OverflowError
  | sf => Ok (SF2Prim sf)
  end.

Section Builtins.
Context {rt : Runtime}.

(** [int(v)]. *)
Definition int_of (v : value) : result Z :=
  match v with
  | VInt z => Ok z
  | VBool b => Ok (if b then 1%Z else 0%Z)
  | VFloat f => int_of_float f
  | VStr s => match int_of_str s with Some z => Ok z | None => raise ValueError end
  | VNone | VList _ | VDict _ => raise TypeError
  end.

(** [float(v)]. *)
Definition float_of (v : value) : result float :=
  match v with
  | VFloat f => Ok f
  | VInt z => float_of_Z z
  | VBool b => Ok (if b then 1%float else 0%float)
  | VStr s => match float_of_str s with Some f => Ok f | None => raise ValueError end
  | VNone | VList _ | VDict _ => raise TypeError
  end.

(** [datetime.fromisoformat(v)]. *)
Definition fromisoformat_of (v : value) : result datetime :=
  match v with
  | VStr s => match fromisoformat s with Some t => Ok t | None => raise ValueError end
  | _ => raise TypeError
  end.

(** [v.upper()]; only a string has the method. *)
Definition upper_of (v : value) : result string :=
  match v with
  | VStr s => Ok (upper s)
  | _ => raise AttributeError
  end.

End Builtins.

(** *** Strings *)

(** [str.isspace] of one character, for code points below 256; the class
    [\s] of [re] on a [str] pattern is the same set. *)
Definition isspace (c : ascii) : bool :=
  let n := nat_of_ascii c in
  (Nat.leb 9 n && Nat.leb n 13) || (Nat.leb 28 n && Nat.leb n 32)
  || Nat.eqb n 133 || Nat.eqb n 160.

(** [\d] of [re] on a [str] pattern, for code points below 256. *)
Definition isdecimal (c : ascii) : bool :=
  let n := nat_of_ascii c in Nat.leb 48 n && Nat.leb n 57.

Fixpoint lstrip_by (p : ascii -> bool) (s : string) : string :=
  match s with
  | String c rest => if p c then lstrip_by p rest else s
  | EmptyString => EmptyString
  end.

(** Drops the longest suffix whose characters all satisfy [p]. *)
Fixpoint rstrip_by (p : ascii -> bool) (s : string) : string :=
  match s with
  | EmptyString => EmptyString
  | String c rest =>
      match rstrip_by p rest with
      | EmptyString => if p c then EmptyString else String c EmptyString
      | r => String c r
      end
  end.

Definition strip_by (p : ascii -> bool) (s : string) : string :=
  rstrip_by p (lstrip_by p s).

(** [s.strip()] and [s.strip(c)] for a one-character argument. *)
Definition strip (s : string) : string := strip_by isspace s.
Definition strip_char (c : ascii) (s : string) : string := strip_by (Ascii.eqb c) s.

(** [s.split(sep)] for a one-character separator. *)
Fixpoint split (sep : ascii) (s : string) : list string :=
  match s with
  | EmptyString => [EmptyString]
  | String c rest =>
      if Ascii.eqb c sep then EmptyString :: split sep rest
      else match split sep rest with
           | piece :: pieces => String c piece :: pieces
           | [] => [String c EmptyString]
           end
  end.

(** [v.split(',')[0]]; only a string has the method, and the list [split]
    returns is never empty. *)
Definition split_comma_first (v : value) : result string :=
  match v with
  | VStr s => match split "," s with
              | piece :: _ => Ok piece
              | [] => raise IndexError
              end
  | _ => raise AttributeError
  end.

(** [str.lower] for code points below 256. *)
Definition lower_char (c : ascii) : ascii :=
  let n := nat_of_ascii c in
  if (Nat.leb 65 n && Nat.leb n 90)
     || (Nat.leb 192 n && Nat.leb n 222 && negb (Nat.eqb n 215))
  then ascii_of_nat (n + 32) else c.

Fixpoint lower (s : string) : string :=
  match s with
  | EmptyString => EmptyString
  | String c rest => String (lower_char c) (lower rest)
  end.

End Py.

Import Py.

(* ================================================================== *)
(** ** Data model: [class AQIData] *)
(* ================================================================== *)

Module AQIData.
Section WithRuntime.
Context {rt : Runtime}.

(** The attributes of an instance; [None] while an attribute is unset. *)
Record t := mk {
  is_valid : option bool;
  overall_aqi : option Z;
  location_name : option value;
  city : option string;
  country : option string;
  latitude : option value;
  longitude : option value;
  distance_km : option Z;
  timestamp : option datetime;
  pollutants : option (list (string * float));
  dominant_pollutant : option string;
  aqi_category_name : option string;
  aqi_category_theme : option string
}.

Definition fresh : t :=
  mk None None None None None None None None None None None None None.

Definition set_is_valid (b : bool) (o : t) : t :=
  mk (Some b) (overall_aqi o) (location_name o) (city o) (country o)
     (latitude o) (longitude o) (distance_km o) (timestamp o) (pollutants o)
     (dominant_pollutant o) (aqi_category_name o) (aqi_category_theme o).
Definition set_overall_aqi (z : Z) (o : t) : t :=
  mk (is_valid o) (Some z) (location_name o) (city o) (country o)
     (latitude o) (longitude o) (distance_km o) (timestamp o) (pollutants o)
     (dominant_pollutant o) (aqi_category_name o) (aqi_category_theme o).
Definition set_location_name (v : value) (o : t) : t :=
  mk (is_valid o) (overall_aqi o) (Some v) (city o) (country o)
     (latitude o) (longitude o) (distance_km o) (timestamp o) (pollutants o)
     (dominant_pollutant o) (aqi_category_name o) (aqi_category_theme o).
Definition set_city (s : string) (o : t) : t :=
  mk (is_valid o) (overall_aqi o) (location_name o) (Some s) (country o)
     (latitude o) (longitude o) (distance_km o) (timestamp o) (pollutants o)
     (dominant_pollutant o) (aqi_category_name o) (aqi_category_theme o).
Definition set_country (s : string) (o : t) : t :=
  mk (is_valid o) (overall_aqi o) (location_name o) (city o) (Some s)
     (latitude o) (longitude o) (distance_km o) (timestamp o) (pollutants o)
     (dominant_pollutant o) (aqi_category_name o) (aqi_category_theme o).
Definition set_latitude_longitude (la lo : value) (o : t) : t :=
  mk (is_valid o) (overall_aqi o) (location_name o) (city o) (country o)
     (Some la) (Some lo) (distance_km o) (timestamp o) (pollutants o)
     (dominant_pollutant o) (aqi_category_name o) (aqi_category_theme o).
Definition set_distance_km (z : Z) (o : t) : t :=
  mk (is_valid o) (overall_aqi o) (location_name o) (city o) (country o)
     (latitude o) (longitude o) (Some z) (timestamp o) (pollutants o)
     (dominant_pollutant o) (aqi_category_name o) (aqi_category_theme o).
Definition set_timestamp (d : datetime) (o : t) : t :=
  mk (is_valid o) (overall_aqi o) (location_name o) (city o) (country o)
     (latitude o) (longitude o) (distance_km o) (Some d) (pollutants o)
     (dominant_pollutant o) (aqi_category_name o) (aqi_category_theme o).
Definition set_pollutants (p : list (string * float)) (o : t) : t :=
  mk (is_valid o) (overall_aqi o) (location_name o) (city o) (country o)
     (latitude o) (longitude o) (distance_km o) (timestamp o) (Some p)
     (dominant_pollutant o) (aqi_category_name o) (aqi_category_theme o).
Definition set_dominant_pollutant (s : string) (o : t) : t :=
  mk (is_valid o) (overall_aqi o) (location_name o) (city o) (country o)
     (latitude o) (longitude o) (distance_km o) (timestamp o) (pollutants o)
     (Some s) (aqi_category_name o) (aqi_category_theme o).
Definition set_aqi_category (name theme : string) (o : t) : t :=
  mk (is_valid o) (overall_aqi o) (location_name o) (city o) (country o)
     (latitude o) (longitude o) (distance_km o) (timestamp o) (pollutants o)
     (dominant_pollutant o) (Some name) (Some theme).

(** Statements of [__init__]: they run on the instance under construction
    and may raise; the instance keeps what was assigned before a raise. *)
Definition Init (A : Type) : Type := t -> result A * t.

Definition ret {A} (a : A) : Init A := fun o => (Ok a, o).
Definition bind {A B} (m : Init A) (k : A -> Init B) : Init B :=
  fun o => match m o with
           | (Ok a, o') => k a o'
           | (Raise e, o') => (Raise e, o')
           end.
Definition eval {A} (r : result A) : Init A := fun o => (r, o).
Definition assign (f : t -> t) : Init unit := fun o => (Ok tt, f o).

Notation "x <- m ;; k" := (bind m (fun x => k))
  (at level 61, m at next level, right associativity).
Notation "m ;;; k" := (bind m (fun _ => k))
  (at level 61, right associativity).

(** The dict literal of the [for] statement, in the order it is written. *)
Definition aqi_categories : list (string * (Z * Z * string)) :=
  [ ("Good", (0, 50, "success"));
    ("Moderate", (51, 100, "warning"));
    ("Unhealthy for Sensitive", (101, 150, "warning"));
    ("Unhealthy", (151, 200, "danger"));
    ("Very Unhealthy", (201, 300, "danger"));
    ("Hazardous", (301, 5000, "danger")) ]%Z.

(** [for name, (low, high, theme) in ....items(): if low <= aqi <= high:
    ...; break], from the pair [cur] assigned before the loop. *)
Fixpoint category_loop (entries : list (string * (Z * Z * string))) (aqi : Z)
  (cur : string * string) : string * string :=
  match entries with
  | [] => cur
  | (name, (low, high, theme)) :: rest =>
      if ((low <=? aqi) && (aqi <=? high))%Z then (name, theme)
      else category_loop rest aqi cur
  end.

(** [{param: float(details['v']) for param, details in d.items()
      if 'v' in details}], built entry by entry. *)
Fixpoint pollutants_of (entries : list (string * value))
  (acc : list (string * float)) : result (list (string * float)) :=
  match entries with
  | [] => Ok acc
  | (param, details) :: rest =>
      match contains "v" details with
      | Raise e => Raise e
      | Ok false => pollutants_of rest acc
      | Ok true =>
          match subscript_str details "v" with
          | Raise e => Raise e
          | Ok x =>
              match float_of x with
              | Raise e => Raise e
              | Ok f => pollutants_of rest (dict_set acc param f)
              end
          end
      end
  end.

(** The body of the [try] statement (lines 69-85). *)
Definition try_body (waqi_json : value) : Init unit :=
  data <- eval (get waqi_json "data" VNone) ;;
  status <- eval (get waqi_json "status" VNone) ;;
  if negb (truthy data) || negb (eq_str status "ok")
  then assign (set_is_valid false)
  else
    assign (set_is_valid true) ;;;
    aqi <- eval (get data "aqi" (VInt 0)) ;;
    n <- eval (int_of aqi) ;;
    assign (set_overall_aqi n) ;;;
    c <- eval (get data "city" (VDict [])) ;;
    name <- eval (get c "name" (VStr "N/A")) ;;
    assign (set_location_name name) ;;;
    first <- eval (split_comma_first name) ;;
    assign (set_city first) ;;;
    assign (set_country "N/A") ;;;
    c' <- eval (get data "city" (VDict [])) ;;
    geo <- eval (get c' "geo" (VList [VNone; VNone])) ;;
    g0 <- eval (subscript_nat geo 0) ;;
    g1 <- eval (subscript_nat geo 1) ;;
    assign (set_latitude_longitude g0 g1) ;;;
    assign (set_distance_km 0) ;;;
    tm <- eval (get data "time" (VDict [])) ;;
    ts_str <- eval (get tm "iso" VNone) ;;
    ts <- eval (if truthy ts_str then fromisoformat_of ts_str else Ok now_utc) ;;
    assign (set_timestamp ts) ;;;
    iaqi <- eval (get data "iaqi" (VDict [])) ;;
    entries <- eval (items iaqi) ;;
    p <- eval (pollutants_of entries []) ;;
    assign (set_pollutants p) ;;;
    dom <- eval (get data "dominentpol" (VStr "N/A")) ;;
    up <- eval (upper_of dom) ;;
    assign (set_dominant_pollutant up) ;;;
    assign (set_aqi_category "No Data" "secondary") ;;;
    let '(cname, ctheme) := category_loop aqi_categories n ("No Data", "secondary") in
    assign (set_aqi_category cname ctheme).

(** [AQIData(waqi_json)]: the instance, or the exception that leaves the
    constructor. The handler's [print] goes to the console only. *)
Definition __init__ (waqi_json : value) : result t :=
  match try_body waqi_json fresh with
  | (Ok _, o) => Ok o
  | (Raise e, o) =>
      if caught_by [KeyError; IndexError; TypeError] e
      then Ok (set_is_valid false o)
      else Raise e
  end.

(** [d.is_valid] read as a condition. *)
Definition valid (o : t) : bool :=
  match is_valid o with Some true => true | _ => false end.

End WithRuntime.
End AQIData.

(* ================================================================== *)
(** ** Regular expressions, as [re.match] decides them *)
(* ================================================================== *)

Module Re.

(** The fragment of [re] syntax the program uses. A match of a pattern
    without groups is decided by membership in its language. *)
Inductive regex :=
| Void
| Eps
| Chr (c : ascii)
| Class (p : ascii -> bool)
| Seq (r1 r2 : regex)
| Alt (r1 r2 : regex)
| Star (r : regex).

Definition Opt (r : regex) : regex := Alt r Eps.     (* r? *)
Definition Plus (r : regex) : regex := Seq r (Star r). (* r+ *)

Fixpoint nullable (r : regex) : bool :=
  match r with
  | Void => false
  | Eps => true
  | Chr _ => false
  | Class _ => false
  | Seq r1 r2 => nullable r1 && nullable r2
  | Alt r1 r2 => nullable r1 || nullable r2
  | Star _ => true
  end.

(** Brzozowski derivative of [r] by the character [a]. *)
Fixpoint deriv (a : ascii) (r : regex) : regex :=
  match r with
  | Void => Void
  | Eps => Void
  | Chr c => if Ascii.eqb a c then Eps else Void
  | Class p => if p a then Eps else Void
  | Seq r1 r2 =>
      if nullable r1 then Alt (Seq (deriv a r1) r2) (deriv a r2)
      else Seq (deriv a r1) r2
  | Alt r1 r2 => Alt (deriv a r1) (deriv a r2)
  | Star r1 => Seq (deriv a r1) (Star r1)
  end.

(** The whole of [s] is in the language of [r]. *)
Fixpoint fullmatch (r : regex) (s : string) : bool :=
  match s with
  | EmptyString => nullable r
  | String a rest => fullmatch (deriv a r) rest
  end.

(** The language of a pattern, for proofs. *)
Inductive lang : regex -> string -> Prop :=
| L_eps : lang Eps ""
| L_chr c : lang (Chr c) (String c "")
| L_class (p : ascii -> bool) c : p c = true -> lang (Class p) (String c "")
| L_seq r1 r2 s1 s2 : lang r1 s1 -> lang r2 s2 -> lang (Seq r1 r2) (s1 ++ s2)
| L_alt_l r1 r2 s : lang r1 s -> lang (Alt r1 r2) s
| L_alt_r r1 r2 s : lang r2 s -> lang (Alt r1 r2) s
| L_star_nil r : lang (Star r) ""
| L_star_cons r s1 s2 : lang r s1 -> lang (Star r) s2 -> lang (Star r) (s1 ++ s2).

Definition digit : regex := Class isdecimal.   (* \d *)
Definition space : regex := Class isspace.     (* \s *)

(** [$] as the last item of a pattern: the end of the string, or just before
    a newline that ends the string. *)
Definition dollar : regex := Opt (Chr "010").

(** [-?\d+\.?\d*] *)
Definition number : regex :=
  Seq (Opt (Chr "-")) (Seq (Plus digit) (Seq (Opt (Chr ".")) (Star digit))).

(** [r'^-?\d+\.?\d*,\s*-?\d+\.?\d*$'], the pattern of line 280. With
    [re.match] the leading [^] adds nothing. *)
Definition coordinates : regex :=
  Seq number (Seq (Chr ",") (Seq (Star space) (Seq number dollar))).

(** [re.match(pattern, s)] for a pattern that ends in [$]. *)
Definition match_ (r : regex) (s : string) : bool := fullmatch r s.

End Re.

(* ================================================================== *)
(** ** Formatted text, external services and their adapters *)
(* ================================================================== *)

Section Services.
Context {rt : Runtime}.

(** One piece of an f-string or of a concatenation. *)
Inductive fragment :=
| Lit (s : string)                 (* literal text, or a [str] as it is *)
| Val (v : value)                  (* [{v}], [str(v)] *)
| Num (z : Z)                      (* [{z}] of an int *)
| Flt (f : float)                  (* [{f}] of a float *)
| Fix2 (v : value)                 (* [{v:.2f}] *)
| Err (e : exn)                    (* [{e}] of an exception *)
| Summary (d : AQIData.t).         (* [d.get_summary_string()] *)

Definition text := list fragment.

(** [f"{v:.2f}"]: defined on numbers only. *)
Definition format_fix2 (v : value) : result fragment :=
  match v with
  | VFloat _ | VBool _ => Ok (Fix2 v)
  | VInt z => match float_of_Z z with Ok _ => Ok (Fix2 v) | Raise e => Raise e end
  | VStr _ => raise ValueError
  | VNone | VList _ | VDict _ => raise TypeError
  end.

(** Outcome of [requests.get(...)], [raise_for_status()] and [r.json()]. *)
Inductive http_result :=
| HttpJson (body : value)
| RequestException (msg : string).

(** One item of the [content] list given to [generate_content]. *)
Inductive part :=
| PText (t : text)
| PBlob (mime_type : string) (data : string).

(** What the outside world answers. Each field is the outcome of the library
    calls of one adapter, as a function of their arguments. *)
Record Services := {
  (** [requests.get("https://ipapi.co/json/", timeout=5)] *)
  ipapi : http_result;
  (** [WAQIService.token] and the feed request for [geo:{lat};{lon}] *)
  waqi_token : option string;
  waqi_feed : value -> value -> http_result;
  (** [GeminiService.model is not None] *)
  gemini_model : bool;
  (** [self.model.generate_content(content).text] *)
  generate_content : list part -> result string;
  (** [json.loads(self.model.generate_content(prompt, generation_config).text)] *)
  generate_json : text -> result value;
  (** [MongoDBService.client is not None], [MongoDBService.db is not None] *)
  mongo_client : bool;
  mongo_db : bool;
  (** the body of the [try] of [save_record]: [GridFS], [open], [fs.put],
      [insert_one] with [aqi_data.to_dict()] *)
  mongo_store : string -> AQIData.t -> text -> result unit;
  (** [open(path, "rb")] and [f.read()] *)
  read_file : string -> result string
}.

(** Calls of the adapters (the clients of the specification). *)
Inductive client_call :=
| get_location_from_ip_called
| get_latest_aqi_by_coords_called (lat lon : value)
| get_coordinates_from_text_called (query : string)
| get_ai_response_called (prompt : text) (img : option string) (ctype : option string)
| save_record_called (img_path : option string) (ctype : string)
    (aqi_data : AQIData.t) (analysis : text).

Variable svc : Services.

(** [LocationService.get_location_from_ip] *)
Definition get_location_from_ip : option value :=
  match ipapi svc with
  | HttpJson body => Some body
  | RequestException _ => None
  end.

(** [WAQIService.get_latest_aqi_by_coords] *)
Definition get_latest_aqi_by_coords (lat lon : value) : value :=
  match waqi_token svc with
  | None | Some "" =>
      VDict [("status", VStr "error"); ("data", VStr "WAQI API token not provided")]
  | Some _ =>
      match waqi_feed svc lat lon with
      | HttpJson body => body
      | RequestException msg => VDict [("status", VStr "error"); ("data", VStr msg)]
      end
  end.

(** [GeminiService.get_ai_response] *)
Definition get_ai_response (prompt_text : text) (img_bytes ctype : option string)
  : text :=
  if negb (gemini_model svc) then [Lit "AI Service is offline (check API key)."]
  else
    let content :=
      match img_bytes, ctype with
      | Some b, Some c =>
          if negb (String.eqb b "") && negb (String.eqb c "")
          then [PText prompt_text; PBlob c b] else [PText prompt_text]
      | _, _ => [PText prompt_text]
      end in
    match generate_content svc content with
    | Ok t => [Lit t]
    | Raise e => [Lit "AI Error: "; Err e]
    end.

(** The double quote character, as a string. *)
Definition dquote : string := String (ascii_of_nat 34) EmptyString.

Definition geocoding_prompt (query : string) : text :=
  [Lit "You are a geocoding API. Analyze: "; Lit dquote; Lit query; Lit dquote;
   Lit ". Respond with a single JSON object with "; Lit dquote; Lit "latitude";
   Lit dquote; Lit ", "; Lit dquote; Lit "longitude"; Lit dquote; Lit ", and ";
   Lit dquote; Lit "identified_name"; Lit dquote;
   Lit ". If not found, return nulls."].

Definition is_none (v : value) : bool :=
  match v with VNone => true | _ => false end.

(** The body of the [try] of [get_coordinates_from_text]. *)
Definition get_coordinates_body (query : string)
  : result (option (float * float * text)) :=
  match generate_json svc (geocoding_prompt query) with
  | Raise e => Raise e
  | Ok r_json =>
      match get r_json "latitude" VNone with
      | Raise e => Raise e
      | Ok lat =>
      match get r_json "longitude" VNone with
      | Raise e => Raise e
      | Ok lon =>
      match get r_json "identified_name" (VStr query) with
      | Raise e => Raise e
      | Ok name =>
          if negb (is_none lat) && negb (is_none lon) then
            match float_of lat with
            | Raise e => Raise e
            | Ok la =>
                match float_of lon with
                | Raise e => Raise e
                | Ok lo => Ok (Some (la, lo, [Val name]))
                end
            end
          else Ok None
      end end end
  end.

(** [GeminiService.get_coordinates_from_text]; [except Exception] takes
    every exception of the body. *)
Definition get_coordinates_from_text (query : string)
  : option (float * float * text) :=
  if negb (gemini_model svc) then None
  else match get_coordinates_body query with
       | Ok r => r
       | Raise _ => None
       end.

(** [MongoDBService.save_record]: what it prints, if anything; it returns
    [None] on every path. *)
Definition save_record (img_path : option string) (ctype : string)
  (aqi_data : AQIData.t) (analysis : text) : list text :=
  if negb (mongo_db svc) then []
  else match img_path with
       | None => [[Lit "Failed to save record to MongoDB: ";
                   Err (mk_exn TypeError None)]]
       | Some p =>
           match mongo_store svc p aqi_data analysis with
           | Ok _ => []
           | Raise e => [[Lit "Failed to save record to MongoDB: "; Err e]]
           end
       end.

End Services.

(* ================================================================== *)
(** ** The window: [class AirSenseApp] *)
(* ================================================================== *)

Module AirSenseApp.
Section WithRuntime.
Context {rt : Runtime}.

(** Functions scheduled on the UI thread with [self.after(0, f, *args)]. *)
Inductive callback :=
| Cb_loc_entry_delete
| Cb_loc_entry_insert (s : text)
| Cb_update_status (t : text) (style : string) (progress : bool)
| Cb_set_ui_state (is_busy : bool)
| Cb_update_aqi_display
| Cb_display_error_state (title : string) (details : text)
| Cb_update_analysis_txt (content : text)
| Cb_update_ai_response (response_text : text).

(** Targets of [threading.Thread(target=..., args=...)]. *)
Inductive job :=
| Job_fetch_by_ip
| Job_fetch_aqi_data (lat lon : value)
| Job_geocode_with_gemini (query : string)
| Job_ask_ai (question : string)
| Job_analyze_img.

(** The attributes of the window that the operations read or write. The
    buttons [fetch_btn], [ip_btn], [up_btn] and [prompt_buttons] always
    change state together: [controls_disabled] is the busy flag. *)
Record App := mkApp {
  aqi_data : option AQIData.t;
  img_path : option string;
  controls_disabled : bool;
  an_btn_disabled : bool;
  status_lbl : text * string;
  p_bar_running : bool;
  aqi_val : text * string;
  aqi_cat : text * string;
  aqi_sub : string;
  summary_txt : text;
  ai_response_text : list (text * string);
  analysis_txt : text;
  loc_entry : text;
  messageboxes : list (string * string)
}.

Definition with_aqi_data (x : option AQIData.t) (a : App) : App :=
  mkApp x (img_path a) (controls_disabled a) (an_btn_disabled a) (status_lbl a)
    (p_bar_running a) (aqi_val a) (aqi_cat a) (aqi_sub a) (summary_txt a)
    (ai_response_text a) (analysis_txt a) (loc_entry a) (messageboxes a).
Definition with_img_path (x : option string) (a : App) : App :=
  mkApp (aqi_data a) x (controls_disabled a) (an_btn_disabled a) (status_lbl a)
    (p_bar_running a) (aqi_val a) (aqi_cat a) (aqi_sub a) (summary_txt a)
    (ai_response_text a) (analysis_txt a) (loc_entry a) (messageboxes a).
Definition with_controls (dis an_dis : bool) (a : App) : App :=
  mkApp (aqi_data a) (img_path a) dis an_dis (status_lbl a)
    (p_bar_running a) (aqi_val a) (aqi_cat a) (aqi_sub a) (summary_txt a)
    (ai_response_text a) (analysis_txt a) (loc_entry a) (messageboxes a).
Definition with_an_btn (an_dis : bool) (a : App) : App :=
  with_controls (controls_disabled a) an_dis a.
Definition with_status (t : text) (style : string) (running : bool) (a : App) : App :=
  mkApp (aqi_data a) (img_path a) (controls_disabled a) (an_btn_disabled a)
    (t, style) running (aqi_val a) (aqi_cat a) (aqi_sub a) (summary_txt a)
    (ai_response_text a) (analysis_txt a) (loc_entry a) (messageboxes a).
Definition with_card (v c : text * string) (sub : string) (a : App) : App :=
  mkApp (aqi_data a) (img_path a) (controls_disabled a) (an_btn_disabled a)
    (status_lbl a) (p_bar_running a) v c sub (summary_txt a)
    (ai_response_text a) (analysis_txt a) (loc_entry a) (messageboxes a).
Definition with_summary_txt (t : text) (a : App) : App :=
  mkApp (aqi_data a) (img_path a) (controls_disabled a) (an_btn_disabled a)
    (status_lbl a) (p_bar_running a) (aqi_val a) (aqi_cat a) (aqi_sub a) t
    (ai_response_text a) (analysis_txt a) (loc_entry a) (messageboxes a).
Definition with_ai_response_text (t : list (text * string)) (a : App) : App :=
  mkApp (aqi_data a) (img_path a) (controls_disabled a) (an_btn_disabled a)
    (status_lbl a) (p_bar_running a) (aqi_val a) (aqi_cat a) (aqi_sub a)
    (summary_txt a) t (analysis_txt a) (loc_entry a) (messageboxes a).
Definition with_analysis_txt (t : text) (a : App) : App :=
  mkApp (aqi_data a) (img_path a) (controls_disabled a) (an_btn_disabled a)
    (status_lbl a) (p_bar_running a) (aqi_val a) (aqi_cat a) (aqi_sub a)
    (summary_txt a) (ai_response_text a) t (loc_entry a) (messageboxes a).
Definition with_loc_entry (t : text) (a : App) : App :=
  mkApp (aqi_data a) (img_path a) (controls_disabled a) (an_btn_disabled a)
    (status_lbl a) (p_bar_running a) (aqi_val a) (aqi_cat a) (aqi_sub a)
    (summary_txt a) (ai_response_text a) (analysis_txt a) t (messageboxes a).
Definition with_messagebox (title msg : string) (a : App) : App :=
  mkApp (aqi_data a) (img_path a) (controls_disabled a) (an_btn_disabled a)
    (status_lbl a) (p_bar_running a) (aqi_val a) (aqi_cat a) (aqi_sub a)
    (summary_txt a) (ai_response_text a) (analysis_txt a) (loc_entry a)
    (messageboxes a ++ [(title, msg)]).

(** The window as [_create_widgets] leaves it. *)
Definition initial : App :=
  mkApp None None false true ([Lit "Initializing..."], "secondary") false
    ([Lit "--"], "secondary") ([Lit "Awaiting Data..."], "secondary") "secondary"
    [] [] [] [Lit "Enter any location or use IP detection"] [].

(** [not self.img_path] *)
Definition no_img_path (a : App) : bool :=
  match img_path a with
  | None => true
  | Some p => String.eqb p ""
  end.

(** [self.aqi_data and self.aqi_data.is_valid], as a condition. *)
Definition has_valid_data (x : option AQIData.t) : bool :=
  match x with
  | Some d => AQIData.valid d
  | None => false
  end.

(** *** UI helper methods (lines 247-268) *)

Definition _set_ui_state (is_busy : bool) (a : App) : App :=
  with_controls is_busy (is_busy || no_img_path a) a.

Definition _update_status (t : text) (style : string) (progress : bool) (a : App)
  : App := with_status t style progress a.

(** *** UI update logic (lines 294-309) *)

(** An unset attribute of [d] raises in the callback before any widget is
    touched; Tk reports the exception and the window stays as it was. An
    instance built by [AQIData.__init__] that has its category has every
    attribute read here. *)
Definition _update_aqi_display (a : App) : App :=
  match aqi_data a with
  | Some d =>
      match AQIData.overall_aqi d, AQIData.aqi_category_name d,
            AQIData.aqi_category_theme d, AQIData.city d with
      | Some n, Some cname, Some theme, Some c =>
          let a1 := with_card ([Num n], theme) ([Lit cname], theme) theme a in
          let a2 := with_summary_txt [Summary d] a1 in
          let a3 := if no_img_path a2 then a2 else with_an_btn false a2 in
          with_ai_response_text
            [([Lit "Air quality data updated for "; Lit c; Lit ". The AQI is ";
               Num n; Lit " ("; Lit cname;
               Lit ")."; Lit (String "010" "Select a prompt below for advice.")],
              "system")] a3
      | _, _, _, _ => a
      end
  | None => a
  end.

Definition _display_error_state (title : string) (details : text) (a : App) : App :=
  let a1 := with_aqi_data None a in
  let a2 := with_card ([Lit "!"], "secondary") ([Lit title], "secondary") "secondary" a1 in
  let a3 := with_summary_txt details a2 in
  let a4 := with_an_btn true a3 in
  with_ai_response_text
    [([Lit "Data Error: "; Lit title;
       Lit ". The AI assistant will provide general advice."], "system")] a4.

Definition _update_ai_response (response_text : text) (a : App) : App :=
  _set_ui_state false (with_ai_response_text [(response_text, "ai")] a).

(** The UI thread runs one scheduled function. *)
Definition run_callback (cb : callback) (a : App) : App :=
  match cb with
  | Cb_loc_entry_delete => with_loc_entry [] a
  | Cb_loc_entry_insert s => with_loc_entry (s ++ loc_entry a) a
  | Cb_update_status t style progress => _update_status t style progress a
  | Cb_set_ui_state b => _set_ui_state b a
  | Cb_update_aqi_display => _update_aqi_display a
  | Cb_display_error_state title details => _display_error_state title details a
  | Cb_update_analysis_txt content => with_analysis_txt content a
  | Cb_update_ai_response r => _update_ai_response r a
  end.

(** The UI thread runs the scheduled functions, oldest first. *)
Definition run_callbacks (cbs : list callback) (a : App) : App :=
  fold_left (fun acc cb => run_callback cb acc) cbs a.

(** *** Triggers: methods bound to buttons, run on the UI thread *)

(** How a trigger ends: it started a thread, returned without one, or
    raised (Tk reports the exception; what was done before it stays). *)
Inductive triggered :=
| Started (j : job)
| Returned
| Raised (e : exn).

Definition fetch_aqi_by_ip_address (a : App) : App * triggered :=
  (_update_status [Lit "Detecting location..."] "info" true (_set_ui_state true a),
   Started Job_fetch_by_ip).

(** [lat, lon = map(float, query.split(','))] *)
Definition unpack_floats (pieces : list string) : result (float * float) :=
  match pieces with
  | [] => raise ValueError
  | [x] =>
      match float_of (VStr x) with
      | Raise e => Raise e
      | Ok _ => raise ValueError
      end
  | x :: y :: more =>
      match float_of (VStr x) with
      | Raise e => Raise e
      | Ok la =>
          match float_of (VStr y) with
          | Raise e => Raise e
          | Ok lo =>
              match more with
              | [] => Ok (la, lo)
              | z :: _ =>
                  match float_of (VStr z) with
                  | Raise e => Raise e
                  | Ok _ => raise ValueError
                  end
              end
          end
      end
  end.

(** [fetch_by_input]; [entry] is what [self.loc_entry.get()] returns. *)
Definition fetch_by_input (entry : string) (a : App) : App * triggered :=
  let query := strip entry in
  if String.eqb query "" then (a, Returned)
  else
    let a1 := _set_ui_state true a in
    if Re.match_ Re.coordinates query then
      match unpack_floats (split "," query) with
      | Ok (lat, lon) => (a1, Started (Job_fetch_aqi_data (VFloat lat) (VFloat lon)))
      | Raise e => (a1, Raised e)
      end
    else
      (_update_status [Lit "Finding '"; Lit query; Lit "'..."] "info" true a1,
       Started (Job_geocode_with_gemini query)).

Definition ask_ai_assistant (question button_text : string) (a : App)
  : App * triggered :=
  let a1 := _set_ui_state true a in
  (with_ai_response_text
     [([Lit "You asked: "], "system");
      ([Lit button_text; Lit (String "010" (String "010" ""))], "user");
      ([Lit "AI is thinking..."], "system")] a1,
   Started (Job_ask_ai question)).

(** [upload_img]; [fp] is what the file dialog returns. The preview widget
    is not part of the model. *)
Definition upload_img (fp : string) (a : App) : App :=
  if String.eqb fp "" then a
  else
    let a1 := with_img_path (Some fp) a in
    let is_ready := has_valid_data (aqi_data a1) in
    with_analysis_txt
      [Lit "Image loaded. ";
       Lit (if is_ready then "Ready." else "Fetch AQI data to analyze.")]
      (with_an_btn (negb is_ready) a1).

Definition analyze_img (a : App) : App * triggered :=
  if no_img_path a || negb (has_valid_data (aqi_data a)) then
    (with_messagebox "Analysis Blocked"
       "Upload image and fetch valid AQI data first." a, Returned)
  else
    (_update_status [Lit "Analyzing sky image..."] "info" true (_set_ui_state true a),
     Started Job_analyze_img).

(** *** Workers: methods run on a background thread *)

(** What a worker does that others can see, in order. *)
Inductive event :=
| After (cb : callback)            (* [self.after(0, ...)] *)
| Call (c : client_call)           (* a call of a service adapter *)
| Print (t : text).                (* [print(...)] *)

(** The state a worker runs on: the attribute [self.aqi_data], which workers
    read and [_worker_fetch_aqi_data] assigns, and the events so far. *)
Record World := mkWorld {
  self_aqi_data : option AQIData.t;
  events : list event
}.

Definition Worker (A : Type) : Type := World -> result A * World.

Definition ret {A} (x : A) : Worker A := fun w => (Ok x, w).
Definition bind {A B} (m : Worker A) (k : A -> Worker B) : Worker B :=
  fun w => match m w with
           | (Ok x, w') => k x w'
           | (Raise e, w') => (Raise e, w')
           end.
Definition eval {A} (r : result A) : Worker A := fun w => (r, w).
Definition emit (ev : event) : Worker unit :=
  fun w => (Ok tt, mkWorld (self_aqi_data w) (events w ++ [ev])).
Definition after (cb : callback) : Worker unit := emit (After cb).
Definition read_aqi_data : Worker (option AQIData.t) :=
  fun w => (Ok (self_aqi_data w), w).
Definition write_aqi_data (x : option AQIData.t) : Worker unit :=
  fun w => (Ok tt, mkWorld x (events w)).

(** [try: body / except Exception as e: handler(e) / finally: final] *)
Definition try_except_finally (body : Worker unit) (handler : exn -> Worker unit)
  (final : Worker unit) : Worker unit :=
  fun w =>
    let '(r, w1) :=
      match body w with
      | (Ok x, w') => (Ok x, w')
      | (Raise e, w') => handler e w'
      end in
    match final w1 with
    | (Ok _, w2) => (r, w2)
    | (Raise e, w2) => (Raise e, w2)
    end.

Notation "x <- m ;; k" := (bind m (fun x => k))
  (at level 61, m at next level, right associativity).
Notation "m ;;; k" := (bind m (fun _ => k))
  (at level 61, right associativity).

(** Reading an attribute of an instance; an unset one raises. *)
Definition attr {A} (x : option A) : result A :=
  match x with
  | Some v => Ok v
  | None => raise AttributeError
  end.

Variable svc : Services.

(** [_worker_fetch_aqi_data] (lines 286-291) *)
Definition _worker_fetch_aqi_data (lat lon : value) : Worker unit :=
  la <- eval (format_fix2 lat) ;;
  lo <- eval (format_fix2 lon) ;;
  after (Cb_update_status
           [Lit "Fetching AQI near ("; la; Lit ","; lo; Lit ")..."] "info" true) ;;;
  emit (Call (get_latest_aqi_by_coords_called lat lon)) ;;;
  let raw := get_latest_aqi_by_coords svc lat lon in
  status <- eval (if truthy raw then get raw "status" VNone else Ok VNone) ;;
  (if truthy raw && eq_str status "ok" then
     d <- eval (AQIData.__init__ raw) ;;
     write_aqi_data (Some d) ;;;
     (if AQIData.valid d then after Cb_update_aqi_display
      else after (Cb_display_error_state "Parse Error" [Lit "Could not process API data."])) ;;;
     (if AQIData.valid d then after (Cb_update_status [Lit "Success!"] "success" false)
      else after (Cb_update_status [Lit "Data parse failed."] "warning" false))
   else
     reason <- eval (get raw "data" (VStr "Unknown API error.")) ;;
     after (Cb_display_error_state "No Data Found"
              [Lit ("Could not get data." ++ String "010" "Reason: "); Val reason]) ;;;
     after (Cb_update_status [Lit "AQI data fetch failed."] "warning" false)) ;;;
  after (Cb_set_ui_state false).

(** [_worker_fetch_by_ip] (lines 272-275) *)
Definition _worker_fetch_by_ip : Worker unit :=
  emit (Call get_location_from_ip_called) ;;;
  match get_location_from_ip svc with
  | Some loc =>
      if truthy loc then
        after Cb_loc_entry_delete ;;;
        c <- eval (get loc "city" VNone) ;;
        cc <- eval (get loc "country_code" VNone) ;;
        after (Cb_loc_entry_insert [Val c; Lit ", "; Val cc]) ;;;
        lat <- eval (subscript_str loc "latitude") ;;
        lon <- eval (subscript_str loc "longitude") ;;
        _worker_fetch_aqi_data lat lon
      else
        after (Cb_update_status [Lit "Could not get location via IP."] "warning" false) ;;;
        after (Cb_set_ui_state false)
  | None =>
      after (Cb_update_status [Lit "Could not get location via IP."] "warning" false) ;;;
      after (Cb_set_ui_state false)
  end.

(** [_worker_geocode_with_gemini] (lines 282-285) *)
Definition _worker_geocode_with_gemini (query : string) : Worker unit :=
  emit (Call (get_coordinates_from_text_called query)) ;;;
  match get_coordinates_from_text svc query with
  | Some (lat, lon, name) =>
      after Cb_loc_entry_delete ;;;
      after (Cb_loc_entry_insert name) ;;;
      _worker_fetch_aqi_data (VFloat lat) (VFloat lon)
  | None =>
      after (Cb_update_status [Lit "Could not find '"; Lit query; Lit "'."] "danger" false) ;;;
      after (Cb_display_error_state "Location Not Found"
               [Lit "'"; Lit query; Lit "' could not be identified."]) ;;;
      after (Cb_set_ui_state false)
  end.

Definition general_advice_context : text :=
  [Lit "You are a helpful environmental and health advisor. You do not have specific real-time air quality data, so provide general advice."].

(** The context string of line 332. *)
Definition data_context (d : AQIData.t) : result text :=
  match attr (AQIData.city d) with Raise e => Raise e | Ok c =>
  match attr (AQIData.overall_aqi d) with Raise e => Raise e | Ok n =>
  match attr (AQIData.aqi_category_name d) with Raise e => Raise e | Ok cname =>
  match attr (AQIData.dominant_pollutant d) with Raise e => Raise e | Ok dom =>
  match attr (AQIData.pollutants d) with Raise e => Raise e | Ok ps =>
    Ok [Lit "You are a helpful environmental and health advisor. Current air quality data for ";
        Lit c; Lit " is: AQI "; Num n; Lit " ("; Lit cname; Lit ") with "; Lit dom;
        Lit " as the dominant pollutant. The PM2.5 level is approximately ";
        match lookup "pm25" ps with Some f => Flt f | None => Lit "N/A" end;
        Lit (String " " (String (ascii_of_nat 181) ("g/m" ++ String (ascii_of_nat 179) ".")))]
  end end end end end.

(** [_worker_ask_ai] (lines 327-342) *)
Definition _worker_ask_ai (question : string) : Worker unit :=
  cur <- read_aqi_data ;;
  context <- eval (match cur with
                   | Some d => if AQIData.valid d then data_context d
                               else Ok general_advice_context
                   | None => Ok general_advice_context
                   end) ;;
  let full_prompt :=
    context ++
    [Lit (String "010" (String "010"
            ("Based on this, answer the user's question clearly and concisely:"
             ++ String "010" (String "010" "User Question: ")))) ;
     Lit dquote; Lit question; Lit dquote] in
  emit (Call (get_ai_response_called full_prompt None None)) ;;;
  let response := get_ai_response svc full_prompt None None in
  after (Cb_update_ai_response response).

(** [os.path.splitext(p)[1]], with [/] as the separator: the suffix of the
    last component from its last dot on, unless only dots come before it. *)
Fixpoint last_dot_suffix (s : string) : option string :=
  match s with
  | EmptyString => None
  | String c rest =>
      match last_dot_suffix rest with
      | Some e => Some e
      | None => if Ascii.eqb c "." then Some s else None
      end
  end.

Definition splitext_ext (p : string) : string :=
  let base := last (split "/" p) "" in
  match last_dot_suffix (lstrip_by (Ascii.eqb ".") base) with
  | Some e => e
  | None => ""
  end.

(** The dict literal of line 362, looked up with [.get]. *)
Definition content_types : list (string * string) :=
  [("jpg", "image/jpeg"); ("jpeg", "image/jpeg"); ("png", "image/png");
   ("webp", "image/webp")].

Definition ctype_of (p : string) : option string :=
  lookup (strip_char "." (lower (splitext_ext p))) content_types.

Definition analysis_prompt (ctx : text) : text :=
  [Lit "You are an environmental analyst. **Context:** "] ++ ctx ++
  [Lit (String "010" (String "010" ("**Your Task:** Provide a concise, 3-part markdown analysis of the image:"
     ++ String "010" (String "010" ("1.  **Visual Sky Assessment:** Describe sky color, visibility, and haze."
     ++ String "010" ("2.  **Corroboration:** Compare visuals with the sensor data. Explain correlations."
     ++ String "010" "3.  **Advisory:** Provide a brief health advisory based on all available information."))))))].

(** The context string of line 364. *)
Definition image_context (cur : option AQIData.t) : result text :=
  match attr cur with Raise e => Raise e | Ok d =>
  match attr (AQIData.city d) with Raise e => Raise e | Ok c =>
  match attr (AQIData.overall_aqi d) with Raise e => Raise e | Ok n =>
  match attr (AQIData.aqi_category_name d) with Raise e => Raise e | Ok cname =>
  match attr (AQIData.dominant_pollutant d) with Raise e => Raise e | Ok dom =>
    Ok [Lit "Image taken near "; Lit c; Lit ", where AQI is "; Num n; Lit " (";
        Lit cname; Lit ") with dominant pollutant "; Lit dom; Lit "."]
  end end end end end.

(** The body of the [try] of [_worker_analyze_img] (lines 362-369). *)
Definition analyze_body (img : option string) : Worker unit :=
  img_bytes <- eval (match img with
                     | Some p => read_file svc p
                     | None => raise TypeError
                     end) ;;
  let ctype := match img with Some p => ctype_of p | None => None end in
  match ctype with
  | None | Some "" => eval (Raise (mk_exn ValueError (Some "Unsupported image format")))
  | Some ct =>
      cur <- read_aqi_data ;;
      ctx <- eval (image_context cur) ;;
      let prompt := analysis_prompt ctx in
      emit (Call (get_ai_response_called prompt (Some img_bytes) (Some ct))) ;;;
      let analysis := get_ai_response svc prompt (Some img_bytes) (Some ct) in
      after (Cb_update_analysis_txt analysis) ;;;
      after (Cb_update_status [Lit "Analysis complete."] "success" false) ;;;
      cur' <- read_aqi_data ;;
      match cur' with
      | Some d =>
          if mongo_client svc && AQIData.valid d then
            emit (Call (save_record_called img ct d analysis)) ;;;
            fold_right (fun line k => emit (Print line) ;;; k) (ret tt)
              (save_record svc img ct d analysis)
          else ret tt
      | None => ret tt
      end
  end.

(** [_worker_analyze_img] (lines 360-371); [img] is [self.img_path]. *)
Definition _worker_analyze_img (img : option string) : Worker unit :=
  try_except_finally
    (analyze_body img)
    (fun e =>
       after (Cb_update_status [Lit "Image analysis failed: "; Err e] "danger" false) ;;;
       after (Cb_update_analysis_txt [Lit "Error: "; Err e]))
    (after (Cb_set_ui_state false)).

(** The thread started by a trigger runs its target. *)
Definition run_job (j : job) (a : App) : Worker unit :=
  match j with
  | Job_fetch_by_ip => _worker_fetch_by_ip
  | Job_fetch_aqi_data lat lon => _worker_fetch_aqi_data lat lon
  | Job_geocode_with_gemini query => _worker_geocode_with_gemini query
  | Job_ask_ai question => _worker_ask_ai question
  | Job_analyze_img => _worker_analyze_img (img_path a)
  end.

Fixpoint scheduled (evs : list event) : list callback :=
  match evs with
  | [] => []
  | After cb :: rest => cb :: scheduled rest
  | _ :: rest => scheduled rest
  end.

Fixpoint client_calls (evs : list event) : list client_call :=
  match evs with
  | [] => []
  | Call c :: rest => c :: client_calls rest
  | _ :: rest => client_calls rest
  end.

(** One user-triggered operation from the click to the idle window: the
    trigger on the UI thread, then the worker to its end (normal or by an
    exception that leaves the thread), then the scheduled functions on the
    UI thread. A worker schedules every function that reads [self.aqi_data]
    after its own assignment to it, so running the worker first and the UI
    queue next gives the same window as any interleaving of the two. *)
Record outcome := mkOutcome {
  final : App;                  (* the window when the event queue is empty *)
  after_trigger : App;          (* the window when the trigger returns *)
  how_triggered : triggered;
  worker_result : option (result unit);   (* [None]: no thread was started *)
  trace : list event
}.

Definition operation (trigger : App -> App * triggered) (a : App) : outcome :=
  let '(a1, t) := trigger a in
  match t with
  | Started j =>
      let '(r, w) := run_job j a1 (mkWorld (aqi_data a1) []) in
      let a2 := with_aqi_data (self_aqi_data w) a1 in
      mkOutcome (run_callbacks (scheduled (events w)) a2) a1 t (Some r) (events w)
  | _ => mkOutcome a1 a1 t None []
  end.

End WithRuntime.
End AirSenseApp.

(* ================================================================== *)
(** ** Inputs named by the specification, and a small runtime *)
(* ================================================================== *)

(** A feed response [{"status": "ok", "data": {...}}]. *)
Definition feed_ok (data : list (string * value)) : value :=
  VDict [("status", VStr "ok"); ("data", VDict data)].

(** The scenario of the specification:
    [{"status":"ok","data":{"aqi":42,"city":{"name":"Paris, FR",
      "geo":[48.8,2.3]},"time":{"iso":"2024-01-01T00:00:00Z"},
      "iaqi":{"pm25":{"v":12.5}},"dominentpol":"pm25"}}] *)
Definition scenario_paris : value :=
  feed_ok
    [("aqi", VInt 42);
     ("city", VDict [("name", VStr "Paris, FR");
                     ("geo", VList [VFloat 0x1.8666666666666p+5;
                                    VFloat 0x1.2666666666666p+1])]);
     ("time", VDict [("iso", VStr "2024-01-01T00:00:00Z")]);
     ("iaqi", VDict [("pm25", VDict [("v", VFloat 12.5)])]);
     ("dominentpol", VStr "pm25")].

(** The feed answers [ok] with [-] where the index should be, as it does
    for a station that has no current reading. *)
Definition feed_without_reading : value := feed_ok [("aqi", VStr "-")].

(** [1,<U+001C>2]: a comma followed by the control character FILE
    SEPARATOR, which [str.isspace] and [\s] count as white space. *)
Definition query_with_separator : string :=
  String "1" (String "," (String (ascii_of_nat 28) (String "2" EmptyString))).

Module Example.

(** A runtime for closed examples. It decides decimal numerals with an
    optional sign and timestamps of the shape
    [YYYY-MM-DDTHH:MM:SS] with an optional [Z] or [+HH:MM] offset, and
    rejects every other string; CPython accepts more strings, and agrees on
    the ones used below. *)
Fixpoint digits_value (s : string) (acc : Z) : option Z :=
  match s with
  | EmptyString => Some acc
  | String c rest =>
      if isdecimal c
      then digits_value rest (10 * acc + Z.of_nat (nat_of_ascii c - 48))
      else None
  end.

Definition numeral (s : string) : option Z :=
  match s with
  | EmptyString => None
  | String c rest =>
      if Ascii.eqb c "-" then
        match rest with
        | EmptyString => None
        | _ => option_map Z.opp (digits_value rest 0)
        end
      else digits_value s 0
  end.

Definition numeral_float (s : string) : option float :=
  match numeral s with
  | Some z => match float_of_Z z with Ok f => Some f | Raise _ => None end
  | None => None
  end.

Definition two_digits : Re.regex := Re.Seq Re.digit Re.digit.

Definition iso_timestamp : Re.regex :=
  Re.Seq two_digits (Re.Seq two_digits (Re.Seq (Re.Chr "-") (Re.Seq two_digits
  (Re.Seq (Re.Chr "-") (Re.Seq two_digits (Re.Seq (Re.Chr "T") (Re.Seq two_digits
  (Re.Seq (Re.Chr ":") (Re.Seq two_digits (Re.Seq (Re.Chr ":") (Re.Seq two_digits
  (Re.Opt (Re.Alt (Re.Chr "Z")
     (Re.Seq (Re.Alt (Re.Chr "+") (Re.Chr "-"))
        (Re.Seq two_digits (Re.Seq (Re.Chr ":") two_digits)))))))))))))))).

Definition upper_char (c : ascii) : ascii :=
  let n := nat_of_ascii c in
  if Nat.leb 97 n && Nat.leb n 122 then ascii_of_nat (n - 32) else c.

Fixpoint upper_ascii (s : string) : string :=
  match s with
  | EmptyString => EmptyString
  | String c rest => String (upper_char c) (upper_ascii rest)
  end.

Definition runtime : Runtime := {|
  datetime := string;
  fromisoformat := fun s => if Re.fullmatch iso_timestamp s then Some s else None;
  now_utc := "1970-01-01T00:00:00+00:00";
  int_of_str := numeral;
  float_of_str := numeral_float;
  upper := upper_ascii
|}.

(** Services that answer the feed request with [body]; the IP lookup finds
    Paris, the model is offline and no database is configured. *)
Definition services (body : value) : @Services runtime := {|
  ipapi := HttpJson (VDict [("city", VStr "Paris"); ("country_code", VStr "FR");
                            ("latitude", VFloat 0x1.8666666666666p+5);
                            ("longitude", VFloat 0x1.2666666666666p+1)]);
  waqi_token := Some "token";
  waqi_feed := fun _ _ => HttpJson body;
  gemini_model := false;
  generate_content := fun _ => Raise (mk_exn OtherException None);
  generate_json := fun _ => Raise (mk_exn OtherException None);
  mongo_client := false;
  mongo_db := false;
  mongo_store := fun _ _ _ => Raise (mk_exn OtherException None);
  read_file := fun _ => Ok "bytes"
|}.

(** The model is configured and answers the geocoding prompt with
    [{"latitude": null, "longitude": null}]. *)
Definition services_geocoder_null : @Services runtime := {|
  ipapi := RequestException "offline";
  waqi_token := Some "token";
  waqi_feed := fun _ _ => HttpJson scenario_paris;
  gemini_model := true;
  generate_content := fun _ => Ok "text";
  generate_json := fun _ => Ok (VDict [("latitude", VNone); ("longitude", VNone)]);
  mongo_client := false;
  mongo_db := false;
  mongo_store := fun _ _ _ => Raise (mk_exn OtherException None);
  read_file := fun _ => Ok "bytes"
|}.

(** The record the constructor builds from [scenario_paris]. *)
Definition paris_record : @AQIData.t runtime :=
  AQIData.mk (Some true) (Some 42%Z) (Some (VStr "Paris, FR")) (Some "Paris")
    (Some "N/A") (Some (VFloat 0x1.8666666666666p+5))
    (Some (VFloat 0x1.2666666666666p+1)) (Some 0%Z)
    (Some ("2024-01-01T00:00:00Z" : @datetime runtime))
    (Some [("pm25", 12.5%float)]) (Some "PM25")
    (Some "Good") (Some "success").

(** A window that shows [paris_record] and has the image [img] loaded. *)
Definition window_with (img : option string) : @AirSenseApp.App runtime :=
  AirSenseApp.with_img_path img
    (AirSenseApp.with_aqi_data (Some paris_record) AirSenseApp.initial).

End Example.

(** The same services with another storage collaborator. *)
Definition with_storage {rt : Runtime} (client db : bool)
  (store : string -> AQIData.t -> text -> result unit) (svc : Services)
  : Services := {|
  ipapi := ipapi svc;
  waqi_token := waqi_token svc;
  waqi_feed := waqi_feed svc;
  gemini_model := gemini_model svc;
  generate_content := generate_content svc;
  generate_json := generate_json svc;
  mongo_client := client;
  mongo_db := db;
  mongo_store := store;
  read_file := read_file svc
|}.

(** Every character of [s] satisfies [q]. *)
Fixpoint all_chars (q : ascii -> bool) (s : string) : bool :=
  match s with
  | EmptyString => true
  | String c rest => q c && all_chars q rest
  end.

(** Every character a word of the pattern can hold satisfies [q]. *)
Fixpoint alphabet_within (q : ascii -> bool) (r : Re.regex) : Prop :=
  match r with
  | Re.Void | Re.Eps => True
  | Re.Chr c => q c = true
  | Re.Class p => forall a, p a = true -> q a = true
  | Re.Seq r1 r2 | Re.Alt r1 r2 => alphabet_within q r1 /\ alphabet_within q r2
  | Re.Star r1 => alphabet_within q r1
  end.

Definition not_comma (a : ascii) : bool := negb (Ascii.eqb a ",").

(** [\s*-?\d+\.?\d*$], what the pattern of line 280 asks for after the comma. *)
Definition after_comma : Re.regex :=
  Re.Seq (Re.Star Re.space) (Re.Seq Re.number Re.dollar).

(** The scheduled functions that enable the controls again:
    [_set_ui_state(False)] itself, and [_update_ai_response], which ends
    with it. *)
Definition releases {rt : Runtime} (cb : AirSenseApp.callback) : bool :=
  match cb with
  | AirSenseApp.Cb_set_ui_state false => true
  | AirSenseApp.Cb_update_ai_response _ => true
  | _ => false
  end.

(** The last of the scheduled functions [cbs] releases the controls, and
    none before it does. *)
Definition released_once_at_end {rt : Runtime} (cbs : list AirSenseApp.callback)
  : bool :=
  match rev cbs with
  | cb :: before => releases cb && forallb (fun c => negb (releases c)) before
  | [] => false
  end.

(** A worker that returns has scheduled, since it started, functions the
    last of which releases the controls, and none before it does. *)
Definition returns_released {rt : Runtime}
  (run : AirSenseApp.World -> result unit * AirSenseApp.World) : Prop :=
  forall w, fst (run w) = Ok tt ->
  exists cbs,
    AirSenseApp.scheduled (AirSenseApp.events (snd (run w)))
    = AirSenseApp.scheduled (AirSenseApp.events w) ++ cbs /\
    released_once_at_end cbs = true.

(** What a run of a worker leaves behind, apart from its calls of adapters
    and its console output: how it ended, [self.aqi_data], and the functions
    it scheduled on the UI thread. *)
Definition visible {rt : Runtime} (x : result unit * AirSenseApp.World)
  : result unit * option AQIData.t * list AirSenseApp.callback :=
  (fst x, AirSenseApp.self_aqi_data (snd x),
   AirSenseApp.scheduled (AirSenseApp.events (snd x))).

(** *** Notions used by the further properties *)

(** The current record is absent or valid. *)
Definition record_ok {rt : Runtime} (x : option AQIData.t) : bool :=
  match x with
  | None => true
  | Some d => AQIData.valid d
  end.

(** The scheduled functions that clear the current record. *)
Definition clears_record {rt : Runtime} (cb : AirSenseApp.callback) : bool :=
  match cb with
  | AirSenseApp.Cb_display_error_state _ _ => true
  | _ => false
  end.

(** The record the window holds once the worker has ended in the world [w]
    and the UI thread has run what the worker scheduled. *)
Definition record_after {rt : Runtime} (w : AirSenseApp.World) : option AQIData.t :=
  if existsb clears_record (AirSenseApp.scheduled (AirSenseApp.events w))
  then None else AirSenseApp.self_aqi_data w.

(** The [progress] argument of the last [_update_status] among [cbs]. *)
Fixpoint last_progress {rt : Runtime} (cbs : list AirSenseApp.callback)
  : option bool :=
  match cbs with
  | [] => None
  | cb :: rest =>
      match last_progress rest with
      | Some b => Some b
      | None => match cb with
                | AirSenseApp.Cb_update_status _ _ progress => Some progress
                | _ => None
                end
      end
  end.

(** The scheduled functions that edit the location entry. *)
Definition edits_entry {rt : Runtime} (cb : AirSenseApp.callback) : bool :=
  match cb with
  | AirSenseApp.Cb_loc_entry_delete | AirSenseApp.Cb_loc_entry_insert _ => true
  | _ => false
  end.

(** The four methods bound to buttons that start a thread. *)
Definition button_triggers {rt : Runtime} (entry question button_text : string)
  : list (AirSenseApp.App -> AirSenseApp.App * AirSenseApp.triggered) :=
  [AirSenseApp.fetch_aqi_by_ip_address; AirSenseApp.fetch_by_input entry;
   AirSenseApp.ask_ai_assistant question button_text; AirSenseApp.analyze_img].

(** A worker keeps the record absent or valid, however it ends. *)
Definition keeps_record_ok {rt : Runtime}
  (run : AirSenseApp.World -> result unit * AirSenseApp.World) : Prop :=
  forall w,
    existsb clears_record (AirSenseApp.scheduled (AirSenseApp.events w)) = false ->
    record_ok (AirSenseApp.self_aqi_data w) = true ->
    record_ok (record_after (snd (run w))) = true.

(** A worker that returns has scheduled, since it started, a last
    [_update_status] that stops the progress bar. *)
Definition returns_stopped {rt : Runtime}
  (run : AirSenseApp.World -> result unit * AirSenseApp.World) : Prop :=
  forall w, fst (run w) = Ok tt ->
  exists cbs,
    AirSenseApp.scheduled (AirSenseApp.events (snd (run w)))
    = AirSenseApp.scheduled (AirSenseApp.events w) ++ cbs /\
    last_progress cbs = Some false.


(** *** Start-up: [class Config], [_initial_fetch] and the main block *)

(** The settings [class Config] reads from the environment with
    [os.getenv]: each is a string or [None]. *)
Record Config := mkConfig {
  GEMINI_API_KEY : option string;
  WAQI_API_TOKEN : option string;
  MONGODB_URI : option string
}.

(** The truth value of an optional string. *)
Definition is_set (x : option string) : bool :=
  match x with
  | Some s => negb (String.eqb s "")
  | None => false
  end.

(** [_initial_fetch] (lines 171-177), run by the UI thread 250 ms after
    the window is built. *)
Definition _initial_fetch {rt : Runtime} (cfg : Config) (a : AirSenseApp.App)
  : AirSenseApp.App * AirSenseApp.triggered :=
  let critical_keys_ok := is_set (WAQI_API_TOKEN cfg) && is_set (GEMINI_API_KEY cfg) in
  if negb critical_keys_ok then
    (AirSenseApp._update_status [Lit "Critical configuration missing."] "danger" false
       (AirSenseApp._display_error_state "Config Error"
          [Lit "WAQI or Gemini API Key not set in .env file."] a),
     AirSenseApp.Returned)
  else AirSenseApp.fetch_aqi_by_ip_address a.

(** How the main block (lines 378-384) goes on: it shows an error box and
    exits, or builds the window and enters the main loop. *)
Inductive launch :=
| Exit (code : Z) (title message : string)
| Mainloop.

Definition main (cfg : Config) : launch :=
  if negb (is_set (GEMINI_API_KEY cfg)) || negb (is_set (WAQI_API_TOKEN cfg)) then
    Exit 1 "Critical Configuration Error"
      ("GEMINI_API_KEY and/or WAQI_API_TOKEN are not set."
       ++ String "010" "The application requires both to function and will now exit.")
  else Mainloop.

(** *** More closed inputs *)

Module Sample.

(** Services whose model is configured and whose database is connected:
    the IP lookup answers [ip], the feed [feed], the geocoding request
    [json], and reading any file [file]. *)
Definition services (ip : http_result) (feed : value) (json : result value)
  (file : result string) : @Services Example.runtime := {|
  ipapi := ip;
  waqi_token := Some "token";
  waqi_feed := fun _ _ => HttpJson feed;
  gemini_model := true;
  generate_content := fun _ => Ok "text";
  generate_json := fun _ => json;
  mongo_client := true;
  mongo_db := true;
  mongo_store := fun _ _ _ => Ok tt;
  read_file := fun _ => file
|}.

(** The feed answers with an error. *)
Definition feed_error : value :=
  VDict [("status", VStr "error"); ("data", VStr "Invalid key")].

(** The feed answers [ok] with a station whose position has one
    coordinate only. *)
Definition feed_short_geo : value :=
  feed_ok [("aqi", VInt 42); ("city", VDict [("geo", VList [VNone])])].

(** The reply of the geocoder for Paris. *)
Definition geocoded_paris : value :=
  VDict [("latitude", VFloat 0x1.8666666666666p+5);
         ("longitude", VFloat 0x1.2666666666666p+1);
         ("identified_name", VStr "Paris, France")].

(** The readings of a feed: one with a value, one without. *)
Definition readings : list (string * value) :=
  [("pm25", VDict [("v", VFloat 12.5)]); ("o3", VDict [])].

(** Both critical keys are set, no database is configured. *)
Definition config : Config := mkConfig (Some "key") (Some "token") None.

End Sample.

(* ================================================================== *)
(** ** Supporting lemmas *)
(* ================================================================== *)

Section AQIDataFacts.
Context {rt : Runtime}.
Import AQIData.

Lemma category_loop_table (n : Z) (name theme : string) :
  category_loop aqi_categories n ("No Data", "secondary") = (name, theme) ->
  ((0 <= n <= 50)%Z -> name = "Good" /\ theme = "success") /\
  ((51 <= n <= 100)%Z -> name = "Moderate" /\ theme = "warning") /\
  ((101 <= n <= 150)%Z -> name = "Unhealthy for Sensitive" /\ theme = "warning") /\
  ((151 <= n <= 200)%Z -> name = "Unhealthy" /\ theme = "danger") /\
  ((201 <= n <= 300)%Z -> name = "Very Unhealthy" /\ theme = "danger") /\
  ((301 <= n <= 5000)%Z -> name = "Hazardous" /\ theme = "danger") /\
  ((n < 0 \/ 5000 < n)%Z -> name = "No Data" /\ theme = "secondary").
Proof.
  unfold aqi_categories, category_loop.
  repeat match goal with
         | |- context [(?a <=? ?b)%Z] => destruct (Z.leb_spec a b); cbn [andb]
         end;
  intros E; inversion E; subst; repeat split; intros; try lia; reflexivity.
Qed.

(** Case analysis along the statements of the constructor. *)
Ltac init_cases H :=
  unfold __init__, try_body, bind, eval, assign in H;
  repeat match type of H with
         | context [match ?x with _ => _ end] =>
             lazymatch x with
             | context [match _ with _ => _ end] => fail
             | _ => destruct x eqn:?; cbn -[category_loop] in H
             end
         | context [if ?x then _ else _] =>
             lazymatch x with
             | context [match _ with _ => _ end] => fail
             | _ => destruct x eqn:?; cbn -[category_loop] in H
             end
         end;
  try discriminate; inversion H; subst; clear H.

(** A constructor call that returns has assigned [is_valid]. *)
Lemma init_assigns_is_valid (waqi_json : value) (d : t) :
  __init__ waqi_json = Ok d -> is_valid d <> None.
Proof.
  intros H. init_cases H; cbn; discriminate.
Qed.

(** A valid instance has every attribute, and its category is the one the
    loop finds for its index. *)
Lemma init_valid_inv (waqi_json : value) (d : t) :
  __init__ waqi_json = Ok d -> valid d = true ->
  exists n loc c la lo ts ps dom,
    d = mk (Some true) (Some n) (Some loc) (Some c) (Some "N/A") (Some la)
           (Some lo) (Some 0%Z) (Some ts) (Some ps) (Some dom)
           (Some (fst (category_loop aqi_categories n ("No Data", "secondary"))))
           (Some (snd (category_loop aqi_categories n ("No Data", "secondary")))).
Proof.
  intros H V. init_cases H; cbn in V; try discriminate.
  all: do 8 eexists; cbv [set_aqi_category set_dominant_pollutant set_pollutants
         set_timestamp set_distance_km set_latitude_longitude set_country set_city
         set_location_name set_overall_aqi set_is_valid fresh is_valid overall_aqi location_name
         city country latitude longitude distance_km timestamp pollutants
         dominant_pollutant aqi_category_name aqi_category_theme];
    match goal with E : category_loop _ _ _ = _ |- _ => rewrite E end; reflexivity.
Qed.

(** A string that [int] rejects in the place of the index: the
    [ValueError] is not one of the classes the handler names. *)
Lemma init_raises_on_index (s : string) :
  int_of_str s = None ->
  __init__ (feed_ok [("aqi", VStr s)]) = Raise (mk_exn ValueError None).
Proof.
  intros H. unfold __init__, try_body, bind, eval, assign, feed_ok.
  cbn. rewrite H. reflexivity.
Qed.

End AQIDataFacts.

Section RejectedFeeds.
Context {rt : Runtime}.
Import AQIData.

(** X20. A response whose data is missing or empty, or whose status is
    not ok, gives an instance with [is_valid] false and no other
    attribute: the constructor returns before it reads anything else. *)
Lemma init_not_ok (d : list (string * value)) :
  truthy (match lookup "data" d with Some x => x | None => VNone end) = false \/
  eq_str (match lookup "status" d with Some x => x | None => VNone end) "ok" = false ->
  __init__ (VDict d) = Ok (set_is_valid false fresh) /\
  valid (set_is_valid false fresh) = false.
Proof.
  intros H. split; [|reflexivity].
  unfold __init__, try_body, bind, eval, assign. cbn [get].
  destruct H as [H|H]; rewrite H; cbn; [|rewrite orb_true_r]; reflexivity.
Qed.

End RejectedFeeds.

Section StringFacts.

Lemma lstrip_by_all (p : ascii -> bool) (s : string) :
  forallb p (list_ascii_of_string s) = true -> lstrip_by p s = EmptyString.
Proof.
  induction s as [|c s IH]; cbn; [reflexivity|].
  intros H. apply andb_true_iff in H as [Hc Hs]. rewrite Hc. exact (IH Hs).
Qed.

Lemma strip_blank (s : string) :
  forallb isspace (list_ascii_of_string s) = true -> strip s = EmptyString.
Proof.
  intros H. unfold strip, strip_by. rewrite (lstrip_by_all _ _ H). reflexivity.
Qed.

End StringFacts.

Section RegexFacts.
Import Re.

Lemma nullable_sound (r : regex) : nullable r = true -> lang r "".
Proof.
  induction r as [| |c|p|r1 IH1 r2 IH2|r1 IH1 r2 IH2|r1 IH1]; cbn; intros H;
    try discriminate.
  - constructor.
  - apply andb_true_iff in H as [H1 H2].
    change EmptyString with (EmptyString ++ EmptyString)%string.
    constructor; auto.
  - apply orb_true_iff in H as [H|H]; [apply L_alt_l | apply L_alt_r]; auto.
  - constructor.
Qed.

Lemma deriv_sound (a : ascii) (r : regex) :
  forall s, lang (deriv a r) s -> lang r (String a s).
Proof.
  induction r as [| |c|p|r1 IH1 r2 IH2|r1 IH1 r2 IH2|r1 IH1]; cbn; intros s H.
  - inversion H.
  - inversion H.
  - destruct (Ascii.eqb_spec a c) as [->|]; inversion H; subst. constructor.
  - destruct (p a) eqn:E; inversion H; subst. constructor. exact E.
  - destruct (nullable r1) eqn:N.
    + inversion H as [| | | |? ? ? HS|? ? ? HR| |]; subst.
      * inversion HS; subst.
        change (String a (s1 ++ s2)) with (String a s1 ++ s2)%string.
        constructor; auto.
      * change (String a s) with (EmptyString ++ String a s)%string.
        constructor; [apply nullable_sound; exact N | auto].
    + inversion H; subst.
      change (String a (s1 ++ s2)) with (String a s1 ++ s2)%string.
      constructor; auto.
  - inversion H; subst; [apply L_alt_l | apply L_alt_r]; auto.
  - inversion H; subst.
    change (String a (s1 ++ s2)) with (String a s1 ++ s2)%string.
    apply L_star_cons; auto.
Qed.

(** A string the matcher accepts is in the language of the pattern. *)
Lemma fullmatch_sound (s : string) :
  forall r, fullmatch r s = true -> lang r s.
Proof.
  induction s as [|a s IH]; cbn; intros r H.
  - apply nullable_sound; exact H.
  - apply deriv_sound. apply IH. exact H.
Qed.

Lemma all_chars_app (q : ascii -> bool) (s1 s2 : string) :
  all_chars q (s1 ++ s2) = all_chars q s1 && all_chars q s2.
Proof.
  induction s1 as [|c s1 IH]; cbn; [reflexivity|].
  rewrite IH. apply andb_assoc.
Qed.

Lemma lang_alphabet (q : ascii -> bool) (r : regex) (s : string) :
  lang r s -> alphabet_within q r -> all_chars q s = true.
Proof.
  induction 1 as [|c|p c Hp|r1 r2 s1 s2 _ IH1 _ IH2|r1 r2 s _ IH|r1 r2 s _ IH
                  |r|r s1 s2 _ IH1 _ IH2]; cbn; intros A.
  - reflexivity.
  - rewrite A. reflexivity.
  - rewrite (A c Hp). reflexivity.
  - destruct A as [A1 A2]. rewrite all_chars_app, IH1, IH2; auto.
  - destruct A as [A1 A2]. auto.
  - destruct A as [A1 A2]. auto.
  - reflexivity.
  - rewrite all_chars_app, IH1, IH2; auto.
Qed.

Lemma isdecimal_not_comma (a : ascii) : isdecimal a = true -> not_comma a = true.
Proof.
  destruct a as [[] [] [] [] [] [] [] []]; cbv; intros H;
    first [reflexivity | discriminate H].
Qed.

Lemma isspace_not_comma (a : ascii) : isspace a = true -> not_comma a = true.
Proof.
  destruct a as [[] [] [] [] [] [] [] []]; cbv; intros H;
    first [reflexivity | discriminate H].
Qed.

Lemma number_alphabet : alphabet_within not_comma number.
Proof.
  cbn. repeat split; auto using isdecimal_not_comma.
Qed.

Lemma after_comma_alphabet : alphabet_within not_comma after_comma.
Proof.
  cbn. repeat split; auto using isdecimal_not_comma, isspace_not_comma.
Qed.

Lemma split_without_sep (sep : ascii) (s : string) :
  all_chars (fun a => negb (Ascii.eqb a sep)) s = true -> split sep s = [s].
Proof.
  induction s as [|c s IH]; cbn; [reflexivity|].
  intros H. apply andb_true_iff in H as [Hc Hs].
  apply negb_true_iff in Hc. rewrite Hc, (IH Hs). reflexivity.
Qed.

Lemma split_at_sep (sep : ascii) (s1 s2 : string) :
  all_chars (fun a => negb (Ascii.eqb a sep)) s1 = true ->
  split sep (s1 ++ String sep s2) = s1 :: split sep s2.
Proof.
  induction s1 as [|c s1 IH]; cbn.
  - intros _. rewrite Ascii.eqb_refl. reflexivity.
  - intros H. apply andb_true_iff in H as [Hc Hs].
    apply negb_true_iff in Hc. rewrite Hc, (IH Hs). reflexivity.
Qed.

(** A query that matches the pattern of line 280 has exactly one comma:
    [query.split(',')] gives two pieces, a number and what the pattern
    allows after the comma. *)
Lemma coordinates_split (query : string) :
  match_ coordinates query = true ->
  exists x y, split "," query = [x; y] /\ lang number x /\ lang after_comma y.
Proof.
  intros H. apply fullmatch_sound in H. unfold coordinates in H.
  inversion H as [| | |? ? x rest Hx Hrest| | | |]; subst.
  inversion Hrest as [| | |? ? comma y Hc Hy| | | |]; subst.
  inversion Hc; subst.
  exists x, y. split; [|split; [exact Hx | exact Hy]].
  cbn [append].
  rewrite (split_at_sep "," x y (lang_alphabet _ _ _ Hx number_alphabet)).
  rewrite (split_without_sep "," y (lang_alphabet _ _ _ Hy after_comma_alphabet)).
  reflexivity.
Qed.

End RegexFacts.

Section WorkerFacts.
Context {rt : Runtime}.
Import AirSenseApp.

Lemma scheduled_app (l1 l2 : list event) :
  scheduled (l1 ++ l2) = scheduled l1 ++ scheduled l2.
Proof.
  induction l1 as [|ev l1 IH]; cbn; [reflexivity|].
  destruct ev; cbn; rewrite IH; reflexivity.
Qed.

Lemma client_calls_app (l1 l2 : list event) :
  client_calls (l1 ++ l2) = client_calls l1 ++ client_calls l2.
Proof.
  induction l1 as [|ev l1 IH]; cbn; [reflexivity|].
  destruct ev; cbn; rewrite IH; reflexivity.
Qed.

(** The causes of an absent answer that the specification names: the model
    is not configured, the client raises, or the reply has a null or absent
    latitude or longitude. *)
Lemma get_coordinates_absent (svc : Services) (query : string) :
  gemini_model svc = false \/
  (exists e, generate_json svc (geocoding_prompt query) = Raise e) \/
  (exists d, generate_json svc (geocoding_prompt query) = Ok (VDict d) /\
             (lookup "latitude" d = None \/ lookup "latitude" d = Some VNone \/
              lookup "longitude" d = None \/ lookup "longitude" d = Some VNone)) ->
  get_coordinates_from_text svc query = None.
Proof.
  unfold get_coordinates_from_text, get_coordinates_body.
  intros [H | [[e H] | (d & H & C)]].
  - rewrite H. reflexivity.
  - rewrite H. destruct (gemini_model svc); reflexivity.
  - rewrite H. destruct (gemini_model svc); [|reflexivity]. cbn.
    destruct C as [C | [C | [C | C]]]; rewrite C; cbn;
      try reflexivity;
      destruct (lookup "latitude" d) as [[]|]; reflexivity.
Qed.

End WorkerFacts.

Section AnalyzeFacts.
Context {rt : Runtime}.
Import AirSenseApp.

(** The adapters of the model and of the feed do not look at the storage
    collaborator. *)
Lemma get_ai_response_storage (svc : Services) client db store prompt img ctype :
  get_ai_response (with_storage client db store svc) prompt img ctype
  = get_ai_response svc prompt img ctype.
Proof. reflexivity. Qed.

Lemma analyze_worker_storage (svc : Services) client db store img w :
  visible (_worker_analyze_img (with_storage client db store svc) img w)
  = visible (_worker_analyze_img svc img w).
Proof.
  unfold visible, _worker_analyze_img, try_except_finally, analyze_body, bind,
    eval, emit, after, read_aqi_data, ret.
  cbn [read_file with_storage mongo_client].
  destruct img as [p|]; [|reflexivity].
  destruct (read_file svc p) as [bytes|e]; [|reflexivity].
  destruct (ctype_of p) as [ct|]; [|reflexivity].
  destruct ct as [|c ct]; [reflexivity|].
  cbn -[image_context get_ai_response analysis_prompt save_record].
  destruct (image_context (self_aqi_data w)) as [ctx|e]; [|reflexivity].
  destruct (self_aqi_data w) as [d|]; [|reflexivity].
  change (get_ai_response (with_storage client db store svc))
    with (get_ai_response svc).
  set (analysis := get_ai_response svc _ _ _).
  unfold save_record. cbn [mongo_db mongo_store with_storage].
  destruct client, (mongo_client svc), (AQIData.valid d), db, (mongo_db svc);
    cbn -[analysis];
    repeat match goal with
           | |- context [match ?x with Ok _ => _ | Raise _ => _ end] =>
               destruct x; cbn -[analysis]
           end;
    rewrite ?scheduled_app; cbn -[analysis]; rewrite ?scheduled_app;
    cbn -[analysis]; rewrite ?app_nil_r; reflexivity.
Qed.

(** [save_record] with a database: a save that raises prints one line that
    carries the exception, a save that returns prints nothing. *)
Lemma save_record_logs (svc : Services) (p ct : string) (d : AQIData.t)
  (analysis : text) :
  mongo_db svc = true ->
  save_record svc (Some p) ct d analysis
  = match mongo_store svc p d analysis with
    | Ok _ => []
    | Raise e => [[Lit "Failed to save record to MongoDB: "; Err e]]
    end.
Proof.
  intros H. unfold save_record. rewrite H. reflexivity.
Qed.

(** No exception leaves the analysis worker. *)
Lemma analyze_worker_returns (svc : Services) img w :
  fst (_worker_analyze_img svc img w) = Ok tt.
Proof.
  unfold _worker_analyze_img, try_except_finally, analyze_body, bind,
    eval, emit, after, read_aqi_data, ret.
  destruct img as [p|]; [|reflexivity].
  destruct (read_file svc p) as [bytes|e]; [|reflexivity].
  destruct (ctype_of p) as [ct|]; [|reflexivity].
  destruct ct as [|c ct]; [reflexivity|].
  cbn -[image_context get_ai_response analysis_prompt save_record].
  destruct (image_context (self_aqi_data w)) as [ctx|e]; [|reflexivity].
  destruct (self_aqi_data w) as [d|]; [|reflexivity].
  destruct (mongo_client svc && AQIData.valid d); [|reflexivity].
  unfold save_record.
  destruct (mongo_db svc); [|reflexivity].
  cbn -[get_ai_response analysis_prompt].
  destruct (mongo_store svc _ _ _) as [[]|]; reflexivity.
Qed.

End AnalyzeFacts.

Section FetchFacts.
Context {rt : Runtime}.
Import AirSenseApp.

(** The feed answers ok with [-] for the index: the [ValueError] of the
    constructor leaves [_worker_fetch_aqi_data], which has no handler. *)
Lemma fetch_worker_raises (svc : Services) (lat lon : float) (w : World) :
  int_of_str "-" = None ->
  get_latest_aqi_by_coords svc (VFloat lat) (VFloat lon) = feed_without_reading ->
  _worker_fetch_aqi_data svc (VFloat lat) (VFloat lon) w
  = (Raise (mk_exn ValueError None),
     mkWorld (self_aqi_data w)
       ((events w
         ++ [After (Cb_update_status
                      [Lit "Fetching AQI near ("; Fix2 (VFloat lat); Lit ",";
                       Fix2 (VFloat lon); Lit ")..."] "info" true)])
        ++ [Call (get_latest_aqi_by_coords_called (VFloat lat) (VFloat lon))])).
Proof.
  intros Hint Hfeed.
  unfold _worker_fetch_aqi_data, bind, eval, emit, after.
  cbn [format_fix2]. rewrite Hfeed.
  pose proof (init_raises_on_index "-" Hint) as E.
  change (feed_ok [("aqi", VStr "-")]) with feed_without_reading in E.
  cbn -[AQIData.__init__ feed_without_reading].
  unfold feed_without_reading at 1 2. cbn -[AQIData.__init__ feed_without_reading].
  rewrite E. reflexivity.
Qed.

End FetchFacts.

Section BusyFacts.
Context {rt : Runtime}.
Import AirSenseApp.
Variable svc : Services.

Lemma released_after_prefix (pre cbs : list callback) :
  forallb (fun c => negb (releases c)) pre = true ->
  released_once_at_end cbs = true ->
  released_once_at_end (pre ++ cbs) = true.
Proof.
  unfold released_once_at_end. intros Hpre H.
  rewrite rev_app_distr.
  destruct (rev cbs) as [|cb before]; [discriminate|].
  cbn. apply andb_true_iff in H as [H1 H2].
  rewrite H1, forallb_app, H2. cbn.
  rewrite forallb_forall in *. intros c Hc. apply Hpre.
  apply in_rev. exact Hc.
Qed.

Ltac normalise_events :=
  cbn [snd fst events]; rewrite ?scheduled_app; cbn [scheduled app];
  rewrite <- ?app_assoc; cbn [app].

Ltac done_released :=
  normalise_events; eexists; split; [reflexivity | reflexivity].

Lemma fetch_worker_released (lat lon : value) :
  returns_released (_worker_fetch_aqi_data svc lat lon).
Proof.
  intros w. unfold _worker_fetch_aqi_data, bind, eval, emit, after, write_aqi_data.
  destruct (format_fix2 lat) as [la|e]; [|discriminate].
  destruct (format_fix2 lon) as [lo|e]; [|discriminate].
  set (raw := get_latest_aqi_by_coords svc lat lon).
  cbn -[AQIData.__init__].
  destruct (truthy raw) eqn:T.
  - destruct (get raw "status" VNone) as [status|e]; [|discriminate].
    cbn -[AQIData.__init__].
    destruct (eq_str status "ok").
    + destruct (AQIData.__init__ raw) as [d|e]; [|discriminate].
      cbn. destruct (AQIData.valid d); cbn; intros _; done_released.
    + destruct (get raw "data" (VStr "Unknown API error.")) as [reason|e];
        [|discriminate].
      cbn. intros _. done_released.
  - cbn -[AQIData.__init__].
    destruct (get raw "data" (VStr "Unknown API error.")) as [reason|e];
      [|discriminate].
    cbn. intros _. done_released.
Qed.

Lemma ip_worker_released : returns_released (_worker_fetch_by_ip svc).
Proof.
  intros w. unfold _worker_fetch_by_ip, get_location_from_ip.
  unfold bind at 1. unfold emit at 1.
  destruct (ipapi svc) as [loc|msg].
  - destruct (truthy loc).
    + unfold bind, eval, after, emit.
      cbn -[_worker_fetch_aqi_data].
      destruct (get loc "city" VNone) as [c|e]; [|discriminate].
      destruct (get loc "country_code" VNone) as [cc|e]; [|discriminate].
      cbn -[_worker_fetch_aqi_data].
      destruct (subscript_str loc "latitude") as [lat|e]; [|discriminate].
      destruct (subscript_str loc "longitude") as [lon|e]; [|discriminate].
      cbn -[_worker_fetch_aqi_data].
      intros H. destruct (fetch_worker_released lat lon _ H) as (cbs & E & R).
      rewrite E. normalise_events.
      eexists. split; [reflexivity|].
      apply (released_after_prefix [_; _]); [reflexivity | exact R].
    + unfold bind, after, emit. cbn. intros _. done_released.
  - unfold bind, after, emit. cbn. intros _. done_released.
Qed.

Lemma geocode_worker_released (query : string) :
  returns_released (_worker_geocode_with_gemini svc query).
Proof.
  intros w. unfold _worker_geocode_with_gemini.
  unfold bind at 1. unfold emit at 1.
  destruct (get_coordinates_from_text svc query) as [[[lat lon] name]|].
  - unfold bind, after, emit. cbn -[_worker_fetch_aqi_data].
    intros H. destruct (fetch_worker_released _ _ _ H) as (cbs & E & R).
    rewrite E. normalise_events.
    eexists. split; [reflexivity|].
    apply (released_after_prefix [_; _]); [reflexivity | exact R].
  - unfold bind, after, emit. cbn. intros _. done_released.
Qed.

Lemma ask_worker_released (question : string) :
  returns_released (_worker_ask_ai svc question).
Proof.
  intros w. unfold _worker_ask_ai, bind, eval, emit, after, read_aqi_data.
  cbn -[data_context get_ai_response].
  destruct (self_aqi_data w) as [d|].
  - destruct (AQIData.valid d).
    + destruct (data_context d) as [ctx|e]; [|discriminate].
      cbn -[get_ai_response]. intros _. done_released.
    + cbn -[get_ai_response]. intros _. done_released.
  - cbn -[get_ai_response]. intros _. done_released.
Qed.

Lemma scheduled_prints (lines : list text) (w : World) :
  visible (fold_right (fun line k => bind (emit (Print line)) (fun _ => k))
             (ret tt) lines w)
  = (Ok tt, self_aqi_data w, scheduled (events w)).
Proof.
  revert w. induction lines as [|line lines IH]; intros w; [reflexivity|].
  cbn [fold_right]. unfold bind at 1. unfold emit at 1.
  rewrite IH. unfold visible. cbn. rewrite scheduled_app. cbn.
  rewrite app_nil_r. reflexivity.
Qed.

Lemma analyze_worker_released (img : option string) :
  returns_released (_worker_analyze_img svc img).
Proof.
  intros w _.
  unfold _worker_analyze_img, try_except_finally, analyze_body, bind,
    eval, emit, after, read_aqi_data.
  destruct img as [p|]; [|cbn; done_released].
  destruct (read_file svc p) as [bytes|e]; [|cbn; done_released].
  destruct (ctype_of p) as [ct|]; [|cbn; done_released].
  destruct ct as [|c ct]; [cbn; done_released|].
  cbn -[image_context get_ai_response analysis_prompt save_record].
  destruct (image_context (self_aqi_data w)) as [ctx|e]; [|cbn; done_released].
  destruct (self_aqi_data w) as [d|];
    [|cbn -[get_ai_response analysis_prompt]; done_released].
  destruct (mongo_client svc && AQIData.valid d);
    [|cbn -[get_ai_response analysis_prompt]; done_released].
  set (analysis := get_ai_response svc _ _ _).
  cbn -[analysis save_record].
  match goal with
  | |- context [fold_right ?f ?z ?lines ?w0] =>
      pose proof (scheduled_prints lines w0) as P;
      change (fold_right _ _ lines w0) with (fold_right f z lines w0) in P;
      destruct (fold_right f z lines w0) as [r1 w1]
  end.
  unfold visible in P. cbn [fst snd self_aqi_data events] in P.
  injection P as -> _ P.
  cbn -[analysis]. normalise_events. rewrite P.
  normalise_events. eexists. split; [reflexivity | reflexivity].
Qed.

(** Every worker that returns has scheduled the release of the controls
    once, as the last function of its chain. *)
Lemma run_job_released (j : job) (a : App) : returns_released (run_job svc j a).
Proof.
  destruct j; cbn [run_job];
    auto using ip_worker_released, fetch_worker_released,
      geocode_worker_released, ask_worker_released, analyze_worker_released.
Qed.

End BusyFacts.

Section OperationFacts.
Context {rt : Runtime}.
Import AirSenseApp.

Lemma run_callbacks_app (l1 l2 : list callback) (a : App) :
  run_callbacks (l1 ++ l2) a = run_callbacks l2 (run_callbacks l1 a).
Proof. apply fold_left_app. Qed.

(** When the last scheduled function releases the controls, the idle window
    is not busy. *)
Lemma released_clears_busy (cbs : list callback) (a : App) :
  released_once_at_end cbs = true ->
  controls_disabled (run_callbacks cbs a) = false.
Proof.
  unfold released_once_at_end. intros H.
  rewrite <- (rev_involutive cbs).
  destruct (rev cbs) as [|cb before]; [discriminate|].
  apply andb_true_iff in H as [H _].
  cbn [rev]. rewrite run_callbacks_app. cbn.
  destruct cb as [| | |[]| | | |]; try discriminate; reflexivity.
Qed.

(** X21. The busy discipline on every path where the worker returns:
    whatever the trigger and the services, the release of the controls was
    scheduled once, as the last function of the chain, and the idle window
    is not busy. *)
Lemma operation_releases_controls (svc : Services)
  (trigger : App -> App * triggered) (a : App) :
  worker_result (operation svc trigger a) = Some (Ok tt) ->
  released_once_at_end (scheduled (trace (operation svc trigger a))) = true /\
  controls_disabled (final (operation svc trigger a)) = false.
Proof.
  unfold operation. destruct (trigger a) as [a1 t].
  destruct t as [j| |e]; cbn; try discriminate.
  pose proof (run_job_released svc j a1 (mkWorld (aqi_data a1) [])) as R.
  destruct (run_job svc j a1 _) as [r w]. cbn in *.
  intros H. injection H as ->.
  destruct (R eq_refl) as (cbs & E & Hr). rewrite E.
  split; [exact Hr | apply released_clears_busy; exact Hr].
Qed.

(** X22. Each of the four methods bound to buttons, when it starts a
    thread, has disabled the controls by the time it returns. *)
Lemma triggers_disable_controls (entry question button_text : string) (a : App) :
  forall trigger,
    In trigger [fetch_aqi_by_ip_address; fetch_by_input entry;
                ask_ai_assistant question button_text; analyze_img] ->
    forall j, snd (trigger a) = Started j ->
              controls_disabled (fst (trigger a)) = true.
Proof.
  intros trigger [<-|[<-|[<-|[<-|[]]]]] j; cbn.
  - reflexivity.
  - unfold fetch_by_input.
    destruct (strip entry =? "")%string; [discriminate|].
    destruct (Re.match_ Re.coordinates (strip entry)).
    + destruct (unpack_floats _) as [[lat lon]|e]; reflexivity.
    + reflexivity.
  - reflexivity.
  - unfold analyze_img. destruct (_ || _); [discriminate | reflexivity].
Qed.

(** Locate-by-text with a query that is not empty and does not match the
    pattern: the geocoding worker is started with the stripped query. *)
Lemma fetch_by_input_geocodes (entry : string) (a : App) :
  strip entry <> "" ->
  Re.match_ Re.coordinates (strip entry) = false ->
  fetch_by_input entry a
  = (_update_status [Lit "Finding '"; Lit (strip entry); Lit "'..."] "info" true
       (_set_ui_state true a),
     Started (Job_geocode_with_gemini (strip entry))).
Proof.
  intros Hne Hre. unfold fetch_by_input. rewrite Hre.
  destruct (String.eqb_spec (strip entry) ""); [contradiction | reflexivity].
Qed.

(** X23. Locate-by-text with a query that matches the pattern: the query
    has exactly two pieces around its comma, a number and what the pattern
    allows after the comma; when [float] takes both, the fetch worker is
    started with the two numbers, and otherwise the trigger raises
    [ValueError] after it has disabled the controls; the status line is not
    touched. *)
Lemma fetch_by_input_coordinates (entry : string) (a : App) :
  strip entry <> "" ->
  Re.match_ Re.coordinates (strip entry) = true ->
  exists x y,
    split "," (strip entry) = [x; y] /\
    Re.lang Re.number x /\ Re.lang after_comma y /\
    fetch_by_input entry a
    = (_set_ui_state true a,
       match float_of_str x, float_of_str y with
       | Some lat, Some lon => Started (Job_fetch_aqi_data (VFloat lat) (VFloat lon))
       | _, _ => Raised (mk_exn ValueError None)
       end).
Proof.
  intros Hne Hre.
  destruct (coordinates_split _ Hre) as (x & y & Hs & Hx & Hy).
  exists x, y. repeat split; try assumption.
  unfold fetch_by_input. rewrite Hre, Hs.
  destruct (String.eqb_spec (strip entry) ""); [contradiction|].
  cbn. destruct (float_of_str x); [|reflexivity].
  destruct (float_of_str y); reflexivity.
Qed.

(** The fetch worker calls the feed adapter and no other one. *)
Lemma fetch_worker_calls (svc : Services) (lat lon : float) (w : World) :
  client_calls (events (snd (_worker_fetch_aqi_data svc (VFloat lat) (VFloat lon) w)))
  = client_calls (events w)
    ++ [get_latest_aqi_by_coords_called (VFloat lat) (VFloat lon)].
Proof.
  unfold _worker_fetch_aqi_data, bind, eval, emit, after, write_aqi_data.
  set (raw := get_latest_aqi_by_coords svc (VFloat lat) (VFloat lon)).
  cbn -[AQIData.__init__].
  destruct (truthy raw);
    [destruct (get raw "status" VNone) as [status|e]; cbn -[AQIData.__init__];
     [destruct (eq_str status "ok");
      [destruct (AQIData.__init__ raw) as [d|e]; cbn;
       [destruct (AQIData.valid d); cbn|]
      |destruct (get raw "data" _) as [reason|e]; cbn]|]
    |cbn; destruct (get raw "data" _) as [reason|e]; cbn];
    rewrite ?client_calls_app; cbn [client_calls app]; rewrite ?app_nil_r;
    reflexivity.
Qed.

End OperationFacts.

(* ================================================================== *)
(** ** The properties of the specification *)
(* ================================================================== *)

(** C1. For every integer index [n]: a feed carrying it yields a valid
    record whose index is [n]; and whenever the constructor returns a valid
    record with index [n], its category name and theme are those of the
    inclusive ranges [0,50] Good/success, [51,100] Moderate/warning,
    [101,150] Unhealthy for Sensitive/warning, [151,200] Unhealthy/danger,
    [201,300] Very Unhealthy/danger, [301,5000] Hazardous/danger, and
    No Data/secondary outside all of them. *)
Theorem C1_category_by_ranges : forall (rt : Runtime) (n : Z),
  (exists d, AQIData.__init__ (feed_ok [("aqi", VInt n)]) = Ok d /\
             AQIData.valid d = true /\ AQIData.overall_aqi d = Some n) /\
  (forall (waqi_json : value) (d : AQIData.t),
      AQIData.__init__ waqi_json = Ok d ->
      AQIData.valid d = true ->
      AQIData.overall_aqi d = Some n ->
      exists name theme,
        AQIData.aqi_category_name d = Some name /\
        AQIData.aqi_category_theme d = Some theme /\
        ((0 <= n <= 50)%Z -> name = "Good" /\ theme = "success") /\
        ((51 <= n <= 100)%Z -> name = "Moderate" /\ theme = "warning") /\
        ((101 <= n <= 150)%Z ->
           name = "Unhealthy for Sensitive" /\ theme = "warning") /\
        ((151 <= n <= 200)%Z -> name = "Unhealthy" /\ theme = "danger") /\
        ((201 <= n <= 300)%Z -> name = "Very Unhealthy" /\ theme = "danger") /\
        ((301 <= n <= 5000)%Z -> name = "Hazardous" /\ theme = "danger") /\
        ((n < 0 \/ 5000 < n)%Z -> name = "No Data" /\ theme = "secondary")).
Proof.
  intros rt n. split.
  - unfold AQIData.__init__, AQIData.try_body, AQIData.bind, AQIData.eval,
      AQIData.assign, feed_ok.
    cbn -[AQIData.category_loop].
    destruct (AQIData.category_loop _ _ _) as [cname ctheme].
    eexists. split; [reflexivity|]. split; reflexivity.
  - intros waqi_json d H V I.
    destruct (init_valid_inv _ _ H V)
      as (m & loc & c & la & lo & ts & ps & dom & ->).
    cbn in I. injection I as ->.
    destruct (AQIData.category_loop AQIData.aqi_categories n
                ("No Data", "secondary")) as [name theme] eqn:E.
    exists name, theme. cbn [AQIData.aqi_category_name AQIData.aqi_category_theme fst snd].
    split; [reflexivity|]. split; [reflexivity|].
    exact (category_loop_table n name theme E).
Qed.

(** The boundary values named in the specification. *)
Lemma category_boundaries :
  map (fun n => AQIData.category_loop AQIData.aqi_categories n ("No Data", "secondary"))
      [0; 50; 51; 100; 101; 150; 151; 200; 201; 300; 301; 5000; -1; 5001]%Z
  = [("Good", "success"); ("Good", "success");
     ("Moderate", "warning"); ("Moderate", "warning");
     ("Unhealthy for Sensitive", "warning"); ("Unhealthy for Sensitive", "warning");
     ("Unhealthy", "danger"); ("Unhealthy", "danger");
     ("Very Unhealthy", "danger"); ("Very Unhealthy", "danger");
     ("Hazardous", "danger"); ("Hazardous", "danger");
     ("No Data", "secondary"); ("No Data", "secondary")].
Proof. reflexivity. Qed.

Lemma C1_category_by_ranges_witness :
  @AQIData.__init__ Example.runtime scenario_paris = Ok Example.paris_record /\
  AQIData.valid Example.paris_record = true /\
  AQIData.overall_aqi Example.paris_record = Some 42%Z /\
  exists name theme,
    AQIData.aqi_category_name Example.paris_record = Some name /\
    AQIData.aqi_category_theme Example.paris_record = Some theme /\
    name = "Good" /\ theme = "success".
Proof.
  split; [reflexivity|]. split; [reflexivity|]. split; [reflexivity|].
  destruct (proj2 (C1_category_by_ranges Example.runtime 42) scenario_paris
              Example.paris_record eq_refl eq_refl eq_refl)
    as (name & theme & Hn & Ht & G & _).
  exists name, theme. split; [exact Hn|]. split; [exact Ht|]. apply G. lia.
Defined.

(** C2, at the failing input. The feed answers ok with [-] where the index
    should be. The thread whose target is [_worker_fetch_aqi_data] ends by
    the [ValueError] of the constructor: the exception leaves the worker,
    and the only function the worker scheduled on the UI thread is the
    progress status, so no error message reaches the user. *)
Theorem C2_exception_leaves_worker :
  forall (rt : Runtime) (svc : Services) (lat lon : float) (a : AirSenseApp.App)
         (w : AirSenseApp.World),
  int_of_str "-" = None ->
  get_latest_aqi_by_coords svc (VFloat lat) (VFloat lon) = feed_without_reading ->
  let run := AirSenseApp.run_job svc
               (AirSenseApp.Job_fetch_aqi_data (VFloat lat) (VFloat lon)) a w in
  fst run = Raise (mk_exn ValueError None) /\
  AirSenseApp.scheduled (AirSenseApp.events (snd run))
  = AirSenseApp.scheduled (AirSenseApp.events w)
    ++ [AirSenseApp.Cb_update_status
          [Lit "Fetching AQI near ("; Fix2 (VFloat lat); Lit ",";
           Fix2 (VFloat lon); Lit ")..."] "info" true].
Proof.
  intros rt svc lat lon a w Hint Hfeed. cbn [AirSenseApp.run_job].
  rewrite (fetch_worker_raises svc lat lon w Hint Hfeed).
  split; [reflexivity|].
  cbn [snd AirSenseApp.events]. rewrite !scheduled_app. cbn.
  rewrite app_nil_r. reflexivity.
Qed.

Lemma C2_exception_leaves_worker_witness :
  @int_of_str Example.runtime "-" = None /\
  fst (AirSenseApp.run_job (Example.services feed_without_reading)
         (AirSenseApp.Job_fetch_aqi_data (VFloat 1) (VFloat 2))
         AirSenseApp.initial (AirSenseApp.mkWorld None []))
  = Raise (mk_exn ValueError None).
Proof.
  split; [reflexivity|].
  exact (proj1 (C2_exception_leaves_worker Example.runtime
                  (Example.services feed_without_reading) 1 2
                  AirSenseApp.initial (AirSenseApp.mkWorld None [])
                  eq_refl eq_refl)).
Defined.

(** C3, at the failing input. Locate-by-IP finds Paris and the feed answers
    ok with [-] for the index: the controls are disabled when the trigger
    returns, the worker ends by the [ValueError], the release of the
    controls is never scheduled, and the idle window is still busy. *)
Theorem C3_busy_flag_stays_set :
  forall (rt : Runtime) (svc : Services) (lat lon : float) (a : AirSenseApp.App),
  int_of_str "-" = None ->
  ipapi svc = HttpJson (VDict [("city", VStr "Paris"); ("country_code", VStr "FR");
                               ("latitude", VFloat lat); ("longitude", VFloat lon)]) ->
  get_latest_aqi_by_coords svc (VFloat lat) (VFloat lon) = feed_without_reading ->
  let o := AirSenseApp.operation svc AirSenseApp.fetch_aqi_by_ip_address a in
  AirSenseApp.how_triggered o = AirSenseApp.Started AirSenseApp.Job_fetch_by_ip /\
  AirSenseApp.controls_disabled (AirSenseApp.after_trigger o) = true /\
  AirSenseApp.worker_result o = Some (Raise (mk_exn ValueError None)) /\
  ~ In (AirSenseApp.Cb_set_ui_state false)
       (AirSenseApp.scheduled (AirSenseApp.trace o)) /\
  AirSenseApp.controls_disabled (AirSenseApp.final o) = true.
Proof.
  intros rt svc lat lon a Hint Hip Hfeed.
  unfold AirSenseApp.operation, AirSenseApp.fetch_aqi_by_ip_address.
  cbn [AirSenseApp.run_job].
  unfold AirSenseApp._worker_fetch_by_ip, get_location_from_ip.
  rewrite Hip.
  unfold AirSenseApp.bind, AirSenseApp.after, AirSenseApp.emit, AirSenseApp.eval.
  cbn -[AirSenseApp._worker_fetch_aqi_data].
  rewrite (fetch_worker_raises svc lat lon _ Hint Hfeed).
  cbn. repeat split; try reflexivity.
  intros [H|[H|[H|[]]]]; discriminate.
Qed.

Lemma C3_busy_flag_stays_set_witness :
  @int_of_str Example.runtime "-" = None /\
  AirSenseApp.controls_disabled
    (AirSenseApp.final
       (AirSenseApp.operation (Example.services feed_without_reading)
          AirSenseApp.fetch_aqi_by_ip_address AirSenseApp.initial)) = true.
Proof.
  split; [reflexivity|].
  exact (proj2 (proj2 (proj2 (proj2
           (C3_busy_flag_stays_set Example.runtime
              (Example.services feed_without_reading)
              0x1.8666666666666p+5 0x1.2666666666666p+1
              AirSenseApp.initial eq_refl eq_refl eq_refl))))).
Defined.

(** C4. A feed response with status ok whose payload holds a string where a
    number or a timestamp should be makes the constructor raise
    [ValueError], which its handler for [KeyError], [IndexError] and
    [TypeError] lets through: the constructor does not complete, and no
    instance with [is_valid] false is produced. The three cases are an
    index, a timestamp and a pollutant value that the interpreter rejects. *)
Theorem C4_malformed_payload_escapes : forall (rt : Runtime) (s : string),
  (int_of_str s = None ->
   AQIData.__init__ (feed_ok [("aqi", VStr s)])
   = Raise (mk_exn ValueError None)) /\
  (s <> "" -> fromisoformat s = None ->
   AQIData.__init__ (feed_ok [("aqi", VInt 42); ("time", VDict [("iso", VStr s)])])
   = Raise (mk_exn ValueError None)) /\
  (float_of_str s = None ->
   AQIData.__init__
     (feed_ok [("aqi", VInt 42); ("iaqi", VDict [("pm25", VDict [("v", VStr s)])])])
   = Raise (mk_exn ValueError None)).
Proof.
  intros rt s. repeat split.
  - exact (init_raises_on_index s).
  - intros Hne H.
    unfold AQIData.__init__, AQIData.try_body, AQIData.bind, AQIData.eval,
      AQIData.assign, feed_ok.
    cbn. destruct (String.eqb_spec s ""); [contradiction|].
    cbn. rewrite H. reflexivity.
  - intros H.
    unfold AQIData.__init__, AQIData.try_body, AQIData.bind, AQIData.eval,
      AQIData.assign, feed_ok.
    cbn. rewrite H. reflexivity.
Qed.

Lemma C4_malformed_payload_escapes_witness :
  @int_of_str Example.runtime "-" = None /\
  @AQIData.__init__ Example.runtime feed_without_reading
  = Raise (mk_exn ValueError None).
Proof.
  split; [reflexivity|].
  apply (proj1 (C4_malformed_payload_escapes Example.runtime "-")). reflexivity.
Defined.

(** C5, at the failing input. The query [1,<U+001C>2] matches the pattern,
    since [\s] takes the separator character, but [float] does not take it:
    the trigger raises [ValueError] on the UI thread after it has disabled
    the controls. No thread is started, so neither the feed nor the
    geocoder is called, and the window stays busy. *)
Theorem C5_matching_query_not_parsed :
  forall (rt : Runtime) (svc : Services) (a : AirSenseApp.App),
  float_of_str (String (ascii_of_nat 28) "2") = None ->
  strip query_with_separator = query_with_separator /\
  Re.match_ Re.coordinates query_with_separator = true /\
  let o := AirSenseApp.operation svc
             (AirSenseApp.fetch_by_input query_with_separator) a in
  AirSenseApp.how_triggered o = AirSenseApp.Raised (mk_exn ValueError None) /\
  AirSenseApp.worker_result o = None /\
  AirSenseApp.trace o = [] /\
  AirSenseApp.controls_disabled (AirSenseApp.final o) = true.
Proof.
  intros rt svc a H.
  split; [reflexivity|]. split; [reflexivity|].
  unfold AirSenseApp.operation, AirSenseApp.fetch_by_input.
  change (strip query_with_separator) with query_with_separator.
  change (Re.match_ Re.coordinates query_with_separator) with true.
  change (split "," query_with_separator)
    with ["1"; String (ascii_of_nat 28) "2"].
  change (query_with_separator =? "")%string with false.
  cbn [AirSenseApp.unpack_floats float_of]. rewrite H.
  destruct (float_of_str "1"); cbn; repeat split; reflexivity.
Qed.

Lemma C5_matching_query_not_parsed_witness :
  @float_of_str Example.runtime (String (ascii_of_nat 28) "2") = None /\
  AirSenseApp.how_triggered
    (AirSenseApp.operation (Example.services scenario_paris)
       (AirSenseApp.fetch_by_input query_with_separator) AirSenseApp.initial)
  = AirSenseApp.Raised (mk_exn ValueError None).
Proof.
  split; [reflexivity|].
  exact (proj1 (proj2 (proj2
           (C5_matching_query_not_parsed Example.runtime
              (Example.services scenario_paris) AirSenseApp.initial eq_refl)))).
Defined.

(** C6, as stated, fails for the file extension: with a valid record shown
    and the image [sky.gif] loaded, a click on the analyze button shows no
    message box and starts the worker thread. *)
Lemma C6_counterexample :
  AirSenseApp.ctype_of "sky.gif" = None /\
  let o := AirSenseApp.operation (Example.services scenario_paris)
             AirSenseApp.analyze_img (Example.window_with (Some "sky.gif")) in
  AirSenseApp.how_triggered o = AirSenseApp.Started AirSenseApp.Job_analyze_img /\
  AirSenseApp.messageboxes (AirSenseApp.after_trigger o) = [] /\
  AirSenseApp.worker_result o = Some (Ok tt).
Proof. repeat split; reflexivity. Qed.

(** C6, amended. (1) With no image loaded, or with no record or an invalid
    one, analyze-image shows the message box on the UI thread and returns:
    no thread is started and nothing else happens. (2) With an image and a
    valid record, a file whose extension is none of jpg, jpeg, png and webp
    is found out by the worker: the thread is started, it calls no adapter,
    returns normally, and schedules the failure status, the error text and
    the release of the controls; when the file could be read the error is
    the [ValueError] with the text Unsupported image format. *)
Theorem C6_validation_amended :
  forall (rt : Runtime) (svc : Services) (a : AirSenseApp.App),
  (AirSenseApp.no_img_path a = true \/
   AirSenseApp.has_valid_data (AirSenseApp.aqi_data a) = false ->
   AirSenseApp.operation svc AirSenseApp.analyze_img a
   = let a' := AirSenseApp.with_messagebox "Analysis Blocked"
                 "Upload image and fetch valid AQI data first." a in
     AirSenseApp.mkOutcome a' a' AirSenseApp.Returned None []) /\
  (forall p : string,
   AirSenseApp.img_path a = Some p ->
   p <> "" ->
   AirSenseApp.has_valid_data (AirSenseApp.aqi_data a) = true ->
   AirSenseApp.ctype_of p = None ->
   let o := AirSenseApp.operation svc AirSenseApp.analyze_img a in
   AirSenseApp.how_triggered o = AirSenseApp.Started AirSenseApp.Job_analyze_img /\
   AirSenseApp.worker_result o = Some (Ok tt) /\
   AirSenseApp.client_calls (AirSenseApp.trace o) = [] /\
   exists e,
     AirSenseApp.trace o
     = [AirSenseApp.After
          (AirSenseApp.Cb_update_status
             [Lit "Image analysis failed: "; Err e] "danger" false);
        AirSenseApp.After
          (AirSenseApp.Cb_update_analysis_txt [Lit "Error: "; Err e]);
        AirSenseApp.After (AirSenseApp.Cb_set_ui_state false)] /\
     (forall bytes, read_file svc p = Ok bytes ->
                    e = mk_exn ValueError (Some "Unsupported image format"))).
Proof.
  intros rt svc a. split.
  - intros H. unfold AirSenseApp.operation, AirSenseApp.analyze_img.
    assert (C : AirSenseApp.no_img_path a
                || negb (AirSenseApp.has_valid_data (AirSenseApp.aqi_data a))
                = true).
    { destruct H as [H|H]; rewrite H; [reflexivity | apply orb_true_r]. }
    rewrite C. reflexivity.
  - intros p Hp Hne Hv Hc.
    unfold AirSenseApp.operation, AirSenseApp.analyze_img,
      AirSenseApp.no_img_path.
    rewrite Hp, Hv. destruct (String.eqb_spec p ""); [contradiction|].
    cbn [orb negb AirSenseApp.run_job].
    unfold AirSenseApp._worker_analyze_img, AirSenseApp.try_except_finally,
      AirSenseApp.analyze_body, AirSenseApp.bind, AirSenseApp.eval,
      AirSenseApp.emit, AirSenseApp.after.
    cbn [AirSenseApp.img_path AirSenseApp._update_status AirSenseApp._set_ui_state
         AirSenseApp.with_status AirSenseApp.with_controls].
    rewrite Hp, Hc.
    destruct (read_file svc p) as [bytes|e]; cbn.
    + repeat split. eexists. split; [reflexivity|]. intros; reflexivity.
    + repeat split. exists e. split; [reflexivity|]. intros; discriminate.
Qed.

Lemma C6_validation_amended_witness :
  AirSenseApp.img_path (Example.window_with (Some "sky.gif")) = Some "sky.gif" /\
  AirSenseApp.has_valid_data
    (AirSenseApp.aqi_data (Example.window_with (Some "sky.gif"))) = true /\
  AirSenseApp.ctype_of "sky.gif" = None /\
  AirSenseApp.client_calls
    (AirSenseApp.trace
       (AirSenseApp.operation (Example.services scenario_paris)
          AirSenseApp.analyze_img (Example.window_with (Some "sky.gif")))) = [] /\
  AirSenseApp.no_img_path (Example.window_with None) = true /\
  AirSenseApp.how_triggered
    (AirSenseApp.operation (Example.services scenario_paris)
       AirSenseApp.analyze_img (Example.window_with None))
  = AirSenseApp.Returned.
Proof.
  split; [reflexivity|]. split; [reflexivity|]. split; [reflexivity|].
  split.
  - destruct (proj2 (C6_validation_amended Example.runtime
                       (Example.services scenario_paris)
                       (Example.window_with (Some "sky.gif")))
                "sky.gif" eq_refl) as (_ & _ & H & _).
    + discriminate.
    + reflexivity.
    + reflexivity.
    + exact H.
  - split; [reflexivity|].
    rewrite (proj1 (C6_validation_amended Example.runtime
                      (Example.services scenario_paris)
                      (Example.window_with None)) (or_introl eq_refl)).
    reflexivity.
Defined.

(** C7. When the geocoding adapter yields no coordinates for the query of
    locate-by-text, the worker returns normally after one adapter call (the
    geocoder; the feed adapter is not called), schedules the not-found
    status, the not-found error state and the release of the controls, in
    this order, and the idle window is not busy, shows the not-found status
    and holds no record. *)
Theorem C7_geocoder_absent :
  forall (rt : Runtime) (svc : Services) (entry query : string) (a : AirSenseApp.App),
  strip entry = query ->
  query <> "" ->
  Re.match_ Re.coordinates query = false ->
  get_coordinates_from_text svc query = None ->
  let o := AirSenseApp.operation svc (AirSenseApp.fetch_by_input entry) a in
  AirSenseApp.how_triggered o
    = AirSenseApp.Started (AirSenseApp.Job_geocode_with_gemini query) /\
  AirSenseApp.worker_result o = Some (Ok tt) /\
  AirSenseApp.client_calls (AirSenseApp.trace o)
    = [get_coordinates_from_text_called query] /\
  AirSenseApp.scheduled (AirSenseApp.trace o)
    = [AirSenseApp.Cb_update_status
         [Lit "Could not find '"; Lit query; Lit "'."] "danger" false;
       AirSenseApp.Cb_display_error_state "Location Not Found"
         [Lit "'"; Lit query; Lit "' could not be identified."];
       AirSenseApp.Cb_set_ui_state false] /\
  AirSenseApp.controls_disabled (AirSenseApp.after_trigger o) = true /\
  AirSenseApp.controls_disabled (AirSenseApp.final o) = false /\
  AirSenseApp.status_lbl (AirSenseApp.final o)
    = ([Lit "Could not find '"; Lit query; Lit "'."], "danger") /\
  AirSenseApp.aqi_data (AirSenseApp.final o) = None.
Proof.
  intros rt svc entry query a Hq Hne Hre Hgeo.
  unfold AirSenseApp.operation, AirSenseApp.fetch_by_input.
  rewrite Hq, Hre.
  destruct (String.eqb_spec query ""); [contradiction|].
  cbn. unfold AirSenseApp._worker_geocode_with_gemini, AirSenseApp.bind,
    AirSenseApp.emit, AirSenseApp.after.
  cbn. rewrite Hgeo. cbn.
  repeat split; reflexivity.
Qed.

Lemma C7_geocoder_absent_witness :
  strip " Atlantis " = "Atlantis" /\
  Re.match_ Re.coordinates "Atlantis" = false /\
  get_coordinates_from_text Example.services_geocoder_null "Atlantis" = None /\
  let o := AirSenseApp.operation Example.services_geocoder_null
             (AirSenseApp.fetch_by_input " Atlantis ") AirSenseApp.initial in
  AirSenseApp.client_calls (AirSenseApp.trace o)
    = [get_coordinates_from_text_called "Atlantis"] /\
  AirSenseApp.controls_disabled (AirSenseApp.final o) = false.
Proof.
  split; [reflexivity|]. split; [reflexivity|]. split; [reflexivity|].
  destruct (C7_geocoder_absent Example.runtime Example.services_geocoder_null
              " Atlantis " "Atlantis" AirSenseApp.initial)
    as (_ & _ & Hc & _ & _ & Hf & _).
  - reflexivity.
  - discriminate.
  - reflexivity.
  - apply get_coordinates_absent. right. right.
    exists [("latitude", VNone); ("longitude", VNone)].
    split; [reflexivity|]. right. left. reflexivity.
  - split; [exact Hc | exact Hf].
Defined.

(** C8. Analyze-image does not depend on the storage collaborator: with any
    other client, database and outcome of the save (an exception of any
    class included), the worker ends the same way, and it never ends by an
    exception; the functions it scheduled on the UI thread are the same, so
    the idle window (analysis text, status, current record, controls) is
    the same. A failed save adds a line on the console and nothing else. *)
Theorem C8_storage_failure_is_silent :
  forall (rt : Runtime) (svc : Services) (client db : bool)
         (store : string -> AQIData.t -> text -> result unit)
         (a : AirSenseApp.App),
  let o := AirSenseApp.operation svc AirSenseApp.analyze_img a in
  let o' := AirSenseApp.operation (with_storage client db store svc)
              AirSenseApp.analyze_img a in
  AirSenseApp.how_triggered o' = AirSenseApp.how_triggered o /\
  AirSenseApp.worker_result o' = AirSenseApp.worker_result o /\
  (forall e, AirSenseApp.worker_result o' <> Some (Raise e)) /\
  AirSenseApp.scheduled (AirSenseApp.trace o')
    = AirSenseApp.scheduled (AirSenseApp.trace o) /\
  AirSenseApp.final o' = AirSenseApp.final o /\
  (forall p ct d analysis e,
      db = true -> store p d analysis = Raise e ->
      save_record (with_storage client db store svc) (Some p) ct d analysis
      = [[Lit "Failed to save record to MongoDB: "; Err e]]).
Proof.
  intros rt svc client db store a.
  cbv zeta. rewrite <- !and_assoc. split.
  2:{ intros p ct d analysis e -> H. rewrite save_record_logs by reflexivity.
      cbn [mongo_store with_storage]. rewrite H. reflexivity. }
  rewrite !and_assoc.
  unfold AirSenseApp.operation.
  destruct (AirSenseApp.analyze_img a) as [a1 t] eqn:T.
  destruct t as [j| |e]; cbn; try (repeat split; congruence).
  assert (J : j = AirSenseApp.Job_analyze_img).
  { unfold AirSenseApp.analyze_img in T.
    destruct (_ || _) in T; inversion T; reflexivity. }
  subst j. cbn [AirSenseApp.run_job].
  pose proof (analyze_worker_storage svc client db store
                (AirSenseApp.img_path a1)
                (AirSenseApp.mkWorld (AirSenseApp.aqi_data a1) [])) as V.
  pose proof (analyze_worker_returns (with_storage client db store svc)
                (AirSenseApp.img_path a1)
                (AirSenseApp.mkWorld (AirSenseApp.aqi_data a1) [])) as R.
  unfold visible in V.
  destruct (AirSenseApp._worker_analyze_img (with_storage client db store svc) _ _)
    as [r' w'].
  destruct (AirSenseApp._worker_analyze_img svc _ _) as [r w].
  cbn in V, R |- *. inversion V; subst.
  repeat split; try reflexivity; congruence.
Qed.

Lemma C8_storage_failure_is_silent_witness :
  let failing : string -> AQIData.t -> text -> result unit :=
    fun _ _ _ => Raise (mk_exn OSError None) in
  let a := Example.window_with (Some "sky.png") in
  let o := AirSenseApp.operation (Example.services scenario_paris)
             AirSenseApp.analyze_img a in
  let o' := AirSenseApp.operation
              (with_storage true true failing (Example.services scenario_paris))
              AirSenseApp.analyze_img a in
  failing "sky.png" Example.paris_record [] = Raise (mk_exn OSError None) /\
  AirSenseApp.worker_result o' = Some (Ok tt) /\
  In (AirSenseApp.Print [Lit "Failed to save record to MongoDB: ";
                         Err (mk_exn OSError None)]) (AirSenseApp.trace o') /\
  AirSenseApp.final o' = AirSenseApp.final o /\
  save_record (with_storage true true failing (Example.services scenario_paris))
    (Some "sky.png") "image/png" Example.paris_record []
  = [[Lit "Failed to save record to MongoDB: "; Err (mk_exn OSError None)]].
Proof.
  cbv zeta. split; [reflexivity|]. split; [reflexivity|].
  split; [cbn; do 4 right; left; reflexivity|].
  pose proof (C8_storage_failure_is_silent Example.runtime
                (Example.services scenario_paris) true true
                (fun _ _ _ => Raise (mk_exn OSError None))
                (Example.window_with (Some "sky.png"))) as H.
  cbv zeta in H. destruct H as (_ & _ & _ & _ & Hf & Hs).
  split; [exact Hf|].
  exact (Hs "sky.png" "image/png" Example.paris_record [] (mk_exn OSError None)
            eq_refl eq_refl).
Defined.

(** C9. The feed response of the scenario gives a valid record with index
    42, category Good, city Paris (the location name up to its first
    comma) and the single reading pm25 = 12.5, on a runtime whose
    [datetime.fromisoformat] accepts the timestamp of the scenario. *)
Theorem C9_scenario_paris : forall (rt : Runtime) (ts : datetime),
  fromisoformat "2024-01-01T00:00:00Z" = Some ts ->
  exists d,
    AQIData.__init__ scenario_paris = Ok d /\
    AQIData.is_valid d = Some true /\
    AQIData.overall_aqi d = Some 42%Z /\
    AQIData.aqi_category_name d = Some "Good" /\
    AQIData.location_name d = Some (VStr "Paris, FR") /\
    AQIData.city d = Some "Paris" /\
    AQIData.pollutants d = Some [("pm25", 12.5%float)].
Proof.
  intros rt ts Hts.
  unfold AQIData.__init__, AQIData.try_body, AQIData.bind, AQIData.eval,
    AQIData.assign, scenario_paris, feed_ok.
  cbn. rewrite Hts. cbn.
  eexists. split; [reflexivity|]. cbn. repeat split; reflexivity.
Qed.

Lemma C9_scenario_paris_witness :
  @fromisoformat Example.runtime "2024-01-01T00:00:00Z"
    = Some "2024-01-01T00:00:00Z" /\
  exists d,
    @AQIData.__init__ Example.runtime scenario_paris = Ok d /\
    AQIData.is_valid d = Some true /\
    AQIData.overall_aqi d = Some 42%Z /\
    AQIData.aqi_category_name d = Some "Good" /\
    AQIData.location_name d = Some (VStr "Paris, FR") /\
    AQIData.city d = Some "Paris" /\
    AQIData.pollutants d = Some [("pm25", 12.5%float)].
Proof.
  split; [reflexivity|].
  apply (C9_scenario_paris Example.runtime "2024-01-01T00:00:00Z"). reflexivity.
Defined.

(** C10. When the entry is empty or holds white space only, locate-by-text
    returns at once: no thread is started, no event happens, and the window
    (busy flag, current record, image path, status and every other widget)
    is the one it was. *)
Theorem C10_blank_query_is_noop :
  forall (rt : Runtime) (svc : Services) (entry : string) (a : AirSenseApp.App),
  forallb isspace (list_ascii_of_string entry) = true ->
  AirSenseApp.fetch_by_input entry a = (a, AirSenseApp.Returned) /\
  AirSenseApp.operation svc (AirSenseApp.fetch_by_input entry) a
  = AirSenseApp.mkOutcome a a AirSenseApp.Returned None [].
Proof.
  intros rt svc entry a H.
  assert (E : AirSenseApp.fetch_by_input entry a = (a, AirSenseApp.Returned)).
  { unfold AirSenseApp.fetch_by_input. rewrite (strip_blank _ H). reflexivity. }
  split; [exact E|].
  unfold AirSenseApp.operation. rewrite E. reflexivity.
Qed.

Lemma C10_blank_query_is_noop_witness :
  forallb isspace (list_ascii_of_string "   ") = true /\
  @AirSenseApp.operation Example.runtime (Example.services scenario_paris)
    (AirSenseApp.fetch_by_input "   ") AirSenseApp.initial
  = AirSenseApp.mkOutcome AirSenseApp.initial AirSenseApp.initial
      AirSenseApp.Returned None [].
Proof.
  split; [reflexivity|].
  apply (C10_blank_query_is_noop Example.runtime (Example.services scenario_paris)
           "   " AirSenseApp.initial).
  reflexivity.
Defined.

(* ================================================================== *)
(** ** Further properties of the code *)
(* ================================================================== *)

Section ConstructorFacts.
Context {rt : Runtime}.
Import AQIData.

(** The classes of the exceptions each builtin of the constructor raises. *)
Lemma get_raises v k dflt e : get v k dflt = Raise e -> exn_cls e = AttributeError.
Proof. destruct v; cbn; intros H; inversion H; reflexivity. Qed.

Lemma items_raises v e : items v = Raise e -> exn_cls e = AttributeError.
Proof. destruct v; cbn; intros H; inversion H; reflexivity. Qed.

Lemma upper_of_raises v e : upper_of v = Raise e -> exn_cls e = AttributeError.
Proof. destruct v; cbn; intros H; inversion H; reflexivity. Qed.

Lemma split_comma_first_raises v e :
  split_comma_first v = Raise e -> exn_cls e = AttributeError \/ exn_cls e = IndexError.
Proof.
  destruct v; cbn; intros H; try (inversion H; left; reflexivity).
  destruct (split "," s); inversion H. right; reflexivity.
Qed.

Lemma subscript_nat_raises v i e :
  subscript_nat v i = Raise e ->
  exn_cls e = IndexError \/ exn_cls e = KeyError \/ exn_cls e = TypeError.
Proof.
  destruct v; cbn; intros H; try (inversion H; auto; fail).
  - destruct (String.get i s); inversion H; auto.
  - destruct (nth_error l i); inversion H; auto.
Qed.

Lemma subscript_str_raises v k e :
  subscript_str v k = Raise e -> exn_cls e = KeyError \/ exn_cls e = TypeError.
Proof.
  destruct v; cbn; intros H; try (inversion H; auto; fail).
  destruct (lookup k d); inversion H; auto.
Qed.

Lemma contains_raises k v e : contains k v = Raise e -> exn_cls e = TypeError.
Proof. destruct v; cbn; intros H; inversion H; reflexivity. Qed.

Lemma float_of_Z_raises z e : float_of_Z z = Raise e -> exn_cls e = OverflowError.
Proof.
  unfold float_of_Z. destruct (binary_normalize _ _ _ _ _); intros H;
    inversion H; reflexivity.
Qed.

Lemma int_of_float_raises f e :
  int_of_float f = Raise e -> exn_cls e = OverflowError \/ exn_cls e = ValueError.
Proof.
  unfold int_of_float. destruct (Prim2SF f); intros H; inversion H; auto.
Qed.

Lemma int_of_raises v e :
  int_of v = Raise e ->
  exn_cls e = ValueError \/ exn_cls e = OverflowError \/ exn_cls e = TypeError.
Proof.
  destruct v; cbn; intros H; try (inversion H; auto; fail).
  - apply int_of_float_raises in H. tauto.
  - destruct (int_of_str s); inversion H; auto.
Qed.

Lemma float_of_raises v e :
  float_of v = Raise e ->
  exn_cls e = ValueError \/ exn_cls e = OverflowError \/ exn_cls e = TypeError.
Proof.
  destruct v; cbn; intros H; try (inversion H; auto; fail).
  - apply float_of_Z_raises in H. tauto.
  - destruct (float_of_str s); inversion H; auto.
Qed.

Lemma fromisoformat_of_raises v e :
  fromisoformat_of v = Raise e -> exn_cls e = ValueError \/ exn_cls e = TypeError.
Proof.
  destruct v; cbn; intros H; try (inversion H; auto; fail).
  destruct (fromisoformat s); inversion H; auto.
Qed.

Lemma pollutants_of_raises entries acc e :
  pollutants_of entries acc = Raise e ->
  exn_cls e = ValueError \/ exn_cls e = OverflowError \/ exn_cls e = TypeError
  \/ exn_cls e = KeyError.
Proof.
  revert acc. induction entries as [|[param details] rest IH]; cbn; intros acc H.
  - discriminate.
  - destruct (contains "v" details) as [[]|e1] eqn:C.
    + destruct (subscript_str details "v") as [x|e2] eqn:S.
      * destruct (float_of x) as [f|e3] eqn:F.
        -- eauto.
        -- inversion H; subst. apply float_of_raises in F. tauto.
      * inversion H; subst. apply subscript_str_raises in S. tauto.
    + eauto.
    + inversion H; subst. apply contains_raises in C. tauto.
Qed.

Ltac init_paths H :=
  unfold __init__, try_body, bind, eval, assign in H;
  repeat match type of H with
         | context [match ?x with _ => _ end] =>
             lazymatch x with
             | context [match _ with _ => _ end] => fail
             | _ => destruct x eqn:?; cbn -[category_loop] in H
             end
         | context [if ?x then _ else _] =>
             lazymatch x with
             | context [match _ with _ => _ end] => fail
             | _ => destruct x eqn:?; cbn -[category_loop] in H
             end
         end;
  try discriminate; inversion H; subst; clear H.

Ltac raised_class :=
  match goal with
  | E : get _ _ _ = Raise _ |- _ => apply get_raises in E
  | E : items _ = Raise _ |- _ => apply items_raises in E
  | E : upper_of _ = Raise _ |- _ => apply upper_of_raises in E
  | E : split_comma_first _ = Raise _ |- _ => apply split_comma_first_raises in E
  | E : subscript_nat _ _ = Raise _ |- _ => apply subscript_nat_raises in E
  | E : int_of _ = Raise _ |- _ => apply int_of_raises in E
  | E : fromisoformat_of _ = Raise _ |- _ => apply fromisoformat_of_raises in E
  | E : pollutants_of _ _ = Raise _ |- _ => apply pollutants_of_raises in E
  end.

(** X1. Whatever the feed response, the only exceptions that leave the
    constructor are of the classes [ValueError], [AttributeError] and
    [OverflowError]: every [KeyError], [IndexError] and [TypeError] of the
    body is taken by the handler and gives an instance with [is_valid]
    false. *)
Theorem init_raises_only (waqi_json : value) (e : exn) :
  __init__ waqi_json = Raise e ->
  exn_cls e = ValueError \/ exn_cls e = AttributeError \/ exn_cls e = OverflowError.
Proof.
  intros H. init_paths H.
  all: raised_class.
  all: destruct e as [[] m]; cbn in *; intuition discriminate.
Qed.

End ConstructorFacts.

Section RecordFacts.
Context {rt : Runtime}.
Import AQIData.

Lemma split_first_piece (sep : ascii) (s : string) :
  exists piece rest,
    split sep s = piece :: rest /\
    all_chars (fun a => negb (Ascii.eqb a sep)) piece = true /\
    ((rest = [] /\ s = piece) \/
     (exists tail, rest <> [] /\ s = (piece ++ String sep tail)%string)).
Proof.
  induction s as [|c s (piece & rest & E & A & T)]; cbn.
  - exists EmptyString, []. repeat split. left. split; reflexivity.
  - destruct (Ascii.eqb_spec c sep) as [->|N].
    + exists EmptyString, (split sep s). repeat split.
      right. exists s. split; [rewrite E; discriminate | reflexivity].
    + rewrite E. exists (String c piece), rest. split; [reflexivity|].
      split.
      * cbn. rewrite A. destruct (Ascii.eqb_spec c sep); [contradiction|reflexivity].
      * destruct T as [[-> ->]|(tail & Hr & ->)].
        -- left. split; reflexivity.
        -- right. exists tail. split; [exact Hr | reflexivity].
Qed.

(** [v.split(',')[0]] is the text of [v] before its first comma. *)
Lemma split_comma_first_spec (v : value) (c : string) :
  split_comma_first v = Ok c ->
  exists s, v = VStr s /\ all_chars not_comma c = true /\
            (s = c \/ exists tail, s = (c ++ String "," tail)%string).
Proof.
  destruct v; cbn; try discriminate.
  destruct (split_first_piece "," s) as (piece & rest & E & A & T).
  rewrite E. intros H. injection H as <-.
  exists s. split; [reflexivity|]. split; [exact A|].
  destruct T as [[_ ->]|(tail & _ & ->)]; [left; reflexivity | right; eauto].
Qed.

Lemma lookup_dict_set {A} (d : list (string * A)) (k k' : string) (x : A) :
  lookup k' (dict_set d k x) = if String.eqb k' k then Some x else lookup k' d.
Proof.
  induction d as [|[k0 y] d IH]; cbn.
  - reflexivity.
  - destruct (String.eqb_spec k k0) as [->|N]; cbn.
    + destruct (String.eqb_spec k' k0); reflexivity.
    + rewrite IH. destruct (String.eqb_spec k' k0) as [->|]; [|reflexivity].
      destruct (String.eqb_spec k0 k); [congruence | reflexivity].
Qed.

Lemma dict_set_keys {A} (d : list (string * A)) (k : string) (x : A) :
  forall k', In k' (map fst (dict_set d k x)) <-> k' = k \/ In k' (map fst d).
Proof.
  induction d as [|[k0 y] d IH]; cbn; intros k'.
  - intuition congruence.
  - destruct (String.eqb_spec k k0) as [->|N]; cbn.
    + intuition congruence.
    + rewrite IH. intuition congruence.
Qed.

Lemma dict_set_nodup {A} (d : list (string * A)) (k : string) (x : A) :
  NoDup (map fst d) -> NoDup (map fst (dict_set d k x)).
Proof.
  induction d as [|[k0 y] d IH]; cbn; intros H.
  - constructor; [intros [] | constructor].
  - inversion H as [|? ? Hn Hd]; subst.
    destruct (String.eqb_spec k k0) as [->|N]; cbn.
    + constructor; assumption.
    + constructor; [|auto]. rewrite dict_set_keys. intros [E|I]; auto.
Qed.

Lemma pollutants_of_nodup entries acc ps :
  pollutants_of entries acc = Ok ps -> NoDup (map fst acc) -> NoDup (map fst ps).
Proof.
  revert acc. induction entries as [|[param details] rest IH]; cbn; intros acc H N.
  - injection H as <-. exact N.
  - destruct (contains "v" details) as [[]|]; try discriminate; eauto.
    destruct (subscript_str details "v") as [x|]; try discriminate.
    destruct (float_of x) as [f|]; try discriminate.
    eauto using dict_set_nodup.
Qed.

Lemma pollutants_of_source entries acc ps k f :
  pollutants_of entries acc = Ok ps ->
  lookup k ps = Some f ->
  lookup k acc = Some f \/
  exists details x, In (k, details) entries /\ contains "v" details = Ok true /\
                    subscript_str details "v" = Ok x /\ float_of x = Ok f.
Proof.
  revert acc. induction entries as [|[param details] rest IH]; cbn; intros acc H L.
  - injection H as <-. left; exact L.
  - destruct (contains "v" details) as [[]|] eqn:C; try discriminate.
    + destruct (subscript_str details "v") as [x|] eqn:S; try discriminate.
      destruct (float_of x) as [g|] eqn:F; try discriminate.
      destruct (IH _ H L) as [L'|(d' & x' & I & R)].
      * rewrite lookup_dict_set in L'.
        destruct (String.eqb_spec k param) as [->|].
        -- injection L' as <-. right. exists details, x. auto.
        -- left; exact L'.
      * right. exists d', x'. tauto.
    + destruct (IH _ H L) as [L'|(d' & x' & I & R)];
        [left; exact L' | right; exists d', x'; tauto].
Qed.

Lemma pollutants_of_keeps entries acc ps k :
  pollutants_of entries acc = Ok ps ->
  lookup k acc <> None -> lookup k ps <> None.
Proof.
  revert acc. induction entries as [|[param details] rest IH]; cbn; intros acc H L.
  - injection H as <-. exact L.
  - destruct (contains "v" details) as [[]|]; try discriminate; eauto.
    destruct (subscript_str details "v") as [x|]; try discriminate.
    destruct (float_of x) as [f|]; try discriminate.
    apply (IH _ H). rewrite lookup_dict_set.
    destruct (String.eqb k param); [discriminate | exact L].
Qed.

Lemma pollutants_of_covers entries acc ps k details :
  pollutants_of entries acc = Ok ps ->
  In (k, details) entries -> contains "v" details = Ok true ->
  lookup k ps <> None.
Proof.
  revert acc. induction entries as [|[param d0] rest IH]; cbn; intros acc H I C.
  - contradiction.
  - destruct I as [I|I].
    + injection I as -> ->. rewrite C in H.
      destruct (subscript_str details "v") as [x|]; try discriminate.
      destruct (float_of x) as [f|]; try discriminate.
      apply (pollutants_of_keeps _ _ _ _ H). rewrite lookup_dict_set.
      rewrite String.eqb_refl. discriminate.
    + destruct (contains "v" d0) as [[]|]; try discriminate; eauto.
      destruct (subscript_str d0 "v") as [x|]; try discriminate.
      destruct (float_of x) as [f|]; try discriminate. eauto.
Qed.

(** X2. The readings built by the dict comprehension of line 81, when it
    completes: the pollutant codes are pairwise distinct; every reading
    comes from an entry of the feed that holds the key [v], and is the
    [float] of the value under that key; and every entry that holds the key
    [v] has a reading. Entries without the key are left out. *)
Theorem pollutants_of_spec (entries : list (string * value))
  (ps : list (string * float)) :
  pollutants_of entries [] = Ok ps ->
  NoDup (map fst ps) /\
  (forall k f, lookup k ps = Some f ->
     exists details x, In (k, details) entries /\ contains "v" details = Ok true /\
                       subscript_str details "v" = Ok x /\ float_of x = Ok f) /\
  (forall k details, In (k, details) entries -> contains "v" details = Ok true ->
     lookup k ps <> None).
Proof.
  intros H. split; [|split].
  - apply (pollutants_of_nodup _ _ _ H). constructor.
  - intros k f L. destruct (pollutants_of_source _ _ _ _ _ H L) as [E|E];
      [discriminate | exact E].
  - intros k details. apply (pollutants_of_covers _ _ _ _ _ H).
Qed.

End RecordFacts.

Section RecordShape.
Context {rt : Runtime}.
Import AQIData.

Ltac init_paths H :=
  unfold __init__, try_body, bind, eval, assign in H;
  repeat match type of H with
         | context [match ?x with _ => _ end] =>
             lazymatch x with
             | context [match _ with _ => _ end] => fail
             | _ => destruct x eqn:?; cbn -[category_loop] in H
             end
         | context [if ?x then _ else _] =>
             lazymatch x with
             | context [match _ with _ => _ end] => fail
             | _ => destruct x eqn:?; cbn -[category_loop] in H
             end
         end;
  try discriminate; inversion H; subst; clear H.

(** X3. A valid record has every attribute: the location name is a string
    and the city is that name up to its first comma (the whole name when it
    has none), so the city holds no comma; the country is N/A and the
    distance 0; the pollutant codes are pairwise distinct. *)
Theorem valid_record_shape (waqi_json : value) (d : t) :
  __init__ waqi_json = Ok d -> valid d = true ->
  exists n s c la lo ts ps dom name theme,
    d = mk (Some true) (Some n) (Some (VStr s)) (Some c) (Some "N/A") (Some la)
           (Some lo) (Some 0%Z) (Some ts) (Some ps) (Some dom) (Some name)
           (Some theme) /\
    all_chars not_comma c = true /\
    (s = c \/ exists tail, s = (c ++ String "," tail)%string) /\
    NoDup (map fst ps).
Proof.
  intros H V. init_paths H; cbn in V; try discriminate.
  all: match goal with
       | E : split_comma_first _ = Ok _ |- _ =>
           apply split_comma_first_spec in E as (locname & -> & HA & HT)
       end.
  all: match goal with
       | E : pollutants_of _ [] = Ok _ |- _ =>
           pose proof (pollutants_of_nodup _ _ _ E (NoDup_nil _)) as HN
       end.
  all: do 10 eexists; split;
    [cbv [set_aqi_category set_dominant_pollutant set_pollutants
          set_timestamp set_distance_km set_latitude_longitude set_country set_city
          set_location_name set_overall_aqi set_is_valid fresh is_valid overall_aqi
          location_name city country latitude longitude distance_km timestamp
          pollutants dominant_pollutant aqi_category_name aqi_category_theme];
     reflexivity
    | split; [exact HA | split; [exact HT | exact HN]]].
Qed.

End RecordShape.

Lemma valid_record_shape_witness :
  @AQIData.__init__ Example.runtime scenario_paris = Ok Example.paris_record /\
  AQIData.valid Example.paris_record = true /\
  exists c, AQIData.city Example.paris_record = Some c /\
            all_chars not_comma c = true.
Proof.
  split; [reflexivity|]. split; [reflexivity|].
  destruct (@valid_record_shape Example.runtime scenario_paris Example.paris_record
              eq_refl eq_refl)
    as (n & s & c & la & lo & ts & ps & dom & name & theme & E & A & _).
  exists c. split; [|exact A].
  inversion E; subst. reflexivity.
Defined.

Section WindowFacts.
Context {rt : Runtime}.
Import AirSenseApp.
Variable svc : Services.

Lemma run_callback_img_path (cb : callback) (a : App) :
  img_path (run_callback cb a) = img_path a.
Proof.
  destruct cb; cbn; try reflexivity.
  unfold _update_aqi_display.
  destruct (aqi_data a) as [d|]; [|reflexivity].
  destruct (AQIData.overall_aqi d), (AQIData.aqi_category_name d),
    (AQIData.aqi_category_theme d), (AQIData.city d); try reflexivity.
  cbn. destruct (no_img_path _); reflexivity.
Qed.

Lemma run_callbacks_img_path (cbs : list callback) (a : App) :
  img_path (run_callbacks cbs a) = img_path a.
Proof.
  revert a. induction cbs as [|cb cbs IH]; intros a; [reflexivity|].
  cbn. unfold run_callbacks in IH. rewrite IH. apply run_callback_img_path.
Qed.

Lemma trigger_keeps_paths (entry question button_text : string) (a : App) trigger :
  In trigger (button_triggers entry question button_text) ->
  img_path (fst (trigger a)) = img_path a /\
  aqi_data (fst (trigger a)) = aqi_data a.
Proof.
  intros [<-|[<-|[<-|[<-|[]]]]]; cbn.
  - split; reflexivity.
  - unfold fetch_by_input.
    destruct (strip entry =? "")%string; [split; reflexivity|].
    destruct (Re.match_ Re.coordinates (strip entry)).
    + destruct (unpack_floats _) as [[lat lon]|e]; split; reflexivity.
    + split; reflexivity.
  - split; reflexivity.
  - unfold analyze_img. destruct (_ || _); split; reflexivity.
Qed.

(** X4. No operation changes the image path: whatever a button starts and
    however its worker ends, the idle window has the image path it had;
    only [upload_img] assigns it. *)
Theorem operations_keep_img_path (entry question button_text : string)
  (a : App) trigger :
  In trigger (button_triggers entry question button_text) ->
  img_path (final (operation svc trigger a)) = img_path a.
Proof.
  intros I. destruct (trigger_keeps_paths entry question button_text a _ I) as [P _].
  unfold operation. destruct (trigger a) as [a1 t]. cbn in P.
  destruct t as [j| |e]; cbn; try exact P.
  destruct (run_job svc j a1 _) as [r w]. cbn.
  rewrite run_callbacks_img_path. cbn. exact P.
Qed.

Lemma update_aqi_display_keeps_record (a : App) :
  aqi_data (_update_aqi_display a) = aqi_data a.
Proof.
  unfold _update_aqi_display.
  destruct (aqi_data a) as [d|] eqn:D; [|exact D].
  destruct (AQIData.overall_aqi d), (AQIData.aqi_category_name d),
    (AQIData.aqi_category_theme d), (AQIData.city d); try exact D.
  cbn. destruct (no_img_path _); exact D.
Qed.

(** What the scheduled functions do to the current record. *)
Lemma run_callbacks_aqi_data (cbs : list callback) (a : App) :
  aqi_data (run_callbacks cbs a)
  = if existsb clears_record cbs then None else aqi_data a.
Proof.
  revert a. induction cbs as [|cb cbs IH]; intros a; [reflexivity|].
  cbn [existsb]. change (run_callbacks (cb :: cbs) a)
    with (run_callbacks cbs (run_callback cb a)).
  rewrite IH. destruct (existsb clears_record cbs) eqn:E.
  - rewrite orb_true_r. reflexivity.
  - rewrite orb_false_r. destruct cb; cbn; try reflexivity.
    apply update_aqi_display_keeps_record.
Qed.

Lemma existsb_clears_app (l1 l2 : list callback) :
  existsb clears_record (l1 ++ l2)
  = existsb clears_record l1 || existsb clears_record l2.
Proof. apply existsb_app. Qed.

Ltac record_done :=
  unfold record_after; cbn [snd events self_aqi_data];
  rewrite ?scheduled_app; cbn [scheduled app];
  rewrite ?existsb_app; cbn [existsb clears_record orb];
  repeat match goal with
         | H : existsb clears_record _ = false |- _ => rewrite H
         end;
  cbn [orb]; rewrite ?orb_true_r; cbn [record_ok]; auto.

Lemma fetch_worker_keeps_record (lat lon : value) :
  keeps_record_ok (_worker_fetch_aqi_data svc lat lon).
Proof.
  intros w E R. unfold _worker_fetch_aqi_data, bind, eval, emit, after, write_aqi_data.
  destruct (format_fix2 lat) as [la|e]; [|record_done].
  destruct (format_fix2 lon) as [lo|e]; [|record_done].
  set (raw := get_latest_aqi_by_coords svc lat lon).
  cbn -[AQIData.__init__].
  destruct (truthy raw) eqn:T.
  - destruct (get raw "status" VNone) as [status|e]; [|record_done].
    cbn -[AQIData.__init__].
    destruct (eq_str status "ok").
    + destruct (AQIData.__init__ raw) as [d|e]; [|record_done].
      cbn. destruct (AQIData.valid d) eqn:V; cbn; record_done.
    + destruct (get raw "data" (VStr "Unknown API error.")) as [reason|e];
        cbn; record_done.
  - cbn -[AQIData.__init__].
    destruct (get raw "data" (VStr "Unknown API error.")) as [reason|e];
      cbn; record_done.
Qed.

Lemma ip_worker_keeps_record : keeps_record_ok (_worker_fetch_by_ip svc).
Proof.
  intros w E R. unfold _worker_fetch_by_ip, get_location_from_ip.
  unfold bind at 1. unfold emit at 1.
  destruct (ipapi svc) as [loc|msg].
  - destruct (truthy loc).
    + unfold bind, eval, after, emit.
      cbn -[_worker_fetch_aqi_data].
      destruct (get loc "city" VNone) as [c|e]; [|record_done].
      destruct (get loc "country_code" VNone) as [cc|e]; [|record_done].
      cbn -[_worker_fetch_aqi_data].
      destruct (subscript_str loc "latitude") as [lat|e]; [|record_done].
      destruct (subscript_str loc "longitude") as [lon|e]; [|record_done].
      cbn -[_worker_fetch_aqi_data].
      apply fetch_worker_keeps_record; [|exact R].
      cbn [events]. rewrite !scheduled_app, !existsb_app, E. reflexivity.
    + unfold bind, after, emit. cbn. record_done.
  - unfold bind, after, emit. cbn. record_done.
Qed.

Lemma geocode_worker_keeps_record (query : string) :
  keeps_record_ok (_worker_geocode_with_gemini svc query).
Proof.
  intros w E R. unfold _worker_geocode_with_gemini.
  unfold bind at 1. unfold emit at 1.
  destruct (get_coordinates_from_text svc query) as [[[lat lon] name]|].
  - unfold bind, after, emit. cbn -[_worker_fetch_aqi_data].
    apply fetch_worker_keeps_record; [|exact R].
    cbn [events]. rewrite !scheduled_app, !existsb_app, E. reflexivity.
  - unfold bind, after, emit. cbn.
    unfold record_after. cbn [snd events self_aqi_data].
    rewrite !scheduled_app, !existsb_app. cbn. rewrite !orb_true_r. reflexivity.
Qed.

Lemma ask_worker_keeps_record (question : string) :
  keeps_record_ok (_worker_ask_ai svc question).
Proof.
  intros w E R. unfold _worker_ask_ai, bind, eval, emit, after, read_aqi_data.
  cbn -[data_context get_ai_response].
  destruct (self_aqi_data w) as [d|] eqn:D.
  - destruct (AQIData.valid d).
    + destruct (data_context d) as [ctx|e]; cbn -[get_ai_response];
        unfold record_after; cbn [snd events self_aqi_data];
        rewrite ?scheduled_app, ?existsb_app, ?E, ?D; cbn; rewrite ?E, ?D; exact R.
    + cbn -[get_ai_response].
      unfold record_after; cbn [snd events self_aqi_data];
        rewrite ?scheduled_app, ?existsb_app, ?E, ?D; cbn; exact R.
  - cbn -[get_ai_response].
    unfold record_after; cbn [snd events self_aqi_data];
      rewrite ?scheduled_app, ?existsb_app, ?E, ?D; cbn; reflexivity.
Qed.

(** The analysis worker schedules nothing that clears the record and does
    not assign it. *)
Lemma analyze_worker_record (img : option string) (w : World) :
  existsb clears_record (scheduled (events w)) = false ->
  record_after (snd (_worker_analyze_img svc img w)) = self_aqi_data w.
Proof.
  intros E.
  assert (Q : forall w',
             self_aqi_data w' = self_aqi_data w ->
             existsb clears_record (scheduled (events w')) = false ->
             record_after w' = self_aqi_data w).
  { intros w' V Hl. unfold record_after. rewrite Hl. exact V. }
  unfold _worker_analyze_img, try_except_finally, analyze_body, bind,
    eval, emit, after, read_aqi_data.
  destruct img as [p|];
    [|apply Q; [reflexivity | cbn; rewrite ?scheduled_app, ?existsb_app, ?E;
                               reflexivity]].
  destruct (read_file svc p) as [bytes|e];
    [|apply Q; [reflexivity | cbn; rewrite ?scheduled_app, ?existsb_app, ?E;
                               reflexivity]].
  destruct (ctype_of p) as [ct|];
    [|apply Q; [reflexivity | cbn; rewrite ?scheduled_app, ?existsb_app, ?E;
                               reflexivity]].
  destruct ct as [|c ct];
    [apply Q; [reflexivity | cbn; rewrite ?scheduled_app, ?existsb_app, ?E;
                              reflexivity]|].
  cbn -[image_context get_ai_response analysis_prompt save_record].
  destruct (image_context (self_aqi_data w)) as [ctx|e];
    [|apply Q; [reflexivity | cbn; rewrite ?scheduled_app, ?existsb_app, ?E;
                               reflexivity]].
  set (analysis := get_ai_response svc _ _ _).
  destruct (self_aqi_data w) as [d|] eqn:D;
    [|apply Q; [cbn; reflexivity
               | cbn -[analysis]; rewrite ?scheduled_app, ?existsb_app, ?E;
                 reflexivity]].
  destruct (mongo_client svc && AQIData.valid d);
    [|apply Q; [cbn; reflexivity
               | cbn -[analysis]; rewrite ?scheduled_app, ?existsb_app, ?E;
                 reflexivity]].
  cbn -[analysis save_record].
  match goal with
  | |- context [fold_right ?f ?z ?lines ?w0] =>
      pose proof (scheduled_prints lines w0) as P;
      change (fold_right _ _ lines w0) with (fold_right f z lines w0) in P;
      destruct (fold_right f z lines w0) as [r1 w1]
  end.
  unfold visible in P. cbn [fst snd self_aqi_data events] in P.
  injection P as -> P1 P2.
  apply Q.
  - cbn. exact P1.
  - cbn -[analysis]. rewrite scheduled_app, P2, !scheduled_app, !existsb_app, E.
    reflexivity.
Qed.

Lemma run_job_keeps_record (j : job) (a : App) :
  keeps_record_ok (run_job svc j a).
Proof.
  destruct j; cbn [run_job];
    auto using ip_worker_keeps_record, fetch_worker_keeps_record,
      geocode_worker_keeps_record, ask_worker_keeps_record.
  intros w E R. rewrite analyze_worker_record by exact E. exact R.
Qed.

(** X5. The window never ends up holding an invalid record: if its current
    record is absent or valid when a button is pressed, then it is absent or
    valid when the window is idle again, whatever the services answer and
    also when the worker ends by an exception. *)
Theorem operations_keep_record_ok (entry question button_text : string)
  (a : App) trigger :
  In trigger (button_triggers entry question button_text) ->
  record_ok (aqi_data a) = true ->
  record_ok (aqi_data (final (operation svc trigger a))) = true.
Proof.
  intros I R. destruct (trigger_keeps_paths entry question button_text a _ I) as [_ P].
  unfold operation. destruct (trigger a) as [a1 t]. cbn in P.
  destruct t as [j| |e]; cbn [final]; try (rewrite P; exact R).
  assert (R1 : record_ok (aqi_data a1) = true) by (rewrite P; exact R).
  pose proof (run_job_keeps_record j a1 (mkWorld (aqi_data a1) [])
                eq_refl R1) as K.
  destruct (run_job svc j a1 _) as [r w]. cbn [snd] in K. cbn [final].
  rewrite run_callbacks_aqi_data. exact K.
Qed.

End WindowFacts.

Section IdleFacts.
Context {rt : Runtime}.
Import AirSenseApp.
Variable svc : Services.

Lemma last_progress_app (l1 l2 : list callback) :
  last_progress (l1 ++ l2)
  = match last_progress l2 with
    | Some b => Some b
    | None => last_progress l1
    end.
Proof.
  induction l1 as [|cb l1 IH]; cbn.
  - destruct (last_progress l2); reflexivity.
  - rewrite IH. destruct (last_progress l2); reflexivity.
Qed.

Lemma update_aqi_display_keeps_p_bar (a : App) :
  p_bar_running (_update_aqi_display a) = p_bar_running a.
Proof.
  unfold _update_aqi_display.
  destruct (aqi_data a) as [d|]; [|reflexivity].
  destruct (AQIData.overall_aqi d), (AQIData.aqi_category_name d),
    (AQIData.aqi_category_theme d), (AQIData.city d); try reflexivity.
  cbn. destruct (no_img_path _); reflexivity.
Qed.

Lemma run_callbacks_p_bar (cbs : list callback) (a : App) :
  p_bar_running (run_callbacks cbs a)
  = match last_progress cbs with
    | Some b => b
    | None => p_bar_running a
    end.
Proof.
  revert a. induction cbs as [|cb cbs IH]; intros a; [reflexivity|].
  change (run_callbacks (cb :: cbs) a)
    with (run_callbacks cbs (run_callback cb a)).
  rewrite IH. cbn [last_progress]. destruct (last_progress cbs); [reflexivity|].
  destruct cb; cbn; try reflexivity.
  apply update_aqi_display_keeps_p_bar.
Qed.

Ltac normalise_events :=
  cbn [snd fst events]; rewrite ?scheduled_app; cbn [scheduled app];
  rewrite <- ?app_assoc; cbn [app].

Ltac done_stopped :=
  normalise_events; eexists; split; [reflexivity | reflexivity].

Lemma fetch_worker_stopped (lat lon : value) :
  returns_stopped (_worker_fetch_aqi_data svc lat lon).
Proof.
  intros w. unfold _worker_fetch_aqi_data, bind, eval, emit, after, write_aqi_data.
  destruct (format_fix2 lat) as [la|e]; [|discriminate].
  destruct (format_fix2 lon) as [lo|e]; [|discriminate].
  set (raw := get_latest_aqi_by_coords svc lat lon).
  cbn -[AQIData.__init__].
  destruct (truthy raw) eqn:T.
  - destruct (get raw "status" VNone) as [status|e]; [|discriminate].
    cbn -[AQIData.__init__].
    destruct (eq_str status "ok").
    + destruct (AQIData.__init__ raw) as [d|e]; [|discriminate].
      cbn. destruct (AQIData.valid d); cbn; intros _; done_stopped.
    + destruct (get raw "data" (VStr "Unknown API error.")) as [reason|e];
        [|discriminate].
      cbn. intros _. done_stopped.
  - cbn -[AQIData.__init__].
    destruct (get raw "data" (VStr "Unknown API error.")) as [reason|e];
      [|discriminate].
    cbn. intros _. done_stopped.
Qed.

Lemma stopped_after_prefix (pre cbs : list callback) :
  last_progress cbs = Some false -> last_progress (pre ++ cbs) = Some false.
Proof. intros H. rewrite last_progress_app, H. reflexivity. Qed.

Lemma ip_worker_stopped : returns_stopped (_worker_fetch_by_ip svc).
Proof.
  intros w. unfold _worker_fetch_by_ip, get_location_from_ip.
  unfold bind at 1. unfold emit at 1.
  destruct (ipapi svc) as [loc|msg].
  - destruct (truthy loc).
    + unfold bind, eval, after, emit.
      cbn -[_worker_fetch_aqi_data].
      destruct (get loc "city" VNone) as [c|e]; [|discriminate].
      destruct (get loc "country_code" VNone) as [cc|e]; [|discriminate].
      cbn -[_worker_fetch_aqi_data].
      destruct (subscript_str loc "latitude") as [lat|e]; [|discriminate].
      destruct (subscript_str loc "longitude") as [lon|e]; [|discriminate].
      cbn -[_worker_fetch_aqi_data].
      intros H. destruct (fetch_worker_stopped lat lon _ H) as (cbs & E & R).
      rewrite E. normalise_events.
      eexists. split; [reflexivity|].
      apply (stopped_after_prefix [_; _]). exact R.
    + unfold bind, after, emit. cbn. intros _. done_stopped.
  - unfold bind, after, emit. cbn. intros _. done_stopped.
Qed.

Lemma geocode_worker_stopped (query : string) :
  returns_stopped (_worker_geocode_with_gemini svc query).
Proof.
  intros w. unfold _worker_geocode_with_gemini.
  unfold bind at 1. unfold emit at 1.
  destruct (get_coordinates_from_text svc query) as [[[lat lon] name]|].
  - unfold bind, after, emit. cbn -[_worker_fetch_aqi_data].
    intros H. destruct (fetch_worker_stopped _ _ _ H) as (cbs & E & R).
    rewrite E. normalise_events.
    eexists. split; [reflexivity|].
    apply (stopped_after_prefix [_; _]). exact R.
  - unfold bind, after, emit. cbn. intros _. done_stopped.
Qed.

Lemma analyze_worker_stopped (img : option string) :
  returns_stopped (_worker_analyze_img svc img).
Proof.
  intros w _.
  unfold _worker_analyze_img, try_except_finally, analyze_body, bind,
    eval, emit, after, read_aqi_data.
  destruct img as [p|]; [|cbn; done_stopped].
  destruct (read_file svc p) as [bytes|e]; [|cbn; done_stopped].
  destruct (ctype_of p) as [ct|]; [|cbn; done_stopped].
  destruct ct as [|c ct]; [cbn; done_stopped|].
  cbn -[image_context get_ai_response analysis_prompt save_record].
  destruct (image_context (self_aqi_data w)) as [ctx|e]; [|cbn; done_stopped].
  destruct (self_aqi_data w) as [d|];
    [|cbn -[get_ai_response analysis_prompt]; done_stopped].
  destruct (mongo_client svc && AQIData.valid d);
    [|cbn -[get_ai_response analysis_prompt]; done_stopped].
  set (analysis := get_ai_response svc _ _ _).
  cbn -[analysis save_record].
  match goal with
  | |- context [fold_right ?f ?z ?lines ?w0] =>
      pose proof (scheduled_prints lines w0) as P;
      change (fold_right _ _ lines w0) with (fold_right f z lines w0) in P;
      destruct (fold_right f z lines w0) as [r1 w1]
  end.
  unfold visible in P. cbn [fst snd self_aqi_data events] in P.
  injection P as -> _ P.
  cbn -[analysis]. normalise_events. rewrite P.
  normalise_events. eexists. split; [reflexivity | reflexivity].
Qed.

(** When the last scheduled function releases the controls, the analyze
    button is enabled exactly when an image is loaded. *)
Lemma released_sets_an_btn (cbs : list callback) (a : App) :
  released_once_at_end cbs = true ->
  an_btn_disabled (run_callbacks cbs a) = no_img_path a.
Proof.
  unfold released_once_at_end. intros H.
  rewrite <- (rev_involutive cbs).
  destruct (rev cbs) as [|cb before]; [discriminate|].
  apply andb_true_iff in H as [H _].
  cbn [rev]. rewrite run_callbacks_app.
  set (b := run_callbacks (rev before) a).
  assert (P : no_img_path b = no_img_path a).
  { unfold no_img_path, b. rewrite run_callbacks_img_path. reflexivity. }
  destruct cb as [| | |[]| | | |]; try discriminate; cbn; exact P.
Qed.

(** X6. When the worker of an operation returns, the idle window has its
    analyze button enabled exactly when an image is loaded, whether or not
    it holds a record; and unless the operation is ask-assistant, which
    never touches it, the progress bar is stopped. *)
Theorem idle_window_after_return (trigger : App -> App * triggered) (a : App) :
  worker_result (operation svc trigger a) = Some (Ok tt) ->
  an_btn_disabled (final (operation svc trigger a))
  = no_img_path (after_trigger (operation svc trigger a)) /\
  (forall j, how_triggered (operation svc trigger a) = Started j ->
             (forall question, j <> Job_ask_ai question) ->
             p_bar_running (final (operation svc trigger a)) = false).
Proof.
  unfold operation. destruct (trigger a) as [a1 t].
  destruct t as [j| |e]; cbn; try discriminate.
  pose proof (run_job_released svc j a1 (mkWorld (aqi_data a1) [])) as R.
  assert (S : (forall question, j <> Job_ask_ai question) ->
              returns_stopped (run_job svc j a1)).
  { intros N. destruct j; cbn [run_job];
      auto using ip_worker_stopped, fetch_worker_stopped,
        geocode_worker_stopped, analyze_worker_stopped.
    exfalso. exact (N question eq_refl). }
  destruct (run_job svc j a1 _) as [r w] eqn:J. cbn in *.
  intros H. injection H as ->.
  destruct (R eq_refl) as (cbs & E & Hr). split.
  - rewrite E. cbn. rewrite (released_sets_an_btn cbs _ Hr). reflexivity.
  - intros j' Hj N. injection Hj as <-.
    specialize (S N (mkWorld (aqi_data a1) [])). rewrite J in S.
    destruct (S eq_refl) as (cbs' & E' & Hs).
    cbn in E'. rewrite E'. cbn.
    fold (run_callbacks cbs' (with_aqi_data (self_aqi_data w) a1)).
    rewrite run_callbacks_p_bar, Hs. reflexivity.
Qed.

End IdleFacts.

Section FetchOutcomes.
Context {rt : Runtime}.
Import AirSenseApp.
Variable svc : Services.

Lemma status_ok_truthy (raw : value) :
  get raw "status" VNone = Ok (VStr "ok") -> truthy raw = true.
Proof.
  destruct raw; cbn; try discriminate.
  destruct d; [discriminate | reflexivity].
Qed.

(** X7. Fetch-air-quality when the feed adapter returns an object whose
    status is not ok (an upstream error, a transport failure or a missing
    token): the worker returns after the single feed call; the idle window
    holds no record, shows No Data Found with the [data] of the response as
    the reason (Unknown API error. when there is none) and the status
    AQI data fetch failed., and its controls are enabled. *)
Theorem fetch_failure_outcome (trigger : App -> App * triggered) (a a1 : App)
  (lat lon : float) (d : list (string * value)) :
  trigger a = (a1, Started (Job_fetch_aqi_data (VFloat lat) (VFloat lon))) ->
  get_latest_aqi_by_coords svc (VFloat lat) (VFloat lon) = VDict d ->
  eq_str (match lookup "status" d with Some s => s | None => VNone end) "ok" = false ->
  let o := operation svc trigger a in
  let reason := match lookup "data" d with
                | Some x => x
                | None => VStr "Unknown API error."
                end in
  worker_result o = Some (Ok tt) /\
  client_calls (trace o) = [get_latest_aqi_by_coords_called (VFloat lat) (VFloat lon)] /\
  aqi_data (final o) = None /\
  aqi_val (final o) = ([Lit "!"], "secondary") /\
  aqi_cat (final o) = ([Lit "No Data Found"], "secondary") /\
  summary_txt (final o)
  = [Lit ("Could not get data." ++ String "010" "Reason: "); Val reason] /\
  status_lbl (final o) = ([Lit "AQI data fetch failed."], "warning") /\
  p_bar_running (final o) = false /\
  controls_disabled (final o) = false.
Proof.
  intros T F S. unfold operation. rewrite T. cbn [run_job].
  unfold _worker_fetch_aqi_data, bind, eval, emit, after, write_aqi_data.
  cbn [format_fix2]. rewrite F.
  destruct d as [|kv d']; cbn -[AQIData.__init__ lookup eq_str] in *.
  - repeat split; reflexivity.
  - rewrite S. cbn -[lookup]. repeat split; reflexivity.
Qed.

(** X8. Fetch-air-quality when the feed adapter returns a response with
    status ok from which the constructor builds a valid record: the worker
    returns after the single feed call; the idle window holds that record,
    shows its index and its category name in the theme of the category and
    the status Success!, and its controls are enabled. *)
Theorem fetch_success_outcome (trigger : App -> App * triggered) (a a1 : App)
  (lat lon : float) (raw : value) (d : AQIData.t) :
  trigger a = (a1, Started (Job_fetch_aqi_data (VFloat lat) (VFloat lon))) ->
  get_latest_aqi_by_coords svc (VFloat lat) (VFloat lon) = raw ->
  get raw "status" VNone = Ok (VStr "ok") ->
  AQIData.__init__ raw = Ok d ->
  AQIData.valid d = true ->
  let o := operation svc trigger a in
  worker_result o = Some (Ok tt) /\
  client_calls (trace o) = [get_latest_aqi_by_coords_called (VFloat lat) (VFloat lon)] /\
  aqi_data (final o) = Some d /\
  (exists n name theme,
     AQIData.overall_aqi d = Some n /\
     AQIData.aqi_category_name d = Some name /\
     AQIData.aqi_category_theme d = Some theme /\
     aqi_val (final o) = ([Num n], theme) /\
     aqi_cat (final o) = ([Lit name], theme) /\
     aqi_sub (final o) = theme) /\
  summary_txt (final o) = [Summary d] /\
  status_lbl (final o) = ([Lit "Success!"], "success") /\
  p_bar_running (final o) = false /\
  controls_disabled (final o) = false.
Proof.
  intros T F S I V. unfold operation. rewrite T. cbn [run_job].
  unfold _worker_fetch_aqi_data, bind, eval, emit, after, write_aqi_data.
  cbn [format_fix2]. rewrite F, (status_ok_truthy _ S), S.
  cbn -[AQIData.__init__]. rewrite I. cbn -[AQIData.valid]. rewrite V.
  destruct (init_valid_inv _ _ I V)
    as (n & loc & c & la & lo & ts & ps & dom & ->).
  cbn -[AQIData.category_loop]. unfold _update_aqi_display.
  cbn -[AQIData.category_loop].
  unfold no_img_path. cbn -[AQIData.category_loop].
  destruct (img_path a1) as [p|]; [destruct (String.eqb p "")|];
    cbn -[AQIData.category_loop];
    (repeat split; try reflexivity;
     do 3 eexists; repeat split; reflexivity).
Qed.


End FetchOutcomes.

Section GeocoderFacts.
Context {rt : Runtime}.
Variable svc : Services.

(** X10. The geocoding adapter returns coordinates exactly when the model
    is configured and its reply is an object whose latitude and longitude
    are present, not null, and taken by [float]; the name is the
    [identified_name] of the reply, or the query when the reply has none. *)
Theorem get_coordinates_present (query : string) (la lo : float) (name : text) :
  get_coordinates_from_text svc query = Some (la, lo, name) <->
  gemini_model svc = true /\
  exists d lat lon,
    generate_json svc (geocoding_prompt query) = Ok (VDict d) /\
    lookup "latitude" d = Some lat /\ lat <> VNone /\
    lookup "longitude" d = Some lon /\ lon <> VNone /\
    float_of lat = Ok la /\ float_of lon = Ok lo /\
    name = [Val (match lookup "identified_name" d with
                 | Some x => x
                 | None => VStr query
                 end)].
Proof.
  unfold get_coordinates_from_text, get_coordinates_body. split.
  - destruct (gemini_model svc); cbn; [|discriminate].
    destruct (generate_json svc (geocoding_prompt query)) as [r|e]; [|discriminate].
    destruct r as [| | | | | |d]; cbn; try discriminate.
    destruct (lookup "latitude" d) as [lat|] eqn:L1; cbn; [|discriminate].
    destruct (lookup "longitude" d) as [lon|] eqn:L2; cbn;
      [|rewrite andb_false_r; discriminate].
    destruct (is_none lat) eqn:N1; cbn; [discriminate|].
    destruct (is_none lon) eqn:N2; cbn; [discriminate|].
    destruct (float_of lat) as [x|] eqn:F1; [|discriminate].
    destruct (float_of lon) as [y|] eqn:F2; [|discriminate].
    intros H. injection H as <- <- <-.
    split; [reflexivity|]. exists d, lat, lon.
    repeat split; auto; intros ->; discriminate.
  - intros (M & d & lat & lon & G & L1 & N1 & L2 & N2 & F1 & F2 & ->).
    assert (I1 : is_none lat = false) by (destruct lat; auto; contradiction).
    assert (I2 : is_none lon = false) by (destruct lon; auto; contradiction).
    rewrite M, G. cbn -[float_of]. rewrite L1, L2, I1, I2.
    cbn -[float_of]. rewrite F1, F2. reflexivity.
Qed.

End GeocoderFacts.

Section EntryFacts.
Context {rt : Runtime}.
Import AirSenseApp.
Variable svc : Services.

Lemma update_aqi_display_keeps_entry (a : App) :
  loc_entry (_update_aqi_display a) = loc_entry a.
Proof.
  unfold _update_aqi_display.
  destruct (aqi_data a) as [d|]; [|reflexivity].
  destruct (AQIData.overall_aqi d), (AQIData.aqi_category_name d),
    (AQIData.aqi_category_theme d), (AQIData.city d); try reflexivity.
  cbn. destruct (no_img_path _); reflexivity.
Qed.

Lemma run_callbacks_keeps_entry (cbs : list callback) (a : App) :
  existsb edits_entry cbs = false ->
  loc_entry (run_callbacks cbs a) = loc_entry a.
Proof.
  revert a. induction cbs as [|cb cbs IH]; intros a H; [reflexivity|].
  cbn in H. apply orb_false_iff in H as [H1 H2].
  change (run_callbacks (cb :: cbs) a)
    with (run_callbacks cbs (run_callback cb a)).
  rewrite (IH _ H2). destruct cb; cbn; try reflexivity; try discriminate.
  apply update_aqi_display_keeps_entry.
Qed.

(** Whatever happens, the fetch worker schedules nothing that edits the
    location entry. *)
Lemma fetch_worker_no_edits (lat lon : value) (w : World) :
  exists cbs,
    scheduled (events (snd (_worker_fetch_aqi_data svc lat lon w)))
    = scheduled (events w) ++ cbs /\
    existsb edits_entry cbs = false.
Proof.
  unfold _worker_fetch_aqi_data, bind, eval, emit, after, write_aqi_data.
  assert (Z : exists cbs : list callback,
             scheduled (events w) = scheduled (events w) ++ cbs /\
             existsb edits_entry cbs = false).
  { exists []. rewrite app_nil_r. split; reflexivity. }
  destruct (format_fix2 lat) as [la|e]; [|exact Z].
  destruct (format_fix2 lon) as [lo|e]; [|exact Z].
  set (raw := get_latest_aqi_by_coords svc lat lon).
  cbn -[AQIData.__init__].
  destruct (truthy raw);
    [destruct (get raw "status" VNone) as [status|e]; cbn -[AQIData.__init__];
     [destruct (eq_str status "ok");
      [destruct (AQIData.__init__ raw) as [d|e]; cbn;
       [destruct (AQIData.valid d); cbn|]
      |destruct (get raw "data" _) as [reason|e]; cbn]|]
    |cbn; destruct (get raw "data" _) as [reason|e]; cbn];
    cbn [snd events]; rewrite ?scheduled_app; cbn [scheduled app];
    rewrite <- ?app_assoc; cbn [app];
    eexists; (split; [reflexivity | reflexivity]).
Qed.

(** X11. Locate-by-text when the geocoder finds the place: the worker
    calls the geocoding adapter with the query and then the feed adapter
    with the coordinates it returned, and no other adapter; whatever the
    feed answers, the location entry of the idle window holds the name the
    geocoder gave and nothing else. *)
Theorem geocode_success_path (trigger : App -> App * triggered) (a a1 : App)
  (query : string) (la lo : float) (name : text) :
  trigger a = (a1, Started (Job_geocode_with_gemini query)) ->
  get_coordinates_from_text svc query = Some (la, lo, name) ->
  let o := operation svc trigger a in
  client_calls (trace o)
  = [get_coordinates_from_text_called query;
     get_latest_aqi_by_coords_called (VFloat la) (VFloat lo)] /\
  loc_entry (final o) = name.
Proof.
  intros T G. unfold operation. rewrite T. cbn [run_job].
  unfold _worker_geocode_with_gemini.
  unfold bind at 1. unfold emit at 1. rewrite G.
  unfold bind, after, emit. cbn -[_worker_fetch_aqi_data].
  match goal with
  | |- context [_worker_fetch_aqi_data svc ?x ?y ?w0] =>
      pose proof (fetch_worker_calls svc la lo w0) as C;
      destruct (fetch_worker_no_edits x y w0) as (cbs & E & N);
      destruct (_worker_fetch_aqi_data svc x y w0) as [r w]
  end.
  cbn [snd events] in C, E. cbn [trace final].
  split.
  - rewrite C. reflexivity.
  - rewrite E. cbn [scheduled app].
    change (run_callbacks (Cb_loc_entry_delete :: Cb_loc_entry_insert name :: cbs) ?x)
      with (run_callbacks cbs
              (run_callback (Cb_loc_entry_insert name)
                 (run_callback Cb_loc_entry_delete x))).
    rewrite (run_callbacks_keeps_entry _ _ N). cbn. apply app_nil_r.
Qed.

End EntryFacts.

Section MoreOutcomes.
Context {rt : Runtime}.
Import AirSenseApp.
Variable svc : Services.

(** X12. Locate-by-IP when the lookup fails or answers with an empty
    value: the worker returns after the lookup alone, without calling the
    feed; the idle window shows the warning Could not get location via IP.,
    its controls are enabled, and its record and location entry are the
    ones it had. *)
Theorem ip_failure_outcome (a : App) :
  (exists msg, ipapi svc = RequestException msg) \/
  (exists loc, ipapi svc = HttpJson loc /\ truthy loc = false) ->
  let o := operation svc fetch_aqi_by_ip_address a in
  worker_result o = Some (Ok tt) /\
  client_calls (trace o) = [get_location_from_ip_called] /\
  status_lbl (final o) = ([Lit "Could not get location via IP."], "warning") /\
  p_bar_running (final o) = false /\
  controls_disabled (final o) = false /\
  aqi_data (final o) = aqi_data a /\
  loc_entry (final o) = loc_entry a.
Proof.
  intros H. unfold operation, fetch_aqi_by_ip_address. cbn [run_job].
  unfold _worker_fetch_by_ip, get_location_from_ip, bind, emit, after.
  destruct H as [[msg ->]|(loc & -> & ->)]; cbn; repeat split; reflexivity.
Qed.

(** X13. Locate-by-IP when the lookup answers with an object that has no
    latitude or no longitude: after scheduling the new text of the location
    entry, the worker ends by [KeyError] without calling the feed, and the
    window stays busy. *)
Theorem ip_reply_without_coordinates (a : App) (d : list (string * value)) :
  d <> [] ->
  lookup "latitude" d = None \/ lookup "longitude" d = None ->
  ipapi svc = HttpJson (VDict d) ->
  let o := operation svc fetch_aqi_by_ip_address a in
  worker_result o = Some (Raise (mk_exn KeyError None)) /\
  client_calls (trace o) = [get_location_from_ip_called] /\
  loc_entry (final o)
  = [Val (match lookup "city" d with Some x => x | None => VNone end);
     Lit ", ";
     Val (match lookup "country_code" d with Some x => x | None => VNone end)] /\
  controls_disabled (final o) = true.
Proof.
  intros N H I. unfold operation, fetch_aqi_by_ip_address. cbn [run_job].
  unfold _worker_fetch_by_ip, get_location_from_ip. rewrite I.
  unfold bind, emit, after, eval.
  destruct d as [|kv d']; [contradiction|].
  cbn -[lookup _worker_fetch_aqi_data].
  destruct (lookup "latitude" (kv :: d')) as [lat|] eqn:L1.
  - destruct H as [H|H]; [discriminate|]. rewrite H.
    cbn -[lookup]. repeat split; reflexivity.
  - cbn -[lookup]. repeat split; reflexivity.
Qed.

(** X14. Locate-by-IP when the lookup answers with an object that holds
    numbers for latitude and longitude: the worker calls the lookup and
    then the feed adapter with these two numbers, and no other adapter;
    whatever the feed answers, the location entry of the idle window holds
    the city and the country code of the reply, joined by a comma. *)
Theorem ip_success_path (a : App) (d : list (string * value)) (la lo : float) :
  ipapi svc = HttpJson (VDict d) ->
  lookup "latitude" d = Some (VFloat la) ->
  lookup "longitude" d = Some (VFloat lo) ->
  let o := operation svc fetch_aqi_by_ip_address a in
  client_calls (trace o)
  = [get_location_from_ip_called;
     get_latest_aqi_by_coords_called (VFloat la) (VFloat lo)] /\
  loc_entry (final o)
  = [Val (match lookup "city" d with Some x => x | None => VNone end);
     Lit ", ";
     Val (match lookup "country_code" d with Some x => x | None => VNone end)].
Proof.
  intros I L1 L2. unfold operation, fetch_aqi_by_ip_address. cbn [run_job].
  unfold _worker_fetch_by_ip, get_location_from_ip. rewrite I.
  unfold bind at 1. unfold emit at 1.
  destruct d as [|kv d']; [discriminate|].
  unfold bind, emit, after, eval.
  cbn -[lookup _worker_fetch_aqi_data]. rewrite L1, L2.
  cbn -[lookup _worker_fetch_aqi_data].
  match goal with
  | |- context [_worker_fetch_aqi_data svc ?x ?y ?w0] =>
      pose proof (fetch_worker_calls svc la lo w0) as C;
      destruct (fetch_worker_no_edits svc x y w0) as (cbs & E & N);
      destruct (_worker_fetch_aqi_data svc x y w0) as [r w]
  end.
  cbn [snd events] in C, E. cbn [trace final].
  split.
  - rewrite C. reflexivity.
  - rewrite E. cbn [scheduled app].
    match goal with
    | |- loc_entry (run_callbacks (?c1 :: ?c2 :: cbs) ?x) = _ =>
        change (run_callbacks (c1 :: c2 :: cbs) x)
          with (run_callbacks cbs (run_callback c2 (run_callback c1 x)))
    end.
    rewrite (run_callbacks_keeps_entry _ _ N). cbn -[lookup]. reflexivity.
Qed.

End MoreOutcomes.

Section AssistantFacts.
Context {rt : Runtime}.
Import AirSenseApp.
Variable svc : Services.

(** X15. Ask-assistant, when the window holds no record or one the
    constructor built: the worker returns after exactly one call of
    [get_ai_response], made without an image and with a prompt that ends
    with the question between double quotes (and starts with the general
    advice context when there is no valid record); the idle window shows the
    answer alone, tagged ai, and this also when the answer is the offline
    text or an AI Error text; its controls are enabled and its record,
    status and image are the ones it had. *)
Theorem ask_assistant_outcome (question button_text : string) (a : App) :
  aqi_data a = None \/
  (exists waqi_json d, AQIData.__init__ waqi_json = Ok d /\ aqi_data a = Some d) ->
  let o := operation svc (ask_ai_assistant question button_text) a in
  exists context : text,
    let prompt :=
      context ++
      [Lit (String "010" (String "010"
              ("Based on this, answer the user's question clearly and concisely:"
               ++ String "010" (String "010" "User Question: "))));
       Lit dquote; Lit question; Lit dquote] in
    (has_valid_data (aqi_data a) = false -> context = general_advice_context) /\
    worker_result o = Some (Ok tt) /\
    client_calls (trace o) = [get_ai_response_called prompt None None] /\
    ai_response_text (final o) = [(get_ai_response svc prompt None None, "ai")] /\
    controls_disabled (final o) = false /\
    aqi_data (final o) = aqi_data a /\
    status_lbl (final o) = status_lbl a /\
    img_path (final o) = img_path a.
Proof.
  intros H.
  assert (exists context,
            match aqi_data a with
            | Some d => if AQIData.valid d then data_context d
                        else Ok general_advice_context
            | None => Ok general_advice_context
            end = Ok context /\
            (has_valid_data (aqi_data a) = false ->
             context = general_advice_context)) as (context & E & G).
  { destruct H as [->|(waqi_json & d & I & ->)].
    - eexists; split; [reflexivity|]. reflexivity.
    - cbn [has_valid_data]. destruct (AQIData.valid d) eqn:V.
      + destruct (init_valid_inv _ _ I V)
          as (n & loc & c & la & lo & ts & ps & dom & ->).
        eexists; split; [reflexivity|]. discriminate.
      + eexists; split; [reflexivity|]. reflexivity. }
  exists context. cbv zeta. split; [exact G|].
  unfold operation, ask_ai_assistant. cbn [run_job].
  unfold _worker_ask_ai, bind, eval, emit, after, read_aqi_data.
  cbn -[get_ai_response AQIData.valid data_context general_advice_context app].
  rewrite E.
  cbn -[get_ai_response app].
  repeat split; reflexivity.
Qed.

End AssistantFacts.

Section AnalysisFacts.
Context {rt : Runtime}.
Import AirSenseApp.
Variable svc : Services.

Lemma ctype_of_image (p ct : string) :
  ctype_of p = Some ct -> exists c rest, ct = String c rest.
Proof.
  unfold ctype_of, content_types. cbn [lookup].
  repeat match goal with
  | |- context [String.eqb ?x ?y] => destruct (String.eqb x y)
  end; intros E; inversion E; subst; eauto.
Qed.

Lemma prints_events (lines : list text) (w : World) :
  fold_right (fun line k => bind (emit (Print line)) (fun _ => k))
    (ret tt) lines w
  = (Ok tt, mkWorld (self_aqi_data w) (events w ++ map Print lines)).
Proof.
  revert w. induction lines as [|line lines IH]; intros w.
  - cbn. rewrite app_nil_r. destruct w; reflexivity.
  - cbn [fold_right]. unfold bind at 1. unfold emit at 1.
    rewrite IH. cbn. rewrite <- app_assoc. reflexivity.
Qed.

Lemma client_calls_prints (lines : list text) :
  client_calls (map Print lines) = [].
Proof. induction lines; cbn; auto. Qed.

Lemma scheduled_of_prints (lines : list text) :
  scheduled (map Print lines) = [].
Proof. induction lines; cbn; auto. Qed.

(** X16. Analyse-image on a window that holds an image path with a
    supported extension whose file can be read, and a valid record built by
    the constructor: the worker returns after one call of [get_ai_response]
    with the bytes of the file and the content type of the extension,
    followed by one call of [save_record] exactly when the storage client
    exists; the idle window shows the answer as the analysis with the status
    Analysis complete. (also when the answer is an AI Error text), its
    controls and its analyse button are enabled, and its record is kept. *)
Theorem analyze_success_outcome (a : App) (p ct bytes : string)
  (waqi_json : value) (d : AQIData.t) :
  img_path a = Some p -> p <> "" ->
  aqi_data a = Some d ->
  AQIData.__init__ waqi_json = Ok d -> AQIData.valid d = true ->
  ctype_of p = Some ct ->
  read_file svc p = Ok bytes ->
  let o := operation svc analyze_img a in
  exists ctx : text,
    let prompt := analysis_prompt ctx in
    let analysis := get_ai_response svc prompt (Some bytes) (Some ct) in
    image_context (Some d) = Ok ctx /\
    worker_result o = Some (Ok tt) /\
    client_calls (trace o)
    = get_ai_response_called prompt (Some bytes) (Some ct)
      :: (if mongo_client svc then [save_record_called (Some p) ct d analysis]
          else []) /\
    analysis_txt (final o) = analysis /\
    status_lbl (final o) = ([Lit "Analysis complete."], "success") /\
    p_bar_running (final o) = false /\
    controls_disabled (final o) = false /\
    an_btn_disabled (final o) = false /\
    aqi_data (final o) = Some d.
Proof.
  intros P N D I V C R.
  assert (NE : String.eqb p "" = false) by (apply String.eqb_neq; exact N).
  unfold operation, analyze_img, no_img_path. rewrite P, NE, D.
  cbn [has_valid_data]. rewrite V. cbn [negb orb run_job].
  destruct (ctype_of_image _ _ C) as (c0 & rest & ->).
  destruct (init_valid_inv _ _ I V)
    as (n & loc & c & la & lo & ts & ps & dom & ->).
  unfold _worker_analyze_img, try_except_finally, analyze_body, bind,
    eval, emit, after, read_aqi_data.
  cbn -[get_ai_response analysis_prompt save_record AQIData.category_loop
        AQIData.valid ctype_of].
  rewrite P, R, C, D.
  cbn -[get_ai_response analysis_prompt save_record AQIData.category_loop
        AQIData.valid].
  rewrite V, andb_true_r.
  eexists. split; [reflexivity|].
  destruct (mongo_client svc).
  - rewrite prints_events.
    cbn -[get_ai_response analysis_prompt save_record AQIData.category_loop].
    rewrite !scheduled_app, !client_calls_app, scheduled_of_prints,
      client_calls_prints.
    cbn -[get_ai_response analysis_prompt save_record AQIData.category_loop].
    unfold no_img_path.
    cbn -[get_ai_response analysis_prompt save_record AQIData.category_loop].
    rewrite ?P, ?NE. repeat split; reflexivity.
  - cbn -[get_ai_response analysis_prompt save_record AQIData.category_loop].
    unfold no_img_path.
    cbn -[get_ai_response analysis_prompt save_record AQIData.category_loop].
    rewrite ?P, ?NE. repeat split; reflexivity.
Qed.

End AnalysisFacts.

Section ImageFacts.
Context {rt : Runtime}.
Import AirSenseApp.
Variable svc : Services.

(** X17. Analyse-image when the image file cannot be read: the worker
    catches the exception and returns without calling any adapter; the idle
    window shows the status Image analysis failed: with the exception and
    the analysis text Error: with the exception, its controls and its
    analyse button are enabled, and its record is kept. *)
Theorem analyze_unreadable_file (a : App) (p : string) (e : exn) :
  img_path a = Some p -> p <> "" ->
  has_valid_data (aqi_data a) = true ->
  read_file svc p = Raise e ->
  let o := operation svc analyze_img a in
  worker_result o = Some (Ok tt) /\
  client_calls (trace o) = [] /\
  status_lbl (final o) = ([Lit "Image analysis failed: "; Err e], "danger") /\
  analysis_txt (final o) = [Lit "Error: "; Err e] /\
  p_bar_running (final o) = false /\
  controls_disabled (final o) = false /\
  an_btn_disabled (final o) = false /\
  aqi_data (final o) = aqi_data a.
Proof.
  intros P N V R.
  assert (NE : String.eqb p "" = false) by (apply String.eqb_neq; exact N).
  unfold operation, analyze_img, no_img_path. rewrite P, NE, V.
  cbn [negb orb run_job].
  unfold _worker_analyze_img, try_except_finally, analyze_body, bind,
    eval, emit, after, read_aqi_data.
  cbn -[ctype_of]. rewrite P, R. cbn. unfold no_img_path. cbn.
  rewrite P, NE. repeat split; reflexivity.
Qed.

(** X18. Loading an image ([upload_img] with a path chosen in the dialog)
    sets the image path and keeps the record and the other controls; it
    enables the analyse button exactly when the window holds a valid
    record, which is exactly when a click on that button starts the
    analysis worker instead of showing the Analysis Blocked box. *)
Theorem upload_then_analyze (fp : string) (a : App) :
  fp <> "" ->
  let a1 := upload_img fp a in
  img_path a1 = Some fp /\
  aqi_data a1 = aqi_data a /\
  controls_disabled a1 = controls_disabled a /\
  an_btn_disabled a1 = negb (has_valid_data (aqi_data a)) /\
  (an_btn_disabled a1 = false <->
   how_triggered (operation svc analyze_img a1) = Started Job_analyze_img) /\
  (an_btn_disabled a1 = true <->
   how_triggered (operation svc analyze_img a1) = Returned).
Proof.
  intros N.
  assert (NE : String.eqb fp "" = false) by (apply String.eqb_neq; exact N).
  unfold upload_img. rewrite NE. cbn.
  repeat (split; [reflexivity|]).
  unfold operation, analyze_img, no_img_path. cbn. rewrite NE. cbn.
  destruct (has_valid_data (aqi_data a)); cbn.
  - destruct (_worker_analyze_img svc (Some fp) _) as [r w]. cbn.
    split; split; try reflexivity; discriminate.
  - split; split; try reflexivity; discriminate.
Qed.

End ImageFacts.

Section StartupFacts.
Context {rt : Runtime}.
Import AirSenseApp.

(** X19. When the main block reaches the main loop, both keys are set:
    [_initial_fetch] then always starts locate-by-IP, on whatever window,
    and never shows Config Error; and the feed adapter built with the
    configured token never answers WAQI API token not provided, so every
    answer it gives with status error comes from the request. *)
Theorem started_app_is_configured (cfg : Config) (svc : Services) :
  main cfg = Mainloop ->
  waqi_token svc = WAQI_API_TOKEN cfg ->
  (forall a, _initial_fetch cfg a = fetch_aqi_by_ip_address a) /\
  (forall lat lon,
     get_latest_aqi_by_coords svc lat lon
     = match waqi_feed svc lat lon with
       | HttpJson body => body
       | RequestException msg =>
           VDict [("status", VStr "error"); ("data", VStr msg)]
       end).
Proof.
  unfold main, _initial_fetch, get_latest_aqi_by_coords. intros M ->.
  destruct (is_set (GEMINI_API_KEY cfg)); [|discriminate].
  destruct (WAQI_API_TOKEN cfg) as [[|c t]|]; try discriminate.
  split; reflexivity.
Qed.

End StartupFacts.

(* ================================================================== *)
(** ** Instances of the further properties *)
(* ================================================================== *)

Lemma init_raises_only_witness :
  @AQIData.__init__ Example.runtime feed_without_reading
  = Raise (mk_exn ValueError None) /\
  (exn_cls (mk_exn ValueError None) = ValueError \/
   exn_cls (mk_exn ValueError None) = AttributeError \/
   exn_cls (mk_exn ValueError None) = OverflowError).
Proof.
  split; [reflexivity|].
  apply (@init_raises_only Example.runtime feed_without_reading). reflexivity.
Defined.

Lemma pollutants_of_spec_witness :
  @AQIData.pollutants_of Example.runtime Sample.readings []
  = Ok [("pm25", 12.5%float)] /\
  NoDup (map fst [("pm25", 12.5%float)]).
Proof.
  split; [reflexivity|].
  exact (proj1 (@pollutants_of_spec Example.runtime Sample.readings
                  [("pm25", 12.5%float)] eq_refl)).
Defined.

Lemma operations_keep_img_path_witness :
  In (@AirSenseApp.analyze_img Example.runtime) (button_triggers "" "" "") /\
  AirSenseApp.img_path
    (AirSenseApp.final
       (AirSenseApp.operation (Example.services scenario_paris)
          AirSenseApp.analyze_img (Example.window_with (Some "sky.png"))))
  = AirSenseApp.img_path (Example.window_with (Some "sky.png")).
Proof.
  assert (H : In (@AirSenseApp.analyze_img Example.runtime)
                (button_triggers "" "" ""))
    by (do 3 right; left; reflexivity).
  split; [exact H|].
  exact (@operations_keep_img_path Example.runtime (Example.services scenario_paris)
           "" "" "" (Example.window_with (Some "sky.png")) _ H).
Defined.

Lemma operations_keep_record_ok_witness :
  In (@AirSenseApp.fetch_aqi_by_ip_address Example.runtime)
     (button_triggers "" "" "") /\
  record_ok (AirSenseApp.aqi_data (Example.window_with None)) = true /\
  record_ok
    (AirSenseApp.aqi_data
       (AirSenseApp.final
          (AirSenseApp.operation (Example.services Sample.feed_short_geo)
             AirSenseApp.fetch_aqi_by_ip_address (Example.window_with None))))
  = true.
Proof.
  assert (H : In (@AirSenseApp.fetch_aqi_by_ip_address Example.runtime)
                (button_triggers "" "" ""))
    by (left; reflexivity).
  split; [exact H|]. split; [reflexivity|].
  exact (@operations_keep_record_ok Example.runtime
           (Example.services Sample.feed_short_geo)
           "" "" "" (Example.window_with None) _ H eq_refl).
Defined.

Lemma idle_window_after_return_witness :
  let o := AirSenseApp.operation (Example.services scenario_paris)
             AirSenseApp.fetch_aqi_by_ip_address
             (Example.window_with (Some "sky.png")) in
  AirSenseApp.worker_result o = Some (Ok tt) /\
  AirSenseApp.an_btn_disabled (AirSenseApp.final o)
  = AirSenseApp.no_img_path (AirSenseApp.after_trigger o).
Proof.
  split; [reflexivity|].
  exact (proj1 (@idle_window_after_return Example.runtime
                  (Example.services scenario_paris)
                  AirSenseApp.fetch_aqi_by_ip_address
                  (Example.window_with (Some "sky.png")) eq_refl)).
Defined.

Lemma fetch_failure_outcome_witness :
  let o := AirSenseApp.operation (Example.services Sample.feed_error)
             (AirSenseApp.fetch_by_input "1,2") AirSenseApp.initial in
  AirSenseApp.how_triggered o
  = AirSenseApp.Started (AirSenseApp.Job_fetch_aqi_data (VFloat 1) (VFloat 2)) /\
  AirSenseApp.aqi_data (AirSenseApp.final o) = None /\
  AirSenseApp.summary_txt (AirSenseApp.final o)
  = [Lit ("Could not get data." ++ String "010" "Reason: ");
     Val (VStr "Invalid key")].
Proof.
  split; [reflexivity|].
  destruct (@fetch_failure_outcome Example.runtime
              (Example.services Sample.feed_error)
              (AirSenseApp.fetch_by_input "1,2") AirSenseApp.initial
              _ 1 2 _ eq_refl eq_refl eq_refl)
    as (_ & _ & D & _ & _ & S & _).
  split; [exact D | exact S].
Defined.

Lemma fetch_success_outcome_witness :
  let o := AirSenseApp.operation (Example.services scenario_paris)
             (AirSenseApp.fetch_by_input "1,2") AirSenseApp.initial in
  @AQIData.__init__ Example.runtime scenario_paris = Ok Example.paris_record /\
  AirSenseApp.aqi_data (AirSenseApp.final o) = Some Example.paris_record /\
  AirSenseApp.status_lbl (AirSenseApp.final o) = ([Lit "Success!"], "success").
Proof.
  split; [reflexivity|].
  destruct (@fetch_success_outcome Example.runtime
              (Example.services scenario_paris)
              (AirSenseApp.fetch_by_input "1,2") AirSenseApp.initial
              _ 1 2 _ Example.paris_record eq_refl eq_refl eq_refl eq_refl eq_refl)
    as (_ & _ & D & _ & _ & S & _).
  split; [exact D | exact S].
Defined.


Lemma geocode_success_path_witness :
  let svc := Sample.services (RequestException "offline") scenario_paris
               (Ok Sample.geocoded_paris) (Ok "bytes") in
  let o := AirSenseApp.operation svc (AirSenseApp.fetch_by_input "Paris")
             AirSenseApp.initial in
  get_coordinates_from_text svc "Paris"
  = Some (0x1.8666666666666p+5, 0x1.2666666666666p+1,
          [Val (VStr "Paris, France")])%float /\
  AirSenseApp.loc_entry (AirSenseApp.final o) = [Val (VStr "Paris, France")].
Proof.
  split; [reflexivity|].
  exact (proj2 (@geocode_success_path Example.runtime
                  (Sample.services (RequestException "offline") scenario_paris
                     (Ok Sample.geocoded_paris) (Ok "bytes"))
                  (AirSenseApp.fetch_by_input "Paris") AirSenseApp.initial
                  _ "Paris" _ _ _ eq_refl eq_refl)).
Defined.

Lemma ip_failure_outcome_witness :
  let o := AirSenseApp.operation Example.services_geocoder_null
             AirSenseApp.fetch_aqi_by_ip_address AirSenseApp.initial in
  ipapi Example.services_geocoder_null = RequestException "offline" /\
  AirSenseApp.client_calls (AirSenseApp.trace o) = [get_location_from_ip_called] /\
  AirSenseApp.controls_disabled (AirSenseApp.final o) = false.
Proof.
  split; [reflexivity|].
  destruct (@ip_failure_outcome Example.runtime Example.services_geocoder_null
              AirSenseApp.initial
              (or_introl (ex_intro _ "offline" eq_refl)))
    as (_ & C & _ & _ & B & _).
  split; [exact C | exact B].
Defined.

Lemma ip_reply_without_coordinates_witness :
  let svc := Sample.services (HttpJson (VDict [("city", VStr "Paris")]))
               scenario_paris (Ok Sample.geocoded_paris) (Ok "bytes") in
  let o := AirSenseApp.operation svc AirSenseApp.fetch_aqi_by_ip_address
             AirSenseApp.initial in
  lookup "latitude" [("city", VStr "Paris")] = None /\
  AirSenseApp.worker_result o = Some (Raise (mk_exn KeyError None)) /\
  AirSenseApp.controls_disabled (AirSenseApp.final o) = true.
Proof.
  split; [reflexivity|].
  destruct (@ip_reply_without_coordinates Example.runtime
              (Sample.services (HttpJson (VDict [("city", VStr "Paris")]))
                 scenario_paris (Ok Sample.geocoded_paris) (Ok "bytes"))
              AirSenseApp.initial [("city", VStr "Paris")]
              ltac:(discriminate) (or_introl eq_refl) eq_refl)
    as (R & _ & _ & B).
  split; [exact R | exact B].
Defined.

Lemma ip_success_path_witness :
  let o := AirSenseApp.operation (Example.services scenario_paris)
             AirSenseApp.fetch_aqi_by_ip_address AirSenseApp.initial in
  AirSenseApp.client_calls (AirSenseApp.trace o)
  = [get_location_from_ip_called;
     get_latest_aqi_by_coords_called (VFloat 0x1.8666666666666p+5)
       (VFloat 0x1.2666666666666p+1)] /\
  AirSenseApp.loc_entry (AirSenseApp.final o)
  = [Val (VStr "Paris"); Lit ", "; Val (VStr "FR")].
Proof.
  exact (@ip_success_path Example.runtime (Example.services scenario_paris)
           AirSenseApp.initial _ _ _ eq_refl eq_refl eq_refl).
Defined.

Lemma ask_assistant_outcome_witness :
  let o := AirSenseApp.operation (Example.services scenario_paris)
             (AirSenseApp.ask_ai_assistant "Is it safe?" "Outdoor Activity?")
             AirSenseApp.initial in
  AirSenseApp.aqi_data (@AirSenseApp.initial Example.runtime) = None /\
  AirSenseApp.worker_result o = Some (Ok tt) /\
  AirSenseApp.controls_disabled (AirSenseApp.final o) = false.
Proof.
  split; [reflexivity|].
  destruct (@ask_assistant_outcome Example.runtime (Example.services scenario_paris)
              "Is it safe?" "Outdoor Activity?" AirSenseApp.initial
              (or_introl eq_refl))
    as (context & _ & R & _ & _ & B & _).
  split; [exact R | exact B].
Defined.

Lemma analyze_success_outcome_witness :
  let svc := Sample.services (RequestException "offline") scenario_paris
               (Ok Sample.geocoded_paris) (Ok "bytes") in
  let o := AirSenseApp.operation svc AirSenseApp.analyze_img
             (Example.window_with (Some "sky.png")) in
  AirSenseApp.ctype_of "sky.png" = Some "image/png" /\
  AirSenseApp.analysis_txt (AirSenseApp.final o) = [Lit "text"] /\
  AirSenseApp.status_lbl (AirSenseApp.final o)
  = ([Lit "Analysis complete."], "success").
Proof.
  split; [reflexivity|].
  destruct (@analyze_success_outcome Example.runtime
              (Sample.services (RequestException "offline") scenario_paris
                 (Ok Sample.geocoded_paris) (Ok "bytes"))
              (Example.window_with (Some "sky.png")) "sky.png" "image/png" "bytes"
              scenario_paris Example.paris_record
              eq_refl ltac:(discriminate) eq_refl eq_refl eq_refl eq_refl eq_refl)
    as (ctx & _ & _ & _ & A & S & _).
  split; [exact A | exact S].
Defined.

Lemma analyze_unreadable_file_witness :
  let svc := Sample.services (RequestException "offline") scenario_paris
               (Ok Sample.geocoded_paris) (Raise (mk_exn OSError None)) in
  let o := AirSenseApp.operation svc AirSenseApp.analyze_img
             (Example.window_with (Some "sky.png")) in
  AirSenseApp.client_calls (AirSenseApp.trace o) = [] /\
  AirSenseApp.analysis_txt (AirSenseApp.final o)
  = [Lit "Error: "; Err (mk_exn OSError None)].
Proof.
  destruct (@analyze_unreadable_file Example.runtime
              (Sample.services (RequestException "offline") scenario_paris
                 (Ok Sample.geocoded_paris) (Raise (mk_exn OSError None)))
              (Example.window_with (Some "sky.png")) "sky.png" (mk_exn OSError None)
              eq_refl ltac:(discriminate) eq_refl eq_refl)
    as (_ & C & _ & A & _).
  split; [exact C | exact A].
Defined.

Lemma upload_then_analyze_witness :
  let a1 := AirSenseApp.upload_img "sky.png" (Example.window_with None) in
  AirSenseApp.img_path a1 = Some "sky.png" /\
  AirSenseApp.an_btn_disabled a1 = false.
Proof.
  destruct (@upload_then_analyze Example.runtime (Example.services scenario_paris)
              "sky.png" (Example.window_with None) ltac:(discriminate))
    as (P & _ & _ & B & _).
  split; [exact P | exact B].
Defined.

Lemma started_app_is_configured_witness :
  main Sample.config = Mainloop /\
  @_initial_fetch Example.runtime Sample.config AirSenseApp.initial
  = AirSenseApp.fetch_aqi_by_ip_address AirSenseApp.initial.
Proof.
  split; [reflexivity|].
  exact (proj1 (@started_app_is_configured Example.runtime Sample.config
                  (Example.services scenario_paris) eq_refl eq_refl)
           AirSenseApp.initial).
Defined.

Lemma init_not_ok_witness :
  eq_str (VStr "error") "ok" = false /\
  @AQIData.__init__ Example.runtime Sample.feed_error
  = Ok (AQIData.set_is_valid false AQIData.fresh).
Proof.
  split; [reflexivity|].
  exact (proj1 (@init_not_ok Example.runtime
                  [("status", VStr "error"); ("data", VStr "Invalid key")]
                  (or_intror eq_refl))).
Defined.

Lemma operation_releases_controls_witness :
  let o := AirSenseApp.operation (Example.services Sample.feed_error)
             AirSenseApp.fetch_aqi_by_ip_address AirSenseApp.initial in
  AirSenseApp.worker_result o = Some (Ok tt) /\
  AirSenseApp.controls_disabled (AirSenseApp.final o) = false.
Proof.
  split; [reflexivity|].
  exact (proj2 (@operation_releases_controls Example.runtime
                  (Example.services Sample.feed_error)
                  AirSenseApp.fetch_aqi_by_ip_address AirSenseApp.initial
                  eq_refl)).
Defined.

Lemma triggers_disable_controls_witness :
  snd (AirSenseApp.fetch_by_input "Paris" (@AirSenseApp.initial Example.runtime))
  = AirSenseApp.Started (AirSenseApp.Job_geocode_with_gemini "Paris") /\
  AirSenseApp.controls_disabled
    (fst (AirSenseApp.fetch_by_input "Paris" (@AirSenseApp.initial Example.runtime)))
  = true.
Proof.
  split; [reflexivity|].
  apply (@triggers_disable_controls Example.runtime "Paris" "" ""
           AirSenseApp.initial (AirSenseApp.fetch_by_input "Paris")
           (or_intror (or_introl eq_refl))
           (AirSenseApp.Job_geocode_with_gemini "Paris")).
  reflexivity.
Defined.

Lemma fetch_by_input_coordinates_witness :
  Re.match_ Re.coordinates (strip " 1, 2 ") = true /\
  exists x y, split "," (strip " 1, 2 ") = [x; y] /\ Re.lang Re.number x.
Proof.
  split; [reflexivity|].
  destruct (@fetch_by_input_coordinates Example.runtime " 1, 2 "
              AirSenseApp.initial ltac:(discriminate) eq_refl)
    as (x & y & S & X & _).
  exists x, y. split; [exact S | exact X].
Defined.
